(** * Kalshi client (kcho29/forecasting): a shallow embedding and its properties

    The development follows [base/clients/clients.py] (the REST and
    WebSocket clients) and [base/NBA/nba_analysis.py] (the market fetch of
    the analysis script).

    Conventions of the embedding
    - Python values that travel through the client (arguments, JSON bodies,
      query parameters) are [PyVal]; a [dict] is an association list in
      insertion order, as Python dictionaries are ordered.
    - A Python [str] is a [string] of its UTF-8 bytes, so that
      [text.encode('utf-8')] is the list of its bytes.  The only character
      the client looks for, the question mark, is ASCII and never occurs
      inside a multi-byte sequence.
    - Effects are explicit: a computation takes the instance state and
      returns an outcome (a value or a raised exception), the new state and
      the events it emitted (sleeps, signatures, HTTP requests, WebSocket
      frames).  The wall clock is a field of the state, in microseconds,
      advanced by the platform by a delay it chooses at every effect. *)

From Stdlib Require Import ZArith NArith List String Ascii Bool Lia.
From Stdlib Require Import Sorting.Sorted.
From Stdlib Require Import DecimalString DecimalZ DecimalPos.
From Stdlib.Strings Require Import Byte.
Import ListNotations.

Local Open Scope string_scope.
Local Open Scope Z_scope.
Local Open Scope list_scope.

Infix "+++" := String.append (right associativity, at level 60).

(* ================================================================== *)
(** * Python values *)
(* ================================================================== *)

(** The objects of a JSON document and of the arguments of the client.
    Numbers are integers: the exchange reports prices, counts and exposures
    in whole cents and contracts. *)
#[warnings="-register-all"]
Inductive PyVal : Type :=
| VNone
| VBool (b : bool)
| VInt (z : Z)
| VStr (s : string)
| VList (l : list PyVal)
| VDict (d : list (string * PyVal)).

Abbreviation Dict := (list (string * PyVal)).

(** [v is not None] *)
Definition is_not_None (v : PyVal) : bool :=
  match v with VNone => false | _ => true end.

(** Truth value of an object, as tested by [if v:] *)
Definition truthy (v : PyVal) : bool :=
  match v with
  | VNone => false
  | VBool b => b
  | VInt z => negb (z =? 0)
  | VStr s => negb (String.eqb s EmptyString)
  | VList l => match l with [] => false | _ => true end
  | VDict d => match d with [] => false | _ => true end
  end.

(** [d.get(k)] on an insertion-ordered dictionary *)
Fixpoint dict_get (d : Dict) (k : string) : option PyVal :=
  match d with
  | [] => None
  | (k', v) :: rest => if String.eqb k' k then Some v else dict_get rest k
  end.

(** [d[k] = v]: the value is replaced in place, a new key goes last *)
Fixpoint dict_set (d : Dict) (k : string) (v : PyVal) : Dict :=
  match d with
  | [] => [(k, v)]
  | (k', v') :: rest =>
      if String.eqb k' k then (k', v) :: rest else (k', v') :: dict_set rest k v
  end.

(** [{k: v for k, v in d.items() if v is not None}] *)
Definition drop_None (d : Dict) : Dict :=
  filter (fun kv => is_not_None (snd kv)) d.

Definition dict_keys (d : Dict) : list string := map fst d.

(** [v != 0] for the values a JSON document holds: [bool] is a subclass of
    [int] ([False == 0]), every other kind of object differs from [0]. *)
Definition py_ne_zero (v : PyVal) : bool :=
  match v with
  | VInt z => negb (z =? 0)
  | VBool b => b
  | _ => true
  end.

(* ================================================================== *)
(** * Strings *)
(* ================================================================== *)

(** [s.split(c)] for a one-character separator: never the empty list *)
Fixpoint str_split (c : ascii) (s : string) : list string :=
  match s with
  | EmptyString => [EmptyString]
  | String a rest =>
      if Ascii.eqb a c then EmptyString :: str_split c rest
      else match str_split c rest with
           | [] => [String a EmptyString]
           | p :: ps => String a p :: ps
           end
  end.

(** [parts[0]] of a list that [str_split] produced *)
Definition first_part (parts : list string) : string :=
  match parts with [] => EmptyString | p :: _ => p end.

(** [str(n)] for an integer *)
Definition str (n : Z) : string := NilZero.string_of_int (Z.to_int n).

(** [sep.join(l)] *)
Fixpoint join (sep : string) (l : list string) : string :=
  match l with
  | [] => EmptyString
  | [x] => x
  | x :: rest => x +++ sep +++ join sep rest
  end.

Fixpoint occurs (c : ascii) (s : string) : bool :=
  match s with
  | EmptyString => false
  | String a rest => Ascii.eqb a c || occurs c rest
  end.

Definition question_mark : ascii := "?"%char.

(* ================================================================== *)
(** * base64.b64encode *)
(* ================================================================== *)

Definition b64_alphabet : string :=
  "ABCDEFGHIJKLMNOPQRSTUVWXYZabcdefghijklmnopqrstuvwxyz0123456789+/"%string.

Definition b64_digit (n : N) : ascii :=
  match String.get (N.to_nat n) b64_alphabet with
  | Some c => c
  | None => "="%char
  end.

Definition b64_pad : ascii := "="%char.

(** Three octets give four sextets; one or two trailing octets are padded. *)
Fixpoint b64encode_N (l : list N) : string :=
  match l with
  | [] => EmptyString
  | [a] =>
      String (b64_digit (N.shiftr a 2))
        (String (b64_digit (N.shiftl (N.land a 3) 4))
           (String b64_pad (String b64_pad EmptyString)))
  | [a; b] =>
      String (b64_digit (N.shiftr a 2))
        (String (b64_digit (N.lor (N.shiftl (N.land a 3) 4) (N.shiftr b 4)))
           (String (b64_digit (N.shiftl (N.land b 15) 2))
              (String b64_pad EmptyString)))
  | a :: b :: c :: rest =>
      String (b64_digit (N.shiftr a 2))
        (String (b64_digit (N.lor (N.shiftl (N.land a 3) 4) (N.shiftr b 4)))
           (String (b64_digit (N.lor (N.shiftl (N.land b 15) 2) (N.shiftr c 6)))
              (String (b64_digit (N.land c 63)) (b64encode_N rest))))
  end.

Definition b64encode (bs : list byte) : string :=
  b64encode_N (map Byte.to_N bs).

(** [text.encode('utf-8')] *)
Definition encode_utf8 (text : string) : list byte := list_byte_of_string text.

(* ================================================================== *)
(** * Exceptions, requests, responses, events *)
(* ================================================================== *)

Inductive PyExn : Type :=
| HTTPError (status : Z) (body : string)
    (** [requests.exceptions.HTTPError], which holds the response *)
| ConnectionError
| JSONDecodeError
| ValueError (msg : string)
| InvalidSignature
| UnsupportedAlgorithm
| TypeError
| AttributeError
| KeyError (key : string)
| ConnectionClosed (code : Z) (reason : string).

Inductive Result (A : Type) : Type :=
| Ok (a : A)
| Raise (e : PyExn).
Arguments Ok {A} a.
Arguments Raise {A} e.

Abbreviation Headers := (list (string * string)).

Record Request : Type := mkRequest {
  verb : string;
  url : string;
  headers : Headers;
  params : Dict;
  json_body : option PyVal
}.

(** [json_doc] is what [response.json()] yields; [None] when the body is not
    a JSON document *)
Record Response : Type := mkResponse {
  status_code : Z;
  text : string;
  json_doc : option PyVal
}.

Inductive Event : Type :=
| EvSleep (microseconds : Z)
| EvSign (message : list byte)
| EvHttp (sent_at : Z) (req : Request)
| EvWsConnect (host : string) (additional_headers : Headers)
| EvWsSend (frame : PyVal).

Definition http_requests (evs : list Event) : list Request :=
  flat_map (fun e => match e with EvHttp _ r => [r] | _ => [] end) evs.

Definition signed_messages (evs : list Event) : list (list byte) :=
  flat_map (fun e => match e with EvSign m => [m] | _ => [] end) evs.

Definition ws_frames (evs : list Event) : list PyVal :=
  flat_map (fun e => match e with EvWsSend f => [f] | _ => [] end) evs.

(* ================================================================== *)
(** * Credentials, platform, instance state *)
(* ================================================================== *)

Inductive Environment : Type := DEMO | PROD.

(** The object held in [self.private_key].  A key object carries its
    [sign] method, here at the fixed arguments of the client (PSS, MGF1
    over SHA-256, salt of the digest length, SHA-256); the index stands for
    the fresh salt of each call, and the method raises when the library
    rejects the key or the arguments.  [NotAKey] is an object without a
    [sign] attribute, such as [None]. *)
Inductive PrivateKey : Type :=
| RSAPrivateKey (sign : nat -> list byte -> Result (list byte))
| NotAKey.

Record Credentials : Type := mkCredentials {
  key_id : string;
  private_key : PrivateKey;
  environment : Environment
}.

(** What the client does not control: the delay (in microseconds) that
    passes at each effect, the answer of the HTTP transport, whether the
    WebSocket handshake succeeds and whether the socket takes a frame. *)
Record Platform : Type := mkPlatform {
  lag : nat -> Z;
  transport : nat -> Request -> Result Response;
  ws_connect : nat -> string -> Headers -> Result unit;
  ws_send : nat -> PyVal -> Result unit
}.

Record State : Type := mkState {
  last_api_call : Z;     (** [self.last_api_call], microseconds *)
  message_id : Z;        (** [self.message_id] of the WebSocket client *)
  now_us : Z;            (** the wall clock, microseconds *)
  ticks : nat            (** number of effects so far *)
}.

(* ================================================================== *)
(** * The effect monad *)
(* ================================================================== *)

Record Run (A : Type) : Type := mkRun {
  outcome : Result A;
  final : State;
  emitted : list Event
}.
Arguments mkRun {A} outcome final emitted.
Arguments outcome {A} r.
Arguments final {A} r.
Arguments emitted {A} r.

Definition M (A : Type) : Type := State -> Run A.

Definition ret {A} (a : A) : M A := fun s => mkRun (Ok a) s [].

Definition raise {A} (e : PyExn) : M A := fun s => mkRun (Raise e) s [].

Definition bind {A B} (m : M A) (k : A -> M B) : M B :=
  fun s =>
    match m s with
    | mkRun (Ok a) s1 evs1 =>
        match k a s1 with
        | mkRun o s2 evs2 => mkRun o s2 (evs1 ++ evs2)
        end
    | mkRun (Raise e) s1 evs1 => mkRun (Raise e) s1 evs1
    end.

Notation "x <- m ; k" := (bind m (fun x => k))
  (at level 61, m at next level, right associativity).
Notation "m ;; k" := (bind m (fun _ => k))
  (at level 61, right associativity).

(** [try: m  except <the classes h selects>: <handler>] *)
Definition try_except {A} (m : M A) (h : PyExn -> option (M A)) : M A :=
  fun s =>
    match m s with
    | mkRun (Ok a) s1 evs1 => mkRun (Ok a) s1 evs1
    | mkRun (Raise e) s1 evs1 =>
        match h e with
        | Some k =>
            match k s1 with
            | mkRun o s2 evs2 => mkRun o s2 (evs1 ++ evs2)
            end
        | None => mkRun (Raise e) s1 evs1
        end
    end.



Definition lift {A} (r : Result A) : M A :=
  match r with Ok a => ret a | Raise e => raise e end.

Definition emit (e : Event) : M unit := fun s => mkRun (Ok tt) s [e].

Definition read {A} (f : State -> A) : M A := fun s => mkRun (Ok (f s)) s [].

Definition set_last_api_call (t : Z) : M unit :=
  fun s => mkRun (Ok tt) (mkState t (message_id s) (now_us s) (ticks s)) [].

Definition set_message_id (n : Z) : M unit :=
  fun s => mkRun (Ok tt) (mkState (last_api_call s) n (now_us s) (ticks s)) [].

Section Effects.
Variable P : Platform.

(** Time passes: the platform adds its delay to the clock. *)
Definition elapse (extra : Z) : M nat :=
  fun s =>
    mkRun (Ok (ticks s))
      (mkState (last_api_call s) (message_id s)
         (now_us s + extra + lag P (ticks s)) (S (ticks s))) [].

(** [datetime.now()], in microseconds *)
Definition datetime_now : M Z := elapse 0 ;; read now_us.

(** [int(time.time() * 1000)] *)
Definition time_time_ms : M Z :=
  elapse 0 ;; t <- read now_us ; ret (t / 1000).

(** [time.sleep]: at least the requested time passes *)
Definition time_sleep (microseconds : Z) : M unit :=
  emit (EvSleep microseconds) ;; elapse microseconds ;; ret tt.

(** [requests.get], [requests.post], [requests.delete] *)
Definition requests_send (req : Request) : M Response :=
  i <- elapse 0 ;
  t <- read now_us ;
  emit (EvHttp t req) ;;
  lift (transport P i req).

(** [websockets.connect(host, additional_headers=auth_headers)] *)
Definition websockets_connect (host : string) (additional_headers : Headers) : M unit :=
  i <- elapse 0 ;
  emit (EvWsConnect host additional_headers) ;;
  lift (ws_connect P i host additional_headers).

(** [await self.ws.send(json.dumps(message))]: the frame is the message
    that [json.dumps] serialises; it is on the wire only if the socket
    takes it. *)
Definition websocket_send (frame : PyVal) : M unit :=
  i <- elapse 0 ;
  match ws_send P i frame with
  | Ok _ => emit (EvWsSend frame)
  | Raise e => raise e
  end.

End Effects.

(* ================================================================== *)
(** * KalshiBaseClient *)
(* ================================================================== *)

Section KalshiBaseClient.
Variable P : Platform.
Variable C : Credentials.

Definition HTTP_BASE_URL : string :=
  match environment C with
  | DEMO => "https://demo-api.kalshi.co"
  | PROD => "https://api.elections.kalshi.com"
  end.

Definition WS_BASE_URL : string :=
  match environment C with
  | DEMO => "wss://demo-api.kalshi.co"
  | PROD => "wss://api.elections.kalshi.com"
  end.


(** [self.private_key.sign(message, padding.PSS(...), hashes.SHA256())] *)
Definition private_key_sign (message : list byte) : M (list byte) :=
  match private_key C with
  | RSAPrivateKey sign =>
      i <- elapse P 0 ;
      emit (EvSign message) ;;
      lift (sign i message)
  | NotAKey => raise AttributeError
  end.

Definition sign_pss_text (text : string) : M string :=
  let message := encode_utf8 text in
  try_except
    (signature <- private_key_sign message ;
     ret (b64encode signature))
    (fun e =>
       match e with
       | InvalidSignature => Some (raise (ValueError "RSA sign PSS failed"))
       | _ => None
       end).

Definition request_headers (method : string) (path : string) : M Headers :=
  current_time_milliseconds <- time_time_ms P ;
  let timestamp_str := str current_time_milliseconds in
  let path_parts := str_split question_mark path in
  let msg_string := timestamp_str +++ method +++ first_part path_parts in
  signature <- sign_pss_text msg_string ;
  ret [ ("Content-Type", "application/json");
        ("KALSHI-ACCESS-KEY", key_id C);
        ("KALSHI-ACCESS-SIGNATURE", signature);
        ("KALSHI-ACCESS-TIMESTAMP", timestamp_str) ].

(* ================================================================== *)
(** * KalshiHttpClient: transport *)
(* ================================================================== *)

Definition host : string := HTTP_BASE_URL.
Definition base : string := "/trade-api/v2".
Definition exchange_url : string := base +++ "/exchange".
Definition markets_url : string := base +++ "/markets".
Definition portfolio_url : string := base +++ "/portfolio".
Definition events_url : string := base +++ "/events".
Definition series_url : string := base +++ "/series".
Definition communications_url : string := base +++ "/communications".

Definition THRESHOLD_IN_MILLISECONDS : Z := 100.

(** The sleep is [THRESHOLD_IN_MILLISECONDS / 1000] seconds, given here in
    microseconds like the clock. *)
Definition rate_limit : M unit :=
  now <- datetime_now P ;
  let threshold_in_microseconds := 1000 * THRESHOLD_IN_MILLISECONDS in
  let threshold_in_seconds_as_us := THRESHOLD_IN_MILLISECONDS * 1000 in
  last <- read last_api_call ;
  (if now - last <? threshold_in_microseconds
   then time_sleep P threshold_in_seconds_as_us
   else ret tt) ;;
  t <- datetime_now P ;
  set_last_api_call t.

(** [x in range(lo, hi)] *)
Definition in_range (lo hi x : Z) : bool := (lo <=? x) && (x <? hi).

(** [Response.raise_for_status] of the requests library: an [HTTPError] for
    a client error (4xx) or a server error (5xx), nothing otherwise. *)
Definition raise_for_status (response : Response) : M unit :=
  if in_range 400 500 (status_code response)
  then raise (HTTPError (status_code response) (text response))
  else if in_range 500 600 (status_code response)
  then raise (HTTPError (status_code response) (text response))
  else ret tt.

Definition raise_if_bad_response (response : Response) : M unit :=
  if negb (in_range 200 299 (status_code response))
  then raise_for_status response
  else ret tt.

(** [response.json()] *)
Definition response_json (response : Response) : M PyVal :=
  match json_doc response with
  | Some v => ret v
  | None => raise JSONDecodeError
  end.

Definition post (path : string) (body : PyVal) : M PyVal :=
  rate_limit ;;
  hdrs <- request_headers "POST" path ;
  response <- requests_send P (mkRequest "POST" (host +++ path) hdrs [] (Some body)) ;
  raise_if_bad_response response ;;
  response_json response.

Definition get (path : string) (params : Dict) : M PyVal :=
  rate_limit ;;
  hdrs <- request_headers "GET" path ;
  response <- requests_send P (mkRequest "GET" (host +++ path) hdrs params None) ;
  raise_if_bad_response response ;;
  response_json response.

Definition delete (path : string) (params : Dict) : M PyVal :=
  rate_limit ;;
  hdrs <- request_headers "DELETE" path ;
  response <- requests_send P (mkRequest "DELETE" (host +++ path) hdrs params None) ;
  raise_if_bad_response response ;;
  response_json response.

End KalshiBaseClient.

(* ================================================================== *)
(** * Operations on JSON documents *)
(* ================================================================== *)

(** [obj.get(k, default)]: only a [dict] has the method *)
Definition py_get (obj : PyVal) (k : string) (default : PyVal) : Result PyVal :=
  match obj with
  | VDict d => Ok (match dict_get d k with Some v => v | None => default end)
  | _ => Raise AttributeError
  end.

(** [for x in v]: a list gives its elements, a [dict] its keys, a string
    its characters; [None] and numbers are not iterable *)
Definition py_iter (v : PyVal) : Result (list PyVal) :=
  match v with
  | VList l => Ok l
  | VDict d => Ok (map VStr (dict_keys d))
  | VStr s => Ok (map (fun c => VStr (String c EmptyString)) (list_ascii_of_string s))
  | _ => Raise TypeError
  end.

(** [len(v)] *)
Definition py_len (v : PyVal) : Result Z :=
  match v with
  | VList l => Ok (Z.of_nat (List.length l))
  | VDict d => Ok (Z.of_nat (List.length d))
  | VStr s => Ok (Z.of_nat (String.length s))
  | _ => Raise TypeError
  end.

Definition is_VStr (k : string) (v : PyVal) : bool :=
  match v with VStr s => String.eqb s k | _ => false end.

(** [k in v] for a string [k] *)
Definition py_contains (k : string) (v : PyVal) : Result bool :=
  match v with
  | VDict d => Ok (match dict_get d k with Some _ => true | None => false end)
  | VList l => Ok (existsb (is_VStr k) l)
  | VStr s => Ok (match String.index 0 k s with Some _ => true | None => false end)
  | _ => Raise TypeError
  end.

(** [v[k]] for a string [k] *)
Definition py_getitem (v : PyVal) (k : string) : Result PyVal :=
  match v with
  | VDict d => match dict_get d k with Some x => Ok x | None => Raise (KeyError k) end
  | _ => Raise TypeError
  end.

(** [[position for position in positions
      if position.get("market_exposure", 0) != 0]] *)
Fixpoint exposed (positions : list PyVal) : Result (list PyVal) :=
  match positions with
  | [] => Ok []
  | position :: rest =>
      match py_get position "market_exposure" (VInt 0) with
      | Raise e => Raise e
      | Ok exposure =>
          match exposed rest with
          | Raise e => Raise e
          | Ok kept => Ok (if py_ne_zero exposure then position :: kept else kept)
          end
      end
  end.

(* ================================================================== *)
(** * KalshiHttpClient: endpoints *)
(* ================================================================== *)

Section KalshiHttpClient.
Variable P : Platform.
Variable C : Credentials.

Definition get_exchange_announcements (cursor limit : PyVal) : M PyVal :=
  let params := [("cursor", cursor); ("limit", limit)] in
  let params := drop_None params in
  get P C (exchange_url +++ "/announcements") params.

Definition get_positions
  (cursor limit count_filter settlement_status ticker event_ticker : PyVal) : M PyVal :=
  let params :=
    [ ("cursor", cursor); ("limit", limit); ("count_filter", count_filter);
      ("settlement_status", settlement_status); ("ticker", ticker);
      ("event_ticker", event_ticker) ] in
  let params := drop_None params in
  get P C (portfolio_url +++ "/positions") params.

Definition get_fills (ticker order_id min_ts max_ts limit cursor : PyVal) : M PyVal :=
  let params :=
    [ ("ticker", ticker); ("order_id", order_id); ("min_ts", min_ts);
      ("max_ts", max_ts); ("limit", limit); ("cursor", cursor) ] in
  let params := drop_None params in
  get P C (portfolio_url +++ "/fills") params.

Definition get_orders
  (ticker event_ticker min_ts max_ts status cursor limit : PyVal) : M PyVal :=
  let params :=
    [ ("ticker", ticker); ("event_ticker", event_ticker); ("min_ts", min_ts);
      ("max_ts", max_ts); ("status", status); ("cursor", cursor);
      ("limit", limit) ] in
  let params := drop_None params in
  get P C (portfolio_url +++ "/orders") params.

Definition create_order
  (action client_order_id count side ticker type
   buy_max_cost expiration_ts no_price post_only sell_position_floor yes_price : PyVal)
  : M PyVal :=
  let order_data :=
    [ ("action", action); ("client_order_id", client_order_id);
      ("count", count); ("side", side); ("ticker", ticker); ("type", type);
      ("buy_max_cost", buy_max_cost); ("expiration_ts", expiration_ts);
      ("no_price", no_price); ("post_only", post_only);
      ("sell_position_floor", sell_position_floor); ("yes_price", yes_price) ] in
  let order_data := drop_None order_data in
  post P C (portfolio_url +++ "/orders") (VDict order_data).

Definition amend_order
  (order_id : string)
  (action client_order_id count side ticker updated_client_order_id
   no_price yes_price : PyVal) : M PyVal :=
  if (negb (is_not_None yes_price) && negb (is_not_None no_price))
     || (is_not_None yes_price && is_not_None no_price)
  then raise (ValueError "Exactly one of yes_price or no_price must be provided.")
  else
    let amend_data :=
      [ ("action", action); ("client_order_id", client_order_id);
        ("count", count); ("side", side); ("ticker", ticker);
        ("updated_client_order_id", updated_client_order_id);
        ("no_price", no_price); ("yes_price", yes_price) ] in
    let amend_data := drop_None amend_data in
    post P C (portfolio_url +++ "/orders/" +++ order_id +++ "/amend") (VDict amend_data).

Definition decrease_order (order_id : string) (reduce_by reduce_to : PyVal) : M PyVal :=
  if (negb (is_not_None reduce_by) && negb (is_not_None reduce_to))
     || (is_not_None reduce_by && is_not_None reduce_to)
  then raise (ValueError "Exactly one of reduce_by or reduce_to must be provided.")
  else
    let payload := [("reduce_by", reduce_by); ("reduce_to", reduce_to)] in
    let payload := drop_None payload in
    let endpoint := portfolio_url +++ "/orders/" +++ order_id +++ "/decrease" in
    post P C endpoint (VDict payload).

Definition get_exposed_positions
  (cursor limit count_filter settlement_status ticker event_ticker : PyVal) : M PyVal :=
  portfolio_data <-
    get_positions cursor limit count_filter settlement_status ticker event_ticker ;
  market_positions <- lift (py_get portfolio_data "market_positions" (VList [])) ;
  positions <- lift (py_iter market_positions) ;
  filtered_positions <- lift (exposed positions) ;
  result_cursor <- lift (py_get portfolio_data "cursor" (VStr "")) ;
  ret (VDict [("cursor", result_cursor);
              ("market_positions", VList filtered_positions)]).

Definition create_batched_orders (orders : PyVal) : M PyVal :=
  let payload := [("orders", orders)] in
  post P C (portfolio_url +++ "/orders/batched") (VDict payload).

(** The one request the client builds by hand: a DELETE with a JSON body *)
Definition cancel_batched_orders (ids : PyVal) : M PyVal :=
  let payload := [("ids", ids)] in
  rate_limit P ;;
  hdrs <- request_headers P C "DELETE" (portfolio_url +++ "/orders/batched") ;
  response <- requests_send P
                (mkRequest "DELETE" (host C +++ portfolio_url +++ "/orders/batched")
                   hdrs [] (Some (VDict payload))) ;
  raise_if_bad_response response ;;
  response_json response.

Definition get_settlements
  (ticker event_ticker min_ts max_ts limit cursor : PyVal) : M PyVal :=
  let params :=
    [ ("ticker", ticker); ("event_ticker", event_ticker); ("min_ts", min_ts);
      ("max_ts", max_ts); ("limit", limit); ("cursor", cursor) ] in
  let params := drop_None params in
  get P C (portfolio_url +++ "/settlements") params.

Definition get_portfolio_settlements (limit min_ts max_ts cursor : PyVal) : M PyVal :=
  let params :=
    [ ("limit", limit); ("min_ts", min_ts); ("max_ts", max_ts);
      ("cursor", cursor) ] in
  let params := drop_None params in
  get P C (portfolio_url +++ "/settlements") params.

Definition get_markets
  (event_ticker series_ticker max_close_ts min_close_ts limit cursor status : PyVal)
  : M PyVal :=
  let params :=
    [ ("event_ticker", event_ticker); ("series_ticker", series_ticker);
      ("max_close_ts", max_close_ts); ("min_close_ts", min_close_ts);
      ("limit", limit); ("cursor", cursor); ("status", status) ] in
  let params := drop_None params in
  get P C markets_url params.

Definition get_trades (ticker limit cursor max_ts min_ts : PyVal) : M PyVal :=
  let params :=
    [ ("ticker", ticker); ("limit", limit); ("cursor", cursor);
      ("max_ts", max_ts); ("min_ts", min_ts) ] in
  let params := drop_None params in
  get P C (markets_url +++ "/trades") params.

Definition get_events (ticker : PyVal) : M PyVal :=
  let params := if truthy ticker then [("ticker", ticker)] else [] in
  get P C "/trade-api/v2/events/" params.

Definition get_event_candlesticks
  (series_ticker event_ticker : string) (start_ts end_ts period_interval : PyVal)
  : M PyVal :=
  let params :=
    [ ("start_ts", start_ts); ("end_ts", end_ts);
      ("period_interval", period_interval) ] in
  let params := drop_None params in
  get P C (series_url +++ "/" +++ series_ticker +++ "/events/" +++ event_ticker
           +++ "/candlesticks") params.

Definition get_multivariate_events (limit cursor status : PyVal) : M PyVal :=
  let params := [("limit", limit); ("cursor", cursor); ("status", status)] in
  let params := drop_None params in
  get P C "/trade-api/v2/events/multivariate" params.

Definition get_event_forecast_percentile_history
  (series_ticker event_ticker : string) (min_ts max_ts : PyVal) : M PyVal :=
  let params := [("min_ts", min_ts); ("max_ts", max_ts)] in
  let params := drop_None params in
  get P C (series_url +++ "/" +++ series_ticker +++ "/events/" +++ event_ticker
           +++ "/forecast_percentile_history") params.

Definition get_all_series (limit cursor : PyVal) : M PyVal :=
  let params := [("limit", limit); ("cursor", cursor)] in
  let params := drop_None params in
  get P C series_url params.

Definition get_market_candlesticks
  (series_ticker ticker : string) (start_ts end_ts period_interval : Z) : M PyVal :=
  get P C ("/trade-api/v2/series/" +++ series_ticker +++ "/markets/" +++ ticker
           +++ "/candlesticks?start_ts=" +++ str start_ts +++ "&end_ts=" +++ str end_ts
           +++ "&period_interval=" +++ str period_interval) [].

Definition get_quotes (cursor limit market_ticker event_ticker status : PyVal) : M PyVal :=
  let params :=
    [ ("market_ticker", market_ticker); ("event_ticker", event_ticker);
      ("status", status); ("cursor", cursor); ("limit", limit) ] in
  let params := drop_None params in
  get P C (communications_url +++ "/quotes") params.

(** [milestone_ids] and [data_types] are lists of strings or [None] *)
Definition get_live_data_batch (milestone_ids data_types : option (list string)) : M PyVal :=
  let params := [] in
  let params :=
    match milestone_ids with
    | Some ((_ :: _) as l) => dict_set params "milestone_ids" (VStr (join "," l))
    | _ => params
    end in
  let params :=
    match data_types with
    | Some ((_ :: _) as l) => dict_set params "data_types" (VStr (join "," l))
    | _ => params
    end in
  get P C "/trade-api/v2/live_data/batch" params.

End KalshiHttpClient.

(* ================================================================== *)
(** * nba_analysis.get_nba_game_markets *)
(* ================================================================== *)

Section NbaAnalysis.
Variable P : Platform.
Variable C : Credentials.

(** The two [print] calls write nothing this model observes, but the second
    evaluates [len(all_markets)], which raises for an object without a
    length. *)
Definition get_nba_game_markets (limit : PyVal) : M PyVal :=
  response <- get_markets P C VNone (VStr "KXNBAGAME") VNone VNone limit VNone
                (VStr "settled") ;
  has_markets <- lift (py_contains "markets" response) ;
  if negb has_markets then ret (VList [])
  else
    all_markets <- lift (py_getitem response "markets") ;
    _ <- lift (py_len all_markets) ;
    ret all_markets.

End NbaAnalysis.

(* ================================================================== *)
(** * KalshiWebSocketClient *)
(* ================================================================== *)

Section KalshiWebSocketClient.
Variable P : Platform.
Variable C : Credentials.

Definition url_suffix : string := "/trade-api/ws/v2".


(** [self.message_id += 1] *)
Definition increment_message_id : M unit :=
  n <- read message_id ; set_message_id (n + 1).

Definition command (id : Z) (cmd : string) (channels : list string) : PyVal :=
  VDict [ ("id", VInt id); ("cmd", VStr cmd);
          ("params", VDict [("channels", VList (map VStr channels))]) ].

Definition subscribe_to_tickers : M unit :=
  id <- read message_id ;
  let subscription_message := command id "subscribe" ["ticker"] in
  websocket_send P subscription_message ;;
  increment_message_id.

Definition subscribe_to_specific_tickers (tickers : list string) : M unit :=
  id <- read message_id ;
  let subscription_message :=
    command id "subscribe" (map (fun ticker => "ticker:" +++ ticker) tickers) in
  websocket_send P subscription_message ;;
  increment_message_id.

Definition subscribe_to_orderbook (ticker : string) : M unit :=
  id <- read message_id ;
  let subscription_message :=
    command id "subscribe" ["orderbook_delta:" +++ ticker] in
  websocket_send P subscription_message ;;
  increment_message_id.

(** [ticker] defaults to [None]; [if ticker:] also sends the empty string
    to the general channel *)
Definition subscribe_to_trades (ticker : option string) : M unit :=
  let channel :=
    match ticker with
    | Some t => if String.eqb t "" then "trade" else "trade:" +++ t
    | None => "trade"
    end in
  id <- read message_id ;
  let subscription_message := command id "subscribe" [channel] in
  websocket_send P subscription_message ;;
  increment_message_id.

Definition unsubscribe_from_channel (channel : string) : M unit :=
  id <- read message_id ;
  let unsubscribe_message := command id "unsubscribe" [channel] in
  websocket_send P unsubscribe_message ;;
  increment_message_id.

(** [message["id"] = self.message_id] overwrites an id the caller put *)
Definition send_custom_message (message : Dict) : M unit :=
  id <- read message_id ;
  let message := dict_set message "id" (VInt id) in
  websocket_send P (VDict message) ;;
  increment_message_id.

Definition on_open : M unit := subscribe_to_tickers.

(** The read loop hands every inbound message to [on_message], which
    prints it; it sends nothing. *)
Definition handler : M unit := ret tt.

Definition connect : M unit :=
  let host := WS_BASE_URL C +++ url_suffix in
  auth_headers <- request_headers P C "GET" url_suffix ;
  websockets_connect P host auth_headers ;;
  on_open ;;
  handler.

(** The outbound operations of a session, as a caller may issue them *)
Inductive WsCall : Type :=
| CallOnOpen
| CallSubscribeToTickers
| CallSubscribeToSpecificTickers (tickers : list string)
| CallSubscribeToOrderbook (ticker : string)
| CallSubscribeToTrades (ticker : option string)
| CallUnsubscribeFromChannel (channel : string)
| CallSendCustomMessage (message : Dict).

Definition ws_call (c : WsCall) : M unit :=
  match c with
  | CallOnOpen => on_open
  | CallSubscribeToTickers => subscribe_to_tickers
  | CallSubscribeToSpecificTickers tickers => subscribe_to_specific_tickers tickers
  | CallSubscribeToOrderbook ticker => subscribe_to_orderbook ticker
  | CallSubscribeToTrades ticker => subscribe_to_trades ticker
  | CallUnsubscribeFromChannel channel => unsubscribe_from_channel channel
  | CallSendCustomMessage message => send_custom_message message
  end.

End KalshiWebSocketClient.

(** The [id] a frame carries *)
Definition frame_id (frame : PyVal) : option Z :=
  match frame with
  | VDict d => match dict_get d "id" with Some (VInt n) => Some n | _ => None end
  | _ => None
  end.

(** The REST primitives, as a caller may issue them *)
Inductive RestCall : Type :=
| CallGet (path : string) (params : Dict)
| CallPost (path : string) (body : PyVal)
| CallDelete (path : string) (params : Dict)
| CallCancelBatched (ids : PyVal).

Definition rest_call (P : Platform) (C : Credentials) (c : RestCall) : M PyVal :=
  match c with
  | CallGet path params => get P C path params
  | CallPost path body => post P C path body
  | CallDelete path params => delete P C path params
  | CallCancelBatched ids => cancel_batched_orders P C ids
  end.

(** The states a sequence of calls goes through, and what each call did:
    the instant it left in [last_api_call] and the events it emitted. *)
Fixpoint observe {A} (calls : list (M A)) (s : State) : list (Z * list Event) :=
  match calls with
  | [] => []
  | m :: rest =>
      let r := m s in
      (last_api_call (final r), emitted r) :: observe rest (final r)
  end.



(* ================================================================== *)
(** * rate_limit under two threads *)
(* ================================================================== *)

(** Two threads of one process run [rate_limit] on the same client.  A
    thread is pre-empted between statements only; the scheduler picks who
    runs next and how much time passes. *)
Module Interleaving.

Inductive Tid : Type := T1 | T2.

Inductive Pc : Type :=
| AtEntry                 (** before [now = datetime.now()] *)
| AtCompare (now : Z)     (** before [if now - self.last_api_call < ...] *)
| AtSleep                 (** before [time.sleep(threshold_in_seconds)] *)
| Sleeping (until : Z)    (** inside [time.sleep] *)
| AtUpdate                (** before the second [datetime.now()] *)
| AtStore (t : Z)         (** before the store to [self.last_api_call] *)
| Returned (recorded : Z).

Record Sys : Type := mkSys {
  clock : Z;
  shared_last_api_call : Z;
  pc1 : Pc;
  pc2 : Pc
}.

Definition pc_of (i : Tid) (s : Sys) : Pc :=
  match i with T1 => pc1 s | T2 => pc2 s end.

Definition with_pc (i : Tid) (p : Pc) (s : Sys) : Sys :=
  match i with
  | T1 => mkSys (clock s) (shared_last_api_call s) p (pc2 s)
  | T2 => mkSys (clock s) (shared_last_api_call s) (pc1 s) p
  end.

Definition store (t : Z) (s : Sys) : Sys :=
  mkSys (clock s) t (pc1 s) (pc2 s).

Definition threshold_in_microseconds : Z := 1000 * THRESHOLD_IN_MILLISECONDS.

(** One statement of thread [i]; [None] when it cannot run (asleep, or
    already returned). *)
Definition thread_step (i : Tid) (s : Sys) : option Sys :=
  match pc_of i s with
  | AtEntry => Some (with_pc i (AtCompare (clock s)) s)
  | AtCompare now =>
      if now - shared_last_api_call s <? threshold_in_microseconds
      then Some (with_pc i AtSleep s)
      else Some (with_pc i AtUpdate s)
  | AtSleep => Some (with_pc i (Sleeping (clock s + threshold_in_microseconds)) s)
  | Sleeping until =>
      if until <=? clock s then Some (with_pc i AtUpdate s) else None
  | AtUpdate => Some (with_pc i (AtStore (clock s)) s)
  | AtStore t => Some (store t (with_pc i (Returned t) s))
  | Returned _ => None
  end.

Inductive Action : Type :=
| Tick (d : Z)     (** [d] microseconds pass *)
| Run (i : Tid).   (** thread [i] runs one statement *)

Definition act (a : Action) (s : Sys) : option Sys :=
  match a with
  | Tick d =>
      if 0 <=? d
      then Some (mkSys (clock s + d) (shared_last_api_call s) (pc1 s) (pc2 s))
      else None
  | Run i => thread_step i s
  end.

Fixpoint exec (schedule : list Action) (s : Sys) : option Sys :=
  match schedule with
  | [] => Some s
  | a :: rest =>
      match act a s with
      | Some s' => exec rest s'
      | None => None
      end
  end.





(** The schedule under which one thread, alone, meets the delays that the
    platform gives to [rate_limit] in state [s] *)
Definition solo_schedule (P : Platform) (s : State) : list Action :=
  let i := ticks s in
  let now := now_us s + 0 + lag P i in
  [Tick (0 + lag P i); Run T2; Run T2] ++
  (if now - last_api_call s <? 1000 * THRESHOLD_IN_MILLISECONDS
   then [Run T2; Tick (THRESHOLD_IN_MILLISECONDS * 1000 + lag P (S i)); Run T2;
         Tick (0 + lag P (S (S i))); Run T2; Run T2]
   else [Tick (0 + lag P (S i)); Run T2; Run T2]).

End Interleaving.

(* ================================================================== *)
(** * The filtered collection operations, as a caller may issue them *)
(* ================================================================== *)

Inductive FilteredCall : Type :=
| Call_get_exchange_announcements (cursor limit : PyVal)
| Call_get_positions
    (cursor limit count_filter settlement_status ticker event_ticker : PyVal)
| Call_get_fills (ticker order_id min_ts max_ts limit cursor : PyVal)
| Call_get_orders (ticker event_ticker min_ts max_ts status cursor limit : PyVal)
| Call_get_settlements (ticker event_ticker min_ts max_ts limit cursor : PyVal)
| Call_get_portfolio_settlements (limit min_ts max_ts cursor : PyVal)
| Call_get_markets
    (event_ticker series_ticker max_close_ts min_close_ts limit cursor status : PyVal)
| Call_get_trades (ticker limit cursor max_ts min_ts : PyVal)
| Call_get_events (ticker : PyVal)
| Call_get_event_candlesticks
    (series_ticker event_ticker : string) (start_ts end_ts period_interval : PyVal)
| Call_get_multivariate_events (limit cursor status : PyVal)
| Call_get_event_forecast_percentile_history
    (series_ticker event_ticker : string) (min_ts max_ts : PyVal)
| Call_get_all_series (limit cursor : PyVal)
| Call_get_quotes (cursor limit market_ticker event_ticker status : PyVal)
| Call_get_live_data_batch (milestone_ids data_types : option (list string)).

Definition filtered_call (P : Platform) (C : Credentials) (c : FilteredCall) : M PyVal :=
  match c with
  | Call_get_exchange_announcements cursor limit =>
      get_exchange_announcements P C cursor limit
  | Call_get_positions cursor limit count_filter settlement_status ticker event_ticker =>
      get_positions P C cursor limit count_filter settlement_status ticker event_ticker
  | Call_get_fills ticker order_id min_ts max_ts limit cursor =>
      get_fills P C ticker order_id min_ts max_ts limit cursor
  | Call_get_orders ticker event_ticker min_ts max_ts status cursor limit =>
      get_orders P C ticker event_ticker min_ts max_ts status cursor limit
  | Call_get_settlements ticker event_ticker min_ts max_ts limit cursor =>
      get_settlements P C ticker event_ticker min_ts max_ts limit cursor
  | Call_get_portfolio_settlements limit min_ts max_ts cursor =>
      get_portfolio_settlements P C limit min_ts max_ts cursor
  | Call_get_markets event_ticker series_ticker max_close_ts min_close_ts limit cursor status =>
      get_markets P C event_ticker series_ticker max_close_ts min_close_ts limit cursor status
  | Call_get_trades ticker limit cursor max_ts min_ts =>
      get_trades P C ticker limit cursor max_ts min_ts
  | Call_get_events ticker => get_events P C ticker
  | Call_get_event_candlesticks series_ticker event_ticker start_ts end_ts period_interval =>
      get_event_candlesticks P C series_ticker event_ticker start_ts end_ts period_interval
  | Call_get_multivariate_events limit cursor status =>
      get_multivariate_events P C limit cursor status
  | Call_get_event_forecast_percentile_history series_ticker event_ticker min_ts max_ts =>
      get_event_forecast_percentile_history P C series_ticker event_ticker min_ts max_ts
  | Call_get_all_series limit cursor => get_all_series P C limit cursor
  | Call_get_quotes cursor limit market_ticker event_ticker status =>
      get_quotes P C cursor limit market_ticker event_ticker status
  | Call_get_live_data_batch milestone_ids data_types =>
      get_live_data_batch P C milestone_ids data_types
  end.

(** A list-of-strings argument as the Python object the caller passes *)
Definition as_PyVal (l : option (list string)) : PyVal :=
  match l with Some l => VList (map VStr l) | None => VNone end.

(** The optional filter arguments of a call, by parameter name, with the
    object the caller passed ([None] for an omitted one). *)
Definition filters (c : FilteredCall) : Dict :=
  match c with
  | Call_get_exchange_announcements cursor limit =>
      [("cursor", cursor); ("limit", limit)]
  | Call_get_positions cursor limit count_filter settlement_status ticker event_ticker =>
      [("cursor", cursor); ("limit", limit); ("count_filter", count_filter);
       ("settlement_status", settlement_status); ("ticker", ticker);
       ("event_ticker", event_ticker)]
  | Call_get_fills ticker order_id min_ts max_ts limit cursor =>
      [("ticker", ticker); ("order_id", order_id); ("min_ts", min_ts);
       ("max_ts", max_ts); ("limit", limit); ("cursor", cursor)]
  | Call_get_orders ticker event_ticker min_ts max_ts status cursor limit =>
      [("ticker", ticker); ("event_ticker", event_ticker); ("min_ts", min_ts);
       ("max_ts", max_ts); ("status", status); ("cursor", cursor); ("limit", limit)]
  | Call_get_settlements ticker event_ticker min_ts max_ts limit cursor =>
      [("ticker", ticker); ("event_ticker", event_ticker); ("min_ts", min_ts);
       ("max_ts", max_ts); ("limit", limit); ("cursor", cursor)]
  | Call_get_portfolio_settlements limit min_ts max_ts cursor =>
      [("limit", limit); ("min_ts", min_ts); ("max_ts", max_ts); ("cursor", cursor)]
  | Call_get_markets event_ticker series_ticker max_close_ts min_close_ts limit cursor status =>
      [("event_ticker", event_ticker); ("series_ticker", series_ticker);
       ("max_close_ts", max_close_ts); ("min_close_ts", min_close_ts);
       ("limit", limit); ("cursor", cursor); ("status", status)]
  | Call_get_trades ticker limit cursor max_ts min_ts =>
      [("ticker", ticker); ("limit", limit); ("cursor", cursor);
       ("max_ts", max_ts); ("min_ts", min_ts)]
  | Call_get_events ticker => [("ticker", ticker)]
  | Call_get_event_candlesticks _ _ start_ts end_ts period_interval =>
      [("start_ts", start_ts); ("end_ts", end_ts); ("period_interval", period_interval)]
  | Call_get_multivariate_events limit cursor status =>
      [("limit", limit); ("cursor", cursor); ("status", status)]
  | Call_get_event_forecast_percentile_history _ _ min_ts max_ts =>
      [("min_ts", min_ts); ("max_ts", max_ts)]
  | Call_get_all_series limit cursor => [("limit", limit); ("cursor", cursor)]
  | Call_get_quotes cursor limit market_ticker event_ticker status =>
      [("market_ticker", market_ticker); ("event_ticker", event_ticker);
       ("status", status); ("cursor", cursor); ("limit", limit)]
  | Call_get_live_data_batch milestone_ids data_types =>
      [("milestone_ids", as_PyVal milestone_ids); ("data_types", as_PyVal data_types)]
  end.

(** The operations that build their parameters with the comprehension
    that drops [None]; the other two test the truth value instead. *)
Definition drops_None_only (c : FilteredCall) : bool :=
  match c with
  | Call_get_events _ | Call_get_live_data_batch _ _ => false
  | _ => true
  end.

(** The mapping sent holds exactly the supplied filters, each with its
    value. *)
Definition exactly_supplied (c : FilteredCall) (sent : Dict) : Prop :=
  forall k v, dict_get sent k = Some v <-> (In (k, v) (filters c) /\ v <> VNone).

(* ================================================================== *)
(** * Test doubles *)
(* ================================================================== *)

(** A platform on which every effect takes [d] microseconds, the transport
    answers with [answer] and the socket takes everything. *)
Definition mock_platform (d : Z) (answer : Request -> Result Response) : Platform :=
  mkPlatform (fun _ => d) (fun _ => answer) (fun _ _ _ => Ok tt) (fun _ _ => Ok tt).

Definition replies (status : Z) (doc : PyVal) : Request -> Result Response :=
  fun _ => Ok (mkResponse status "raw body" (Some doc)).

(** A key whose signature of a message is the message itself *)
Definition mock_key : PrivateKey := RSAPrivateKey (fun _ message => Ok message).

Definition mock_credentials : Credentials := mkCredentials "key-id" mock_key PROD.

(** 2024-10-27T03:33:20Z in microseconds *)
Definition an_instant : Z := 1730000000000000.

Definition mock_state : State := mkState an_instant 1 an_instant 0.

(** A collection endpoint that serves [items] in pages: it honours the
    [limit] of the request up to its own cap, starts at the offset the
    [cursor] names, and returns a cursor only while items remain. *)
Definition paged_source (items : list PyVal) (cap : nat) : Request -> Result Response :=
  fun req =>
    let offset :=
      match dict_get (params req) "cursor" with
      | Some (VStr c) =>
          match NilZero.int_of_string c with
          | Some n => Z.to_nat (Z.of_int n)
          | None => 0%nat
          end
      | _ => 0%nat
      end in
    let size :=
      match dict_get (params req) "limit" with
      | Some (VInt n) => Nat.min cap (Z.to_nat n)
      | _ => cap
      end in
    let page := firstn size (skipn offset items) in
    let next := (offset + size)%nat in
    let doc :=
      if (next <? List.length items)%nat
      then [("markets", VList page); ("cursor", VStr (str (Z.of_nat next)))]
      else [("markets", VList page)] in
    Ok (mkResponse 200 "" (Some (VDict doc))).

Definition market (ticker : string) : PyVal :=
  VDict [("ticker", VStr ticker); ("event_ticker", VStr "KXNBAGAME-25NOV01")].

(* ================================================================== *)
(** * The common shape of the REST primitives *)
(* ================================================================== *)

(** [get], [post], [delete] and the hand-built batch cancellation are the
    same five statements around a different [requests] call. *)
Definition exchange (P : Platform) (C : Credentials)
  (method path : string) (build : Headers -> Request) : M PyVal :=
  rate_limit P ;;
  hdrs <- request_headers P C method path ;
  response <- requests_send P (build hdrs) ;
  raise_if_bad_response response ;;
  response_json response.

(** What the client makes of a response, by its own words: an [HTTPError]
    for the client and server error classes, the document otherwise. *)
Definition verdict (response : Response) : Result PyVal :=
  if (400 <=? status_code response) && (status_code response <? 600)
  then Raise (HTTPError (status_code response) (text response))
  else match json_doc response with
       | Some v => Ok v
       | None => Raise JSONDecodeError
       end.

(** [path] without its query string *)
Definition strip_query (path : string) : string :=
  first_part (str_split question_mark path).

(** The platform never takes time back. *)
Definition time_flows (P : Platform) : Prop := forall i, 0 <= lag P i.

(** The key signs whatever it is given. *)
Definition usable (C : Credentials) : Prop :=
  exists sign, private_key C = RSAPrivateKey sign /\
    forall salt message, exists signature, sign salt message = Ok signature.

(* ================================================================== *)
(** * Vocabulary of the statements *)
(* ================================================================== *)

(** The clock reading, in milliseconds, that [request_headers] takes in
    state [s] *)
Definition stamp (P : Platform) (s : State) : Z :=
  (now_us s + 0 + lag P (ticks s)) / 1000.

(** The state in which the signature is then asked for *)
Definition after_stamp (P : Platform) (s : State) : State :=
  mkState (last_api_call s) (message_id s) (now_us s + 0 + lag P (ticks s))
    (S (ticks s)).

(** The headers the client attaches for [method] and [path] when the clock
    reads [ts] milliseconds. *)
Definition signed_headers (C : Credentials) (ts : Z) (method path : string)
  (hs : Headers) : Prop :=
  exists sign salt signature,
    private_key C = RSAPrivateKey sign /\
    sign salt (encode_utf8 (str ts +++ method +++ strip_query path)) = Ok signature /\
    hs = [ ("Content-Type", "application/json");
           ("KALSHI-ACCESS-KEY", key_id C);
           ("KALSHI-ACCESS-SIGNATURE", b64encode signature);
           ("KALSHI-ACCESS-TIMESTAMP", str ts) ].

(** An upper-case ASCII letter *)
Definition is_upper (c : ascii) : bool :=
  (65 <=? nat_of_ascii c)%nat && (nat_of_ascii c <=? 90)%nat.

(** A word in upper-case letters *)
Definition all_upper (s : string) : bool :=
  forallb is_upper (list_ascii_of_string s).

(** No key occurs twice, as in a dictionary display with distinct keys *)
Fixpoint distinct (l : list string) : bool :=
  match l with
  | [] => true
  | x :: rest => negb (existsb (String.eqb x) rest) && distinct rest
  end.

(** The mapping that [get_live_data_batch] builds *)
Definition live_data_params (milestone_ids data_types : option (list string)) : Dict :=
  let params :=
    match milestone_ids with
    | Some ((_ :: _) as l) => dict_set [] "milestone_ids" (VStr (join "," l))
    | _ => []
    end in
  match data_types with
  | Some ((_ :: _) as l) => dict_set params "data_types" (VStr (join "," l))
  | _ => params
  end.

(** A position counts as exposed when its [market_exposure] field is not
    zero; a position without the field counts as not exposed. *)
Definition has_exposure (position : PyVal) : bool :=
  match position with
  | VDict d =>
      match dict_get d "market_exposure" with
      | Some x => py_ne_zero x
      | None => false
      end
  | _ => false
  end.

(** A JSON object *)
Definition is_dict (v : PyVal) : bool :=
  match v with VDict _ => true | _ => false end.

(** An entry of [market_positions], for the examples *)
Definition position (ticker : string) (exposure : option PyVal) : PyVal :=
  VDict (("ticker", VStr ticker) ::
         match exposure with
         | Some x => [("market_exposure", x)]
         | None => []
         end).

(** How [sign_pss_text] reports a failure of the primitive: only
    [InvalidSignature] is caught. *)
Definition reported (e : PyExn) : PyExn :=
  match e with
  | InvalidSignature => ValueError "RSA sign PSS failed"
  | _ => e
  end.

(** The values of an octet *)
Definition octets : list N := map N.of_nat (seq 0 256).

(** A character of the base64 alphabet, or the padding character *)
Definition b64_symbol (c : ascii) : bool :=
  occurs c b64_alphabet || Ascii.eqb c b64_pad.

(** Every character of the string passes the test. *)
Fixpoint string_forall (f : ascii -> bool) (s : string) : bool :=
  match s with
  | EmptyString => true
  | String c rest => f c && string_forall f rest
  end.


(* ================================================================== *)
(** * plot_market_candlesticks: the series of a market *)
(* ================================================================== *)

(** The series ticker that [plot_market_candlesticks] derives from a market
    ticker before it fetches the candlesticks: the ticker without its last
    dash-separated part.
    [[
    ticker_parts = ticker.split('-')
    series_ticker = '-'.join(ticker_parts[:-1]) if len(ticker_parts) > 1 else ticker
    ]] *)
Definition series_ticker_of (ticker : string) : string :=
  let ticker_parts := str_split "-"%char ticker in
  if (1 <? List.length ticker_parts)%nat
  then join "-" (removelast ticker_parts)
  else ticker.

(* ================================================================== *)
(** * KalshiHttpClient: exposure total, market filters *)
(* ================================================================== *)

(** [abs(v)]: [bool] counts as an integer, other objects have no absolute
    value *)
Definition py_abs (v : PyVal) : Result Z :=
  match v with
  | VInt z => Ok (Z.abs z)
  | VBool b => Ok (if b then 1 else 0)
  | _ => Raise TypeError
  end.

(** [sum(abs(position.get("market_exposure", 0)) for position in positions)],
    from the running total [acc] *)
Fixpoint sum_abs_exposure (acc : Z) (positions : list PyVal) : Result Z :=
  match positions with
  | [] => Ok acc
  | position :: rest =>
      match py_get position "market_exposure" (VInt 0) with
      | Raise e => Raise e
      | Ok exposure =>
          match py_abs exposure with
          | Raise e => Raise e
          | Ok a => sum_abs_exposure (acc + a) rest
          end
      end
  end.

(** [a == b] *)
Fixpoint py_eqb (a b : PyVal) {struct a} : bool :=
  match a, b with
  | VNone, VNone => true
  | VBool x, VBool y => Bool.eqb x y
  | VBool x, VInt z => (if x then 1 else 0) =? z
  | VInt z, VBool y => z =? (if y then 1 else 0)
  | VInt x, VInt y => x =? y
  | VStr x, VStr y => String.eqb x y
  | VList l1, VList l2 =>
      (fix elementwise (l1 l2 : list PyVal) : bool :=
         match l1, l2 with
         | [], [] => true
         | x :: xs, y :: ys => py_eqb x y && elementwise xs ys
         | _, _ => false
         end) l1 l2
  | VDict d1, VDict d2 =>
      (List.length d1 =? List.length d2)%nat &&
      (fix included (d : Dict) : bool :=
         match d with
         | [] => true
         | (k, v) :: rest =>
             match dict_get d2 k with
             | Some v' => py_eqb v v' && included rest
             | None => false
             end
         end) d1
  | _, _ => false
  end.

(** Objects that can be the key of a dictionary *)
Definition hashable (v : PyVal) : bool :=
  match v with VList _ | VDict _ => false | _ => true end.

(** A dictionary whose keys are any hashable objects, in insertion order *)
Abbreviation KeyedDict := (list (PyVal * PyVal)).

Fixpoint keyed_get (d : KeyedDict) (k : PyVal) : option PyVal :=
  match d with
  | [] => None
  | (k', v) :: rest => if py_eqb k' k then Some v else keyed_get rest k
  end.

(** [d[k] = v]: an equal key keeps its place and its first spelling *)
Fixpoint keyed_set (d : KeyedDict) (k v : PyVal) : KeyedDict :=
  match d with
  | [] => [(k, v)]
  | (k', v') :: rest =>
      if py_eqb k' k then (k', v) :: rest else (k', v') :: keyed_set rest k v
  end.

(** [[m for m in markets if m.get(filter_key) == filter_value]] *)
Fixpoint matching (filter_key : string) (filter_value : PyVal) (markets : list PyVal)
  : Result (list PyVal) :=
  match markets with
  | [] => Ok []
  | m :: rest =>
      match py_get m filter_key VNone with
      | Raise e => Raise e
      | Ok field =>
          match matching filter_key filter_value rest with
          | Raise e => Raise e
          | Ok kept => Ok (if py_eqb field filter_value then m :: kept else kept)
          end
      end
  end.

(** The loop of [filter_markets] that groups the markets by the value of
    [filter_key], or maps each ticker to its market *)
Fixpoint group_markets (filter_key : string) (markets : list PyVal) (result : KeyedDict)
  : Result KeyedDict :=
  match markets with
  | [] => Ok result
  | market :: rest =>
      match py_get market filter_key VNone with
      | Raise e => Raise e
      | Ok key_value =>
          if negb (hashable key_value) then Raise TypeError
          else if String.eqb filter_key "ticker"
          then group_markets filter_key rest (keyed_set result key_value market)
          else
            let result :=
              match keyed_get result key_value with
              | Some _ => result
              | None => keyed_set result key_value (VList [])
              end in
            match keyed_get result key_value with
            | Some (VList group) =>
                group_markets filter_key rest
                  (keyed_set result key_value (VList (group ++ [market])))
            | _ => Raise AttributeError
            end
      end
  end.

Definition filter_markets (markets_data : PyVal) (filter_key : string)
  (filter_value : PyVal) : Result KeyedDict :=
  match py_get markets_data "markets" (VList []) with
  | Raise e => Raise e
  | Ok markets =>
      match py_iter markets with
      | Raise e => Raise e
      | Ok markets =>
          if is_not_None filter_value
          then
            match matching filter_key filter_value markets with
            | Raise e => Raise e
            | Ok filtered =>
                Ok [ (VStr "markets", VList filtered);
                     (VStr "count", VInt (Z.of_nat (List.length filtered))) ]
            end
          else group_markets filter_key markets []
      end
  end.

(** The keywords [get_markets] takes besides the two tickers *)
Definition markets_keyword (name : string) : bool :=
  existsb (String.eqb name)
    ["max_close_ts"; "min_close_ts"; "limit"; "cursor"; "status"].

(** The value of a keyword argument, [None] when it is not given *)
Definition keyword (kwargs : Dict) (name : string) : PyVal :=
  match dict_get kwargs name with Some v => v | None => VNone end.

Section MarketHelpers.
Variable P : Platform.
Variable C : Credentials.

Definition get_total_market_exposure : M Z :=
  positions_data <- get_positions P C VNone VNone VNone VNone VNone VNone ;
  market_positions <- lift (py_get positions_data "market_positions" (VList [])) ;
  positions <- lift (py_iter market_positions) ;
  lift (sum_abs_exposure 0 positions).

(** [self.get_markets(series_ticker=..., event_ticker=..., **kwargs)]: a
    keyword that [get_markets] does not have is a [TypeError] of the call
    itself. *)
Definition get_markets_with (series_ticker event_ticker : PyVal) (kwargs : Dict)
  : M PyVal :=
  if forallb markets_keyword (dict_keys kwargs)
  then get_markets P C event_ticker series_ticker (keyword kwargs "max_close_ts")
         (keyword kwargs "min_close_ts") (keyword kwargs "limit")
         (keyword kwargs "cursor") (keyword kwargs "status")
  else raise TypeError.

Definition get_markets_by_field (field : string) (value : PyVal)
  (series_ticker event_ticker : PyVal) (kwargs : Dict) : M KeyedDict :=
  markets_data <- get_markets_with series_ticker event_ticker kwargs ;
  lift (filter_markets markets_data field value).

Definition get_ticker_map (series_ticker event_ticker : PyVal) (kwargs : Dict)
  : M KeyedDict :=
  markets_data <- get_markets_with series_ticker event_ticker kwargs ;
  lift (filter_markets markets_data "ticker" VNone).

End MarketHelpers.

(* ================================================================== *)
(** * Vocabulary of the further statements *)
(* ================================================================== *)
(** The value a market has for [key]: what [m.get(key)] gives for an
    object *)
Definition field_of (key : string) (m : PyVal) : PyVal :=
  match m with
  | VDict d => match dict_get d key with Some v => v | None => VNone end
  | _ => VNone
  end.

(** The markets whose [key] field equals [value], in their order *)
Definition with_field (key : string) (value : PyVal) (markets : list PyVal) : list PyVal :=
  filter (fun m => py_eqb (field_of key m) value) markets.

(** The last market whose [key] field equals [value] *)
Definition last_with_field (key : string) (value : PyVal) (markets : list PyVal)
  : option PyVal :=
  find (fun m => py_eqb (field_of key m) value) (rev markets).

(** What [markets_data.get('markets', [])] gives for the document [d] *)
Definition markets_of (d : Dict) : PyVal :=
  match dict_get d "markets" with Some v => v | None => VList [] end.

(** The number of markets held by the groups of a grouping *)
Fixpoint grouped (g : KeyedDict) : nat :=
  match g with
  | [] => 0
  | (_, VList group) :: rest => List.length group + grouped rest
  | _ :: rest => grouped rest
  end.

(* ================================================================== *)
(** * nba_analysis.analyze_event_scalp_potential *)
(* ================================================================== *)

(** An [int] or a [bool]: the objects that Python orders with an integer
    and subtracts from one, by their integer value.  Every other object of
    a JSON document raises [TypeError] there. *)
Inductive Number : Type :=
| NInt (z : Z)
| NBool (b : bool).

Definition number_value (n : Number) : Z :=
  match n with
  | NInt z => z
  | NBool b => if b then 1 else 0
  end.

Definition number_object (n : Number) : PyVal :=
  match n with
  | NInt z => VInt z
  | NBool b => VBool b
  end.

Definition as_number (v : PyVal) : Result Number :=
  match v with
  | VInt z => Ok (NInt z)
  | VBool b => Ok (NBool b)
  | _ => Raise TypeError
  end.

(** [candle.get(side, {}).get(field)] *)
Definition quote (candle : PyVal) (side field : string) : Result PyVal :=
  match py_get candle side (VDict []) with
  | Raise e => Raise e
  | Ok prices => py_get prices field VNone
  end.

(** [if bid and bid > max_price_a: max_price_a = bid] *)
Definition raise_to (bid : PyVal) (max_price_a : Number) : Result Number :=
  if truthy bid
  then match as_number bid with
       | Raise e => Raise e
       | Ok n => Ok (if number_value max_price_a <? number_value n
                     then n else max_price_a)
       end
  else Ok max_price_a.

(** [if ask and ask < min_ask_a: min_ask_a = ask] *)
Definition lower_to (ask : PyVal) (min_ask_a : Number) : Result Number :=
  if truthy ask
  then match as_number ask with
       | Raise e => Raise e
       | Ok n => Ok (if number_value n <? number_value min_ask_a
                     then n else min_ask_a)
       end
  else Ok min_ask_a.

(** The loop over [candles[1:]], from the running [max_price_a] and
    [min_ask_a] *)
Fixpoint scan_candles (later : list PyVal) (max_price_a min_ask_a : Number)
  : Result (Number * Number) :=
  match later with
  | [] => Ok (max_price_a, min_ask_a)
  | candle :: rest =>
      match quote candle "yes_bid" "high" with
      | Raise e => Raise e
      | Ok bid =>
          match quote candle "yes_ask" "low" with
          | Raise e => Raise e
          | Ok ask =>
              match raise_to bid max_price_a with
              | Raise e => Raise e
              | Ok max_price_a =>
                  match lower_to ask min_ask_a with
                  | Raise e => Raise e
                  | Ok min_ask_a => scan_candles rest max_price_a min_ask_a
                  end
              end
          end
      end
  end.

(** One entry of [results]; the values are evaluated in the order of the
    dictionary display, so a missing [ticker] is met before a missing
    [title]. *)
Definition scalp_entry (ticker title : PyVal) (open_price max_exit_price : PyVal)
  (open_value profit : Z) (result : PyVal) : PyVal :=
  VDict [ ("ticker", ticker);
          ("title", title);
          ("is_favorite", VBool (50 <? open_value));
          ("open_price", open_price);
          ("max_exit_price", max_exit_price);
          ("profit_potential", VInt profit);
          ("win_5c", VBool (5 <=? profit));
          ("win_10c", VBool (10 <=? profit));
          ("result", result) ].

Section ScalpAnalysis.
Variable P : Platform.
Variable C : Credentials.

(** [int(dateutil.parser.parse(val).timestamp())], or nothing when the
    parser raises: the library is outside the sources. *)
Variable dateutil_timestamp : string -> option Z.

(** [str(v)] for a list or an object, which only the URL of the fetch
    would show: the analysis never reads it. *)
Variable container_str : PyVal -> string.

(** [f"{v}"] *)
Definition py_format (v : PyVal) : string :=
  match v with
  | VNone => "None"
  | VBool b => if b then "True" else "False"
  | VInt z => str z
  | VStr s => s
  | _ => container_str v
  end.

(** The loop that determines [end_ts]: the first of the keys whose value
    is true and is an integer (a [bool] is one) or a string that the
    parser accepts. *)
Fixpoint end_time (market_a : Dict) (keys : list string) : option Z :=
  match keys with
  | [] => None
  | key :: rest =>
      match dict_get market_a key with
      | Some val =>
          if truthy val
          then match val with
               | VInt z => Some z
               | VBool b => Some (if b then 1 else 0)
               | VStr s =>
                   match dateutil_timestamp s with
                   | Some ts => Some ts
                   | None => end_time market_a rest
                   end
               | _ => end_time market_a rest
               end
          else end_time market_a rest
      | None => end_time market_a rest
      end
  end.

Definition end_time_keys : list string :=
  ["close_ts"; "expiration_ts"; "latest_expiration_ts"; "close_time"].

(** The fetch inside [try: ... except Exception: return []]: nothing when
    it raised. *)
Definition fetch_candles (ticker_a : PyVal) (start_ts end_ts candle_interval : Z)
  : M (option PyVal) :=
  try_except
    (candles_resp <- get_market_candlesticks P C "KXNBAGAME" (py_format ticker_a)
                       start_ts end_ts candle_interval ;
     ret (Some candles_resp))
    (fun _ => Some (ret None)).

(** The part of the analysis after the fetch, which has no effect *)
Definition analyze_candles (market_a : PyVal) (ticker_a : PyVal)
  (more_markets : list PyVal) (candles_resp : PyVal) : Result (list PyVal) :=
  match py_get candles_resp "candlesticks" (VList []) with
  | Raise e => Raise e
  | Ok candles =>
      if negb (truthy candles) then Ok []
      else
        (* [candles[0]]: a string gives a string, which has no [get]; an
           object, whose keys are strings, has no key [0], shown here by
           its decimal; a number cannot be indexed *)
        match candles with
        | VList (first_candle :: later) =>
            match quote first_candle "yes_ask" "close" with
            | Raise e => Raise e
            | Ok yes_ask_a =>
                match quote first_candle "yes_bid" "close" with
                | Raise e => Raise e
                | Ok yes_bid_a =>
                    if negb (is_not_None yes_ask_a) then Ok []
                    else
                      let open_price_a := yes_ask_a in
                      match scan_candles later (NInt 0) (NInt 100) with
                      | Raise e => Raise e
                      | Ok (max_price_a, min_ask_a) =>
                          match as_number open_price_a with
                          | Raise e => Raise e
                          | Ok open_a =>
                              let profit_a :=
                                number_value max_price_a - number_value open_a in
                              match py_getitem market_a "title" with
                              | Raise e => Raise e
                              | Ok title_a =>
                                  match py_get market_a "result" VNone with
                                  | Raise e => Raise e
                                  | Ok result_a =>
                                      let entry_a :=
                                        scalp_entry ticker_a title_a open_price_a
                                          (number_object max_price_a)
                                          (number_value open_a) profit_a result_a in
                                      match more_markets with
                                      | market_b :: _ =>
                                          if is_not_None yes_bid_a
                                          then
                                            match as_number yes_bid_a with
                                            | Raise e => Raise e
                                            | Ok bid_a =>
                                                let open_price_b := 100 - number_value bid_a in
                                                let max_price_b :=
                                                  if number_value min_ask_a =? 100
                                                  then 0
                                                  else 100 - number_value min_ask_a in
                                                let profit_b := max_price_b - open_price_b in
                                                match py_getitem market_b "ticker" with
                                                | Raise e => Raise e
                                                | Ok ticker_b =>
                                                    match py_getitem market_b "title" with
                                                    | Raise e => Raise e
                                                    | Ok title_b =>
                                                        match py_get market_b "result" VNone with
                                                        | Raise e => Raise e
                                                        | Ok result_b =>
                                                            Ok [ entry_a;
                                                                 scalp_entry ticker_b title_b
                                                                   (VInt open_price_b)
                                                                   (VInt max_price_b)
                                                                   open_price_b profit_b
                                                                   result_b ]
                                                        end
                                                    end
                                                end
                                            end
                                          else Ok [entry_a]
                                      | [] => Ok [entry_a]
                                      end
                                  end
                              end
                          end
                      end
                end
            end
        | VStr _ => Raise AttributeError
        | VDict _ => Raise (KeyError "0")
        | _ => Raise TypeError
        end
  end.

(** [markets] is the list [market_a :: more_markets]: the caller groups
    the markets by event, and a group has a market.  The call on an empty
    list, where [markets[0]] raises [IndexError], has no counterpart
    here.  [event_ticker] is not used. *)
Definition analyze_event_scalp_potential (event_ticker : PyVal)
  (market_a : PyVal) (more_markets : list PyVal) (candle_interval : Z)
  : M (list PyVal) :=
  ticker_a <- lift (py_getitem market_a "ticker") ;
  match market_a with
  | VDict fields =>
      match end_time fields end_time_keys with
      | None => ret []
      | Some end_ts =>
          let start_ts := end_ts - 60 * 60 * 48 in
          let end_ts := end_ts - 60 * 60 * 3 in
          fetched <- fetch_candles ticker_a start_ts end_ts candle_interval ;
          match fetched with
          | None => ret []
          | Some candles_resp =>
              lift (analyze_candles market_a ticker_a more_markets candles_resp)
          end
      end
  | _ => raise TypeError
  end.

End ScalpAnalysis.

(** The integer value of a field of an entry of the results, when the
    field holds a number *)
Definition entry_number (entry : PyVal) (field : string) : option Z :=
  match entry with
  | VDict d =>
      match dict_get d field with
      | Some v =>
          match as_number v with
          | Ok n => Some (number_value n)
          | Raise _ => None
          end
      | None => None
      end
  | _ => None
  end.

Definition entry_field (entry : PyVal) (field : string) : option PyVal :=
  match entry with
  | VDict d => dict_get d field
  | _ => None
  end.

(** An entry whose figures agree with each other: the profit is the exit
    price less the entry price, the flags are the thresholds they name,
    and the exit price is not negative. *)
Definition coherent (entry : PyVal) : bool :=
  match entry_number entry "open_price", entry_number entry "max_exit_price",
        entry_field entry "profit_potential", entry_field entry "is_favorite",
        entry_field entry "win_5c", entry_field entry "win_10c" with
  | Some open_price, Some max_exit_price, Some (VInt profit),
    Some (VBool is_favorite), Some (VBool win_5c), Some (VBool win_10c) =>
      (profit =? max_exit_price - open_price) && (0 <=? max_exit_price) &&
      Bool.eqb is_favorite (50 <? open_price) &&
      Bool.eqb win_5c (5 <=? profit) && Bool.eqb win_10c (10 <=? profit)
  | _, _, _, _, _, _ => false
  end.

(** The URL of the candlesticks of [ticker] in the series of the NBA
    games, for the window that ends [3] hours before [end_ts] and starts
    [48] hours before it *)
Definition window_path (ticker : string) (end_ts candle_interval : Z) : string :=
  "/trade-api/v2/series/KXNBAGAME/markets/" +++ ticker +++
  "/candlesticks?start_ts=" +++ str (end_ts - 172800) +++
  "&end_ts=" +++ str (end_ts - 10800) +++
  "&period_interval=" +++ str candle_interval.

(** The exceptions of reading a document: a value of the wrong kind or a
    missing key *)
Definition data_error (e : PyExn) : Prop :=
  e = TypeError \/ e = AttributeError \/ exists key, e = KeyError key.

(* ================================================================== *)
(** * Properties: runs of the effect monad *)
(* ================================================================== *)

Lemma emitted_bind {A B} (m : M A) (k : A -> M B) s :
  emitted (bind m k s) =
  emitted (m s) ++
  match outcome (m s) with
  | Ok a => emitted (k a (final (m s)))
  | Raise _ => []
  end.
Proof.
  unfold bind. destruct (m s) as [[a|e] s1 evs1]; cbn.
  - now destruct (k a s1).
  - now rewrite app_nil_r.
Qed.

Lemma bind_unfold {A B} (m : M A) (k : A -> M B) s :
  bind m k s =
  match outcome (m s) with
  | Ok a => mkRun (outcome (k a (final (m s)))) (final (k a (final (m s))))
              (emitted (m s) ++ emitted (k a (final (m s))))
  | Raise e => mkRun (Raise e) (final (m s)) (emitted (m s))
  end.
Proof.
  unfold bind. destruct (m s) as [[a|e] s1 evs1]; cbn; [|reflexivity].
  now destruct (k a s1).
Qed.

Lemma http_requests_app (l1 l2 : list Event) :
  http_requests (l1 ++ l2) = http_requests l1 ++ http_requests l2.
Proof. unfold http_requests. apply flat_map_app. Qed.


Lemma signed_messages_app (l1 l2 : list Event) :
  signed_messages (l1 ++ l2) = signed_messages l1 ++ signed_messages l2.
Proof. unfold signed_messages. apply flat_map_app. Qed.

(* ================================================================== *)
(** * Properties: dictionaries *)
(* ================================================================== *)

Lemma dict_get_In (d : Dict) k v : dict_get d k = Some v -> In (k, v) d.
Proof.
  induction d as [|[k' v'] d IH]; cbn; [discriminate|].
  destruct (String.eqb_spec k' k) as [->|Hne].
  - intros [= ->]. now left.
  - intros H. right. auto.
Qed.

Lemma In_dict_get (d : Dict) k v :
  NoDup (dict_keys d) -> In (k, v) d -> dict_get d k = Some v.
Proof.
  induction d as [|[k' v'] d IH]; cbn; [contradiction|].
  intros Hnd [H|H]; inversion Hnd as [|? ? Hnotin Hnd']; subst.
  - inversion H; subst. now rewrite String.eqb_refl.
  - destruct (String.eqb_spec k' k) as [->|Hne]; [|auto].
    exfalso. apply Hnotin. unfold dict_keys.
    change k with (fst (k, v)). now apply in_map.
Qed.

Lemma In_drop_None (d : Dict) k v :
  In (k, v) (drop_None d) <-> In (k, v) d /\ v <> VNone.
Proof.
  unfold drop_None. rewrite filter_In. cbn.
  split; intros [H1 H2]; split; auto.
  - intros ->. discriminate.
  - destruct v; auto.
Qed.

Lemma NoDup_keys_drop_None (d : Dict) :
  NoDup (dict_keys d) -> NoDup (dict_keys (drop_None d)).
Proof.
  unfold dict_keys, drop_None.
  induction d as [|[k v] d IH]; cbn; [constructor|].
  intros Hnd. inversion Hnd as [|? ? Hnotin Hnd']; subst.
  destruct (is_not_None v); cbn; auto.
  constructor; auto.
  intros Hin. apply Hnotin.
  apply in_map_iff in Hin as [[k' v'] [Hk Hin]]. cbn in Hk. subst k'.
  apply filter_In in Hin as [Hin _].
  change k with (fst (k, v')). now apply in_map.
Qed.

(** What the comprehension keeps, read back through [d.get]. *)
Lemma dict_get_drop_None (d : Dict) k v :
  NoDup (dict_keys d) ->
  dict_get (drop_None d) k = Some v <-> (In (k, v) d /\ v <> VNone).
Proof.
  intros Hnd. rewrite <- In_drop_None. split.
  - apply dict_get_In.
  - apply In_dict_get. now apply NoDup_keys_drop_None.
Qed.

Lemma dict_get_set_same (d : Dict) k v : dict_get (dict_set d k v) k = Some v.
Proof.
  induction d as [|[k' v'] d IH]; cbn.
  - now rewrite String.eqb_refl.
  - destruct (String.eqb_spec k' k) as [->|Hne]; cbn.
    + now rewrite String.eqb_refl.
    + destruct (String.eqb_spec k' k); [contradiction|exact IH].
Qed.

Lemma distinct_NoDup (l : list string) : distinct l = true -> NoDup l.
Proof.
  induction l as [|x l IH]; cbn; [constructor|].
  intros H. apply andb_true_iff in H as [Hx Hl].
  constructor; auto.
  intros Hin. apply negb_true_iff in Hx.
  assert (existsb (String.eqb x) l = true) as E.
  { apply existsb_exists. exists x. split; [assumption|apply String.eqb_refl]. }
  congruence.
Qed.

Lemma filters_distinct (c : FilteredCall) : NoDup (dict_keys (filters c)).
Proof. apply distinct_NoDup. destruct c; reflexivity. Qed.

(* ================================================================== *)
(** * Properties: the rate limiter, the headers, the transport *)
(* ================================================================== *)

Section TransportFacts.
Variable P : Platform.
Variable C : Credentials.

(** [rate_limit] always returns; it leaves the clock reading of its last
    statement in [last_api_call], and that reading is at least the
    threshold after the previous one when time flows forward. *)
Lemma rate_limit_run (s : State) :
  exists t n evs,
    rate_limit P s = mkRun (Ok tt) (mkState t (message_id s) t n) evs /\
    http_requests evs = [] /\ signed_messages evs = [] /\ ws_frames evs = [] /\
    (ticks s < n)%nat /\
    (time_flows P ->
       now_us s <= t /\
       (last_api_call s <= now_us s -> last_api_call s + 100000 <= t)).
Proof.
  unfold rate_limit, datetime_now, time_sleep, elapse, read, emit,
    set_last_api_call, ret, bind.
  cbn.
  destruct (now_us s + 0 + lag P (ticks s) - last_api_call s <? 100000) eqn:E; cbn.
  - do 3 eexists. split; [reflexivity|].
    repeat split; auto; try lia.
    + pose proof (H (ticks s)). pose proof (H (S (ticks s))).
      pose proof (H (S (S (ticks s)))). lia.
    + pose proof (H (ticks s)). pose proof (H (S (ticks s))).
      pose proof (H (S (S (ticks s)))). lia.
  - apply Z.ltb_ge in E.
    do 3 eexists. split; [reflexivity|].
    repeat split; auto; try lia.
    + pose proof (H (ticks s)). pose proof (H (S (ticks s))). lia.
    + pose proof (H (ticks s)). pose proof (H (S (ticks s))). lia.
Qed.

Lemma sign_pss_text_run (text : string) (s : State) :
  let r := sign_pss_text P C text s in
  last_api_call (final r) = last_api_call s /\
  message_id (final r) = message_id s /\
  http_requests (emitted r) = [] /\ ws_frames (emitted r) = [] /\
  (time_flows P -> now_us s <= now_us (final r)).
Proof.
  unfold sign_pss_text, try_except, private_key_sign, elapse, emit, lift,
    raise, ret, bind.
  destruct (private_key C) as [sign|]; cbn.
  - destruct (sign (ticks s) (encode_utf8 text)) as [sig|e]; cbn.
    + repeat split; auto. intros H. pose proof (H (ticks s)). lia.
    + destruct e; cbn; repeat split; auto;
        intros H; pose proof (H (ticks s)); lia.
  - repeat split; auto. lia.
Qed.

(** What [sign_pss_text] returns or raises, case by case. *)
Lemma sign_pss_text_outcome (text : string) (s : State) :
  outcome (sign_pss_text P C text s) =
  match private_key C with
  | RSAPrivateKey sign =>
      match sign (ticks s) (encode_utf8 text) with
      | Ok signature => Ok (b64encode signature)
      | Raise InvalidSignature => Raise (ValueError "RSA sign PSS failed")
      | Raise e => Raise e
      end
  | NotAKey => Raise AttributeError
  end.
Proof.
  unfold sign_pss_text, try_except, private_key_sign, elapse, emit, lift,
    raise, ret, bind.
  destruct (private_key C) as [sign|]; cbn; [|reflexivity].
  destruct (sign (ticks s) (encode_utf8 text)) as [sig|e]; cbn; [reflexivity|].
  destruct e; reflexivity.
Qed.

Lemma sign_pss_text_signs (text : string) (s : State) :
  signed_messages (emitted (sign_pss_text P C text s)) =
  match private_key C with
  | RSAPrivateKey _ => [encode_utf8 text]
  | NotAKey => []
  end.
Proof.
  unfold sign_pss_text, try_except, private_key_sign, elapse, emit, lift,
    raise, ret, bind.
  destruct (private_key C) as [sign|]; cbn; [|reflexivity].
  destruct (sign (ticks s) (encode_utf8 text)) as [sig|e]; cbn; [reflexivity|].
  destruct e; reflexivity.
Qed.

Lemma request_headers_unfold (method path : string) (s : State) :
  request_headers P C method path s =
  let timestamp_str := str (stamp P s) in
  let r := sign_pss_text P C (timestamp_str +++ method +++ strip_query path)
             (after_stamp P s) in
  match outcome r with
  | Ok signature =>
      mkRun (Ok [ ("Content-Type", "application/json");
                  ("KALSHI-ACCESS-KEY", key_id C);
                  ("KALSHI-ACCESS-SIGNATURE", signature);
                  ("KALSHI-ACCESS-TIMESTAMP", timestamp_str) ])
        (final r) (emitted r)
  | Raise e => mkRun (Raise e) (final r) (emitted r)
  end.
Proof.
  unfold request_headers, time_time_ms, elapse, read, ret, bind, stamp,
    after_stamp, strip_query.
  cbn.
  destruct (sign_pss_text P C _ _) as [[signature|e] s1 evs1]; cbn;
    rewrite ?app_nil_r; reflexivity.
Qed.

Lemma request_headers_run (method path : string) (s : State) :
  let r := request_headers P C method path s in
  last_api_call (final r) = last_api_call s /\
  message_id (final r) = message_id s /\
  http_requests (emitted r) = [] /\ ws_frames (emitted r) = [] /\
  (time_flows P -> now_us s <= now_us (final r)).
Proof.
  rewrite request_headers_unfold. cbn zeta.
  pose proof (sign_pss_text_run
                (str (stamp P s) +++ method +++ strip_query path) (after_stamp P s))
    as (H1 & H2 & H3 & H4 & H5).
  cbn zeta in *.
  destruct (outcome (sign_pss_text P C _ (after_stamp P s))); cbn.
  - repeat split; auto.
    intros H. specialize (H5 H). pose proof (H (ticks s)). cbn in H5. lia.
  - repeat split; auto.
    intros H. specialize (H5 H). pose proof (H (ticks s)). cbn in H5. lia.
Qed.

Lemma requests_send_run (req : Request) (s : State) :
  let r := requests_send P req s in
  outcome r = transport P (ticks s) req /\
  emitted r = [EvHttp (now_us (final r)) req] /\
  last_api_call (final r) = last_api_call s /\
  message_id (final r) = message_id s /\
  (time_flows P -> now_us s <= now_us (final r)).
Proof.
  unfold requests_send, elapse, read, emit, lift, raise, ret, bind. cbn.
  destruct (transport P (ticks s) req); cbn; repeat split; auto;
    intros H; pose proof (H (ticks s)); lia.
Qed.

Lemma verdict_run (response : Response) (s : State) :
  (raise_if_bad_response response ;; response_json response) s =
  mkRun (verdict response) s [].
Proof.
  unfold raise_if_bad_response, raise_for_status, response_json, verdict,
    in_range, raise, ret, bind.
  destruct (200 <=? status_code response) eqn:E1;
  destruct (status_code response <? 299) eqn:E2;
  destruct (400 <=? status_code response) eqn:E3;
  destruct (status_code response <? 500) eqn:E4;
  destruct (500 <=? status_code response) eqn:E5;
  destruct (status_code response <? 600) eqn:E6;
  cbn; try (destruct (json_doc response); reflexivity); try reflexivity;
  exfalso;
  repeat match goal with
  | H : (_ <=? _) = true |- _ => apply Z.leb_le in H
  | H : (_ <=? _) = false |- _ => apply Z.leb_gt in H
  | H : (_ <? _) = true |- _ => apply Z.ltb_lt in H
  | H : (_ <? _) = false |- _ => apply Z.ltb_ge in H
  end; lia.
Qed.

End TransportFacts.

Section ExchangeFacts.
Variable P : Platform.
Variable C : Credentials.

(** The four primitives are instances of [exchange]. *)
Lemma rest_call_exchange (c : RestCall) :
  exists method path build,
    rest_call P C c = exchange P C method path build /\
    In method ["GET"; "POST"; "DELETE"] /\
    forall hs, verb (build hs) = method /\
               url (build hs) = host C +++ path /\
               headers (build hs) = hs.
Proof.
  destruct c as [path ps|path body|path ps|ids]; cbn.
  - exists "GET", path, (fun hs => mkRequest "GET" (host C +++ path) hs ps None).
    repeat split; cbn; auto.
  - exists "POST", path,
      (fun hs => mkRequest "POST" (host C +++ path) hs [] (Some body)).
    repeat split; cbn; auto.
  - exists "DELETE", path,
      (fun hs => mkRequest "DELETE" (host C +++ path) hs ps None).
    repeat split; cbn; auto.
  - exists "DELETE", (portfolio_url +++ "/orders/batched"),
      (fun hs => mkRequest "DELETE" (host C +++ portfolio_url +++ "/orders/batched")
                   hs [] (Some (VDict [("ids", ids)]))).
    repeat split; cbn; auto.
Qed.

(** The run of an exchange, statement by statement. *)
Lemma exchange_anatomy (method path : string) (build : Headers -> Request) (s : State) :
  let r1 := rate_limit P s in
  let r2 := request_headers P C method path (final r1) in
  exchange P C method path build s =
  match outcome r2 with
  | Raise e => mkRun (Raise e) (final r2) (emitted r1 ++ emitted r2)
  | Ok hs =>
      let r3 := requests_send P (build hs) (final r2) in
      mkRun (match outcome r3 with Ok resp => verdict resp | Raise e => Raise e end)
        (final r3) (emitted r1 ++ emitted r2 ++ emitted r3)
  end.
Proof.
  cbn zeta. unfold exchange.
  destruct (rate_limit_run P s) as (t & n & evs & Hrl & _).
  rewrite bind_unfold. rewrite Hrl. cbn [outcome final emitted].
  rewrite bind_unfold.
  destruct (outcome (request_headers P C method path _)) as [hs|e]; [|reflexivity].
  rewrite bind_unfold.
  destruct (outcome (requests_send P (build hs) _)) as [resp|e] eqn:E.
  - rewrite verdict_run. cbn [outcome final emitted].
    now rewrite app_nil_r.
  - reflexivity.
Qed.

(** At most one HTTP request per call, built from the headers of this
    call. *)
Lemma exchange_requests (method path : string) (build : Headers -> Request) (s : State) :
  let r := exchange P C method path build s in
  let r2 := request_headers P C method path (final (rate_limit P s)) in
  match outcome r2 with
  | Raise e => outcome r = Raise e /\ http_requests (emitted r) = []
  | Ok hs => http_requests (emitted r) = [build hs]
  end.
Proof.
  cbn zeta. rewrite exchange_anatomy. cbn zeta.
  destruct (rate_limit_run P s) as (t & n & evs & Hrl & Hh & _).
  pose proof (request_headers_run P C method path (final (rate_limit P s)))
    as (_ & _ & Hh2 & _).
  cbn zeta in Hh2.
  destruct (outcome (request_headers P C method path _)) as [hs|e];
    cbn [outcome final emitted].
  - pose proof (requests_send_run P (build hs)
                  (final (request_headers P C method path (final (rate_limit P s)))))
      as (_ & He & _).
    cbn zeta in He.
    rewrite !http_requests_app, Hh2, He. rewrite Hrl. cbn [emitted].
    rewrite Hh. reflexivity.
  - split; [reflexivity|].
    rewrite http_requests_app, Hh2. rewrite Hrl. cbn [emitted].
    rewrite Hh. reflexivity.
Qed.


End ExchangeFacts.

(* ================================================================== *)
(** * Properties: authentication headers *)
(* ================================================================== *)

Section HeaderFacts.
Variable P : Platform.
Variable C : Credentials.

Lemma request_headers_ok (method path : string) (s : State) (hs : Headers) :
  outcome (request_headers P C method path s) = Ok hs ->
  signed_headers C (stamp P s) method path hs.
Proof.
  rewrite request_headers_unfold. cbn zeta.
  pose proof (sign_pss_text_outcome P C
                (str (stamp P s) +++ method +++ strip_query path)
                (after_stamp P s)) as Ho.
  destruct (outcome (sign_pss_text P C _ (after_stamp P s))) as [sig|e];
    cbn [outcome]; [|discriminate].
  intros [= <-].
  destruct (private_key C) as [sign|] eqn:Ek; [|discriminate].
  destruct (sign (ticks (after_stamp P s)) _) as [signature|e] eqn:Es.
  - injection Ho as ->.
    exists sign, (ticks (after_stamp P s)), signature. auto.
  - destruct e; discriminate.
Qed.

Lemma request_headers_usable (method path : string) (s : State) :
  usable C -> exists hs, outcome (request_headers P C method path s) = Ok hs.
Proof.
  intros (sign & Ek & Hs).
  rewrite request_headers_unfold. cbn zeta.
  pose proof (sign_pss_text_outcome P C
                (str (stamp P s) +++ method +++ strip_query path)
                (after_stamp P s)) as Ho.
  rewrite Ek in Ho.
  destruct (Hs (ticks (after_stamp P s))
              (encode_utf8 (str (stamp P s) +++ method +++ strip_query path)))
    as (sig & Hsig).
  rewrite Hsig in Ho. rewrite Ho. cbn. eauto.
Qed.

End HeaderFacts.

(** [str] writes the decimal numeral of its argument. *)
Lemma str_decimal (n : Z) : NilZero.int_of_string (str n) = Some (Z.to_int n).
Proof.
  unfold str. apply NilZero.isi.
  - destruct n as [|p|p]; cbn; try discriminate.
    intros [= H]. now apply (DecimalPos.Unsigned.to_uint_nonnil p).
  - destruct n as [|p|p]; cbn; try discriminate.
    intros [= H]. now apply (DecimalPos.Unsigned.to_uint_nonnil p).
Qed.

Lemma str_split_nonempty (c : ascii) (s : string) : str_split c s <> [].
Proof.
  destruct s as [|a rest]; cbn; [discriminate|].
  destruct (Ascii.eqb a c); [discriminate|].
  destruct (str_split c rest); discriminate.
Qed.

(** [path.split('?')[0]] is the part of the path before its first question
    mark. *)
Lemma strip_query_spec (path : string) :
  occurs question_mark (strip_query path) = false /\
  (path = strip_query path \/
   exists query, path = strip_query path +++ String question_mark query).
Proof.
  unfold strip_query.
  induction path as [|a rest IH]; cbn.
  - auto.
  - destruct (Ascii.eqb_spec a question_mark) as [->|Hne]; cbn.
    + split; [reflexivity|]. right. exists rest. reflexivity.
    + pose proof (str_split_nonempty question_mark rest) as Hne'.
      destruct (str_split question_mark rest) as [|p ps]; cbn in *.
      * contradiction.
      * destruct IH as [Ho IH].
        rewrite (proj2 (Ascii.eqb_neq _ _) Hne), Ho.
        split; [reflexivity|].
        destruct IH as [IH|[q IH]].
        -- left. now rewrite <- IH.
        -- right. exists q. now rewrite IH.
Qed.

(* ================================================================== *)
(** * REST calls: responses, pacing, headers *)
(* ================================================================== *)

Section RestClaims.
Variable P : Platform.
Variable C : Credentials.

Lemma rest_call_requests (c : RestCall) (s : State) :
  (List.length (http_requests (emitted (rest_call P C c s))) <= 1)%nat.
Proof.
  destruct (rest_call_exchange P C c) as (method & path & build & -> & _).
  pose proof (exchange_requests P C method path build s) as H. cbn zeta in H.
  destruct (outcome (request_headers P C method path _)).
  - rewrite H. cbn. lia.
  - destruct H as [_ ->]. cbn. lia.
Qed.

Lemma rest_call_answer (c : RestCall) (s : State) (response : Response) :
  usable C ->
  (forall i req, transport P i req = Ok response) ->
  (exists req, http_requests (emitted (rest_call P C c s)) = [req]) /\
  outcome (rest_call P C c s) = verdict response.
Proof.
  intros Hkey Hnet.
  destruct (rest_call_exchange P C c) as (method & path & build & -> & _).
  pose proof (exchange_requests P C method path build s) as Hreq.
  cbn zeta in Hreq.
  rewrite exchange_anatomy in *. cbn zeta in *.
  destruct (request_headers_usable P C method path (final (rate_limit P s)) Hkey)
    as (hs & Hhs).
  rewrite Hhs in *. cbn [outcome].
  split; [eauto|].
  pose proof (requests_send_run P (build hs)
                (final (request_headers P C method path (final (rate_limit P s)))))
    as (Ho & _).
  cbn zeta in Ho. rewrite Ho, Hnet. reflexivity.
Qed.

End RestClaims.

(** C3, as stated, does not hold: the client leaves the decision to
    [raise_for_status], which raises for the 4xx and 5xx classes only.  A
    300 answer that carries a JSON document is outside the 2xx range and
    is returned to the caller like a success; a 304 answer, which has no
    JSON body, fails in the decoder with an error that holds neither the
    status nor the body. *)
Lemma redirection_answer_is_not_an_http_error :
  let choices := VDict [("markets", VList [])] in
  let r300 := get (mock_platform 0 (replies 300 choices)) mock_credentials
                markets_url [] mock_state in
  let r304 := get (mock_platform 0 (fun _ => Ok (mkResponse 304 "" None)))
                mock_credentials markets_url [] mock_state in
  in_range 200 300 300 = false /\
  in_range 200 300 304 = false /\
  outcome r300 = Ok choices /\
  outcome r304 = Raise JSONDecodeError /\
  forall status body,
    outcome r300 <> Raise (HTTPError status body) /\
    outcome r304 <> Raise (HTTPError status body).
Proof.
  cbn zeta.
  assert (outcome (get (mock_platform 0 (replies 300 (VDict [("markets", VList [])])))
                     mock_credentials markets_url [] mock_state)
          = Ok (VDict [("markets", VList [])])) as E1 by (vm_compute; reflexivity).
  assert (outcome (get (mock_platform 0 (fun _ => Ok (mkResponse 304 "" None)))
                     mock_credentials markets_url [] mock_state)
          = Raise JSONDecodeError) as E2 by (vm_compute; reflexivity).
  repeat split; try reflexivity; try assumption.
  - rewrite E1. discriminate.
  - rewrite E2. discriminate.
Qed.

(** C3, amended.  Every REST primitive ([get], [post], [delete] and the
    batch cancellation) sends at most one HTTP request per call, so nothing
    is retried.  With a key that signs and a transport that answers with
    [response], exactly one request is sent; the call raises an
    [HTTPError] holding the status code and the raw body when the status
    is in 400..599, and otherwise (every 2xx status included) returns the
    decoded JSON body, or raises the decoding error when the body is not
    JSON.  In particular a 429 answer to [create_order] raises
    [HTTPError] with status 429. *)
Theorem rest_call_classifies_response
  (P : Platform) (C : Credentials) (c : RestCall) (s : State) :
  (List.length (http_requests (emitted (rest_call P C c s))) <= 1)%nat /\
  forall response,
    usable C ->
    (forall i req, transport P i req = Ok response) ->
    (exists req, http_requests (emitted (rest_call P C c s)) = [req]) /\
    (400 <= status_code response < 600 ->
       outcome (rest_call P C c s) =
       Raise (HTTPError (status_code response) (text response))) /\
    (~ 400 <= status_code response < 600 ->
       outcome (rest_call P C c s) =
       match json_doc response with
       | Some doc => Ok doc
       | None => Raise JSONDecodeError
       end) /\
    (status_code response = 429 ->
       forall action client_order_id count side ticker type buy_max_cost
              expiration_ts no_price post_only sell_position_floor yes_price,
         outcome (create_order P C action client_order_id count side ticker type
                    buy_max_cost expiration_ts no_price post_only
                    sell_position_floor yes_price s) =
         Raise (HTTPError 429 (text response))).
Proof.
  split; [apply rest_call_requests|].
  intros response Hkey Hnet.
  destruct (rest_call_answer P C c s response Hkey Hnet) as [Hreq Hout].
  split; [exact Hreq|].
  repeat split.
  - intros Hst. rewrite Hout. unfold verdict.
    destruct (400 <=? status_code response) eqn:E1; [|apply Z.leb_gt in E1; lia].
    destruct (status_code response <? 600) eqn:E2; [|apply Z.ltb_ge in E2; lia].
    reflexivity.
  - intros Hst. rewrite Hout. unfold verdict.
    destruct (400 <=? status_code response) eqn:E1;
      destruct (status_code response <? 600) eqn:E2; cbn; try reflexivity.
    apply Z.leb_le in E1. apply Z.ltb_lt in E2. lia.
  - intros Hst action client_order_id count side ticker type buy_max_cost
      expiration_ts no_price post_only sell_position_floor yes_price.
    unfold create_order.
    destruct (rest_call_answer P C
                (CallPost (portfolio_url +++ "/orders")
                   (VDict (drop_None
                      [ ("action", action); ("client_order_id", client_order_id);
                        ("count", count); ("side", side); ("ticker", ticker);
                        ("type", type); ("buy_max_cost", buy_max_cost);
                        ("expiration_ts", expiration_ts); ("no_price", no_price);
                        ("post_only", post_only);
                        ("sell_position_floor", sell_position_floor);
                        ("yes_price", yes_price) ])))
                s response Hkey Hnet) as [_ Ho].
    cbn [rest_call] in Ho. rewrite Ho. unfold verdict. rewrite Hst. reflexivity.
Qed.

Lemma mock_credentials_usable : usable mock_credentials.
Proof.
  exists (fun _ message => Ok message). split; [reflexivity|].
  intros _ message. now exists message.
Qed.

(** A 429 answer to an order submission, on the mock transport. *)
Lemma rest_call_classifies_response_witness :
  let P := mock_platform 0 (replies 429 (VDict [])) in
  outcome (create_order P mock_credentials (VStr "buy") (VStr "order-1") (VInt 1)
             (VStr "yes") (VStr "KXNBAGAME-25NOV01-BOS") (VStr "limit")
             VNone VNone VNone VNone VNone (VInt 55) mock_state) =
  Raise (HTTPError 429 "raw body").
Proof.
  cbn zeta.
  refine (proj2 (proj2 (proj2
            (proj2 (rest_call_classifies_response
                      (mock_platform 0 (replies 429 (VDict []))) mock_credentials
                      (CallGet "/" []) mock_state)
               (mkResponse 429 "raw body" (Some (VDict [])))
               mock_credentials_usable _))) _ _ _ _ _ _ _ _ _ _ _ _ _).
  - intros i req. reflexivity.
  - reflexivity.
Defined.





(** The interval is kept between the recorded instants, not between the
    requests themselves: when the signature of the first call takes 150
    ms, the second call does not sleep and its request leaves at the same
    clock reading as the first. *)
Example requests_may_leave_closer_than_the_records :
  let P := mkPlatform (fun i => if (i =? 4)%nat then 150000 else 0)
             (fun _ => replies 200 (VDict [])) (fun _ _ _ => Ok tt)
             (fun _ _ => Ok tt) in
  let calls := [CallGet "/trade-api/v2/markets" [];
                CallGet "/trade-api/v2/markets" []] in
  let observations := observe (map (rest_call P mock_credentials) calls) mock_state in
  map fst observations = [an_instant + 100000; an_instant + 250000] /\
  flat_map (fun o => flat_map (fun e => match e with
                                        | EvHttp t _ => [t]
                                        | _ => []
                                        end) (snd o)) observations =
    [an_instant + 250000; an_instant + 250000].
Proof. cbn zeta. split; vm_compute; reflexivity. Qed.

Lemma rest_verbs_upper (method : string) :
  In method ["GET"; "POST"; "DELETE"] -> all_upper method = true.
Proof. intros [<-|[<-|[<-|[]]]]; reflexivity. Qed.

Lemma sign_pss_text_emits (P : Platform) (C : Credentials) text s :
  emitted (sign_pss_text P C text s) = [] \/
  emitted (sign_pss_text P C text s) = [EvSign (encode_utf8 text)].
Proof.
  unfold sign_pss_text, try_except, private_key_sign, elapse, emit, lift,
    raise, ret, bind.
  destruct (private_key C) as [sign|]; cbn; [|auto].
  destruct (sign (ticks s) (encode_utf8 text)) as [sig|e]; cbn; [auto|].
  destruct e; cbn; auto.
Qed.

Lemma request_headers_emits (P : Platform) (C : Credentials) method path s :
  forall e, In e (emitted (request_headers P C method path s)) ->
            exists m, e = EvSign m.
Proof.
  rewrite request_headers_unfold. cbn zeta. intros e.
  destruct (sign_pss_text_emits P C
              (str (stamp P s) +++ method +++ strip_query path) (after_stamp P s))
    as [E|E];
    destruct (outcome (sign_pss_text P C _ (after_stamp P s)));
    cbn [emitted]; rewrite E; cbn; intros H; try contradiction;
    destruct H as [<-|[]]; eauto.
Qed.

Lemma connect_handshake (P : Platform) (C : Credentials) (s : State) host hs :
  In (EvWsConnect host hs) (emitted (connect P C s)) ->
  host = WS_BASE_URL C +++ url_suffix /\
  outcome (request_headers P C "GET" url_suffix s) = Ok hs.
Proof.
  unfold connect. rewrite emitted_bind. intros Hin.
  apply in_app_or in Hin as [Hin|Hin].
  { apply request_headers_emits in Hin as [m Hm]. discriminate. }
  destruct (outcome (request_headers P C "GET" url_suffix s)) as [hs'|e];
    [|contradiction].
  unfold websockets_connect, on_open, handler, subscribe_to_tickers,
    websocket_send, increment_message_id, set_message_id, elapse, emit,
    read, lift, raise, ret, bind in Hin.
  cbn in Hin.
  destruct (ws_connect P _ _ _); cbn in Hin.
  - destruct (ws_send P _ _); cbn in Hin.
    + destruct Hin as [Hin|[Hin|[]]]; [|discriminate].
      injection Hin as <- <-. auto.
    + destruct Hin as [Hin|[]]. injection Hin as <- <-. auto.
  - destruct Hin as [Hin|[]]. injection Hin as <- <-. auto.
Qed.

(** With a key that signs, [connect] does reach the socket: the handshake
    is attempted with the headers that [request_headers] made for GET and
    the WebSocket path. *)
Lemma connect_opens_socket (P : Platform) (C : Credentials) (s : State) :
  usable C ->
  exists hs,
    outcome (request_headers P C "GET" url_suffix s) = Ok hs /\
    In (EvWsConnect (WS_BASE_URL C +++ url_suffix) hs) (emitted (connect P C s)).
Proof.
  intros Hkey.
  destruct (request_headers_usable P C "GET" url_suffix s Hkey) as [hs Hhs].
  exists hs. split; [exact Hhs|].
  unfold connect. rewrite emitted_bind, Hhs.
  apply in_or_app. right.
  unfold websockets_connect, on_open, handler, subscribe_to_tickers,
    websocket_send, increment_message_id, set_message_id, elapse, emit,
    read, lift, raise, ret, bind.
  cbn [outcome final emitted ticks message_id last_api_call now_us].
  destruct (ws_connect P _ _ hs) as [[]|e];
    cbn [outcome final emitted ticks message_id last_api_call now_us].
  - destruct (ws_send P _ _) as [[]|e]; cbn; auto.
  - cbn. auto.
Qed.

(** C7.  Every HTTP request that a REST primitive sends, and the
    handshake of the streaming connection, carry the key identifier, the
    clock reading in milliseconds written as a decimal numeral, and the
    base64 form of the key's signature of the message made of that
    numeral, the verb and the path up to its first question mark.  The
    verb is one of GET, POST and DELETE, in upper case, and it is the verb
    of the request; the handshake signs GET and the WebSocket path.  With
    a key that signs, a REST primitive does send its request and [connect]
    does attempt the handshake, with such headers. *)
Theorem requests_carry_signed_headers (P : Platform) (C : Credentials) :
  (forall c s req,
     In req (http_requests (emitted (rest_call P C c s))) ->
     exists path,
       url req = host C +++ path /\
       all_upper (verb req) = true /\
       signed_headers C (stamp P (final (rate_limit P s))) (verb req) path
         (headers req)) /\
  (forall s host hs,
     In (EvWsConnect host hs) (emitted (connect P C s)) ->
     host = WS_BASE_URL C +++ url_suffix /\
     signed_headers C (stamp P s) "GET" url_suffix hs) /\
  (forall ts, NilZero.int_of_string (str ts) = Some (Z.to_int ts)) /\
  (forall path,
     occurs question_mark (strip_query path) = false /\
     (path = strip_query path \/
      exists query, path = strip_query path +++ String question_mark query)) /\
  (forall c s,
     usable C ->
     exists req, http_requests (emitted (rest_call P C c s)) = [req]) /\
  (forall s,
     usable C ->
     exists hs,
       In (EvWsConnect (WS_BASE_URL C +++ url_suffix) hs) (emitted (connect P C s)) /\
       signed_headers C (stamp P s) "GET" url_suffix hs).
Proof.
  split; [|split; [|split; [|split; [|split]]]].
  - intros c s req Hin.
    destruct (rest_call_exchange P C c) as (method & path & build & E & Hm & Hb).
    rewrite E in Hin.
    pose proof (exchange_requests P C method path build s) as Hreq.
    cbn zeta in Hreq.
    destruct (outcome (request_headers P C method path (final (rate_limit P s))))
      as [hs|e] eqn:Eo.
    + rewrite Hreq in Hin. destruct Hin as [<-|[]].
      destruct (Hb hs) as (Hv & Hu & Hh).
      exists path. rewrite Hv, Hu, Hh.
      split; [reflexivity|]. split; [now apply rest_verbs_upper|].
      now apply request_headers_ok.
    + destruct Hreq as [_ Hreq]. rewrite Hreq in Hin. contradiction.
  - intros s host hs Hin.
    destruct (connect_handshake P C s host hs Hin) as [-> Ho].
    split; [reflexivity|]. now apply request_headers_ok.
  - apply str_decimal.
  - apply strip_query_spec.
  - intros c s Hkey.
    destruct (rest_call_exchange P C c) as (method & path & build & -> & _).
    pose proof (exchange_requests P C method path build s) as Hreq.
    cbn zeta in Hreq.
    destruct (request_headers_usable P C method path (final (rate_limit P s)) Hkey)
      as [hs Hhs].
    rewrite Hhs in Hreq. eexists. exact Hreq.
  - intros s Hkey.
    destruct (connect_opens_socket P C s Hkey) as (hs & Hhs & Hin).
    exists hs. split; [exact Hin|]. now apply request_headers_ok.
Qed.

(** The request of [get_market_candlesticks], whose path has a query
    string that the signed message leaves out, and the handshake of a
    streaming connection to the production host. *)
Lemma requests_carry_signed_headers_witness :
  let P := mock_platform 0 (replies 200 (VDict [])) in
  let c := CallGet "/trade-api/v2/series/KXNBAGAME/markets/T/candlesticks?start_ts=1&end_ts=2" [] in
  (exists req path,
     http_requests (emitted (rest_call P mock_credentials c mock_state)) = [req] /\
     url req = host mock_credentials +++ path /\
     all_upper (verb req) = true /\
     signed_headers mock_credentials (stamp P (final (rate_limit P mock_state)))
       (verb req) path (headers req)) /\
  (exists hs,
     In (EvWsConnect "wss://api.elections.kalshi.com/trade-api/ws/v2" hs)
       (emitted (connect P mock_credentials mock_state)) /\
     signed_headers mock_credentials (stamp P mock_state) "GET" "/trade-api/ws/v2" hs).
Proof.
  cbn zeta. split.
  - destruct (proj1 (proj2 (proj2 (proj2 (proj2
                (requests_carry_signed_headers
                   (mock_platform 0 (replies 200 (VDict []))) mock_credentials)))))
                (CallGet "/trade-api/v2/series/KXNBAGAME/markets/T/candlesticks?start_ts=1&end_ts=2" [])
                mock_state mock_credentials_usable) as [req Hreq].
    exists req.
    destruct (proj1 (requests_carry_signed_headers
                       (mock_platform 0 (replies 200 (VDict []))) mock_credentials)
                (CallGet "/trade-api/v2/series/KXNBAGAME/markets/T/candlesticks?start_ts=1&end_ts=2" [])
                mock_state req) as (path & H).
    + rewrite Hreq. now left.
    + exists path. split; [exact Hreq|exact H].
  - exact (proj2 (proj2 (proj2 (proj2 (proj2
             (requests_carry_signed_headers
                (mock_platform 0 (replies 200 (VDict []))) mock_credentials)))))
             mock_state mock_credentials_usable).
Defined.

(* ================================================================== *)
(** * Query parameters of the filtered collection operations *)
(* ================================================================== *)

Section QueryParameters.
Variable P : Platform.
Variable C : Credentials.

Lemma get_sends (path : string) (ps : Dict) (s : State) (req : Request) :
  In req (http_requests (emitted (get P C path ps s))) ->
  verb req = "GET" /\ url req = host C +++ path /\ params req = ps /\
  json_body req = None.
Proof.
  change (get P C path ps) with
    (exchange P C "GET" path (fun hs => mkRequest "GET" (host C +++ path) hs ps None)).
  intros Hin.
  pose proof (exchange_requests P C "GET" path
                (fun hs => mkRequest "GET" (host C +++ path) hs ps None) s) as H.
  cbn zeta in H.
  destruct (outcome (request_headers P C "GET" path _)).
  - rewrite H in Hin. destruct Hin as [<-|[]]. cbn. auto.
  - destruct H as [_ H]. rewrite H in Hin. contradiction.
Qed.

(** Every filtered operation is one [get] with the mapping it built. *)
Lemma filtered_call_get (c : FilteredCall) :
  exists path,
    filtered_call P C c =
    get P C path
      match c with
      | Call_get_events ticker => if truthy ticker then [("ticker", ticker)] else []
      | Call_get_live_data_batch milestone_ids data_types =>
          live_data_params milestone_ids data_types
      | _ => drop_None (filters c)
      end.
Proof.
  destruct c; cbn; eexists; reflexivity.
Qed.

End QueryParameters.

Lemma live_data_params_get milestone_ids data_types k v :
  dict_get (live_data_params milestone_ids data_types) k = Some v <->
  exists l, l <> [] /\ v = VStr (join "," l) /\
            ((k = "milestone_ids" /\ milestone_ids = Some l) \/
             (k = "data_types" /\ data_types = Some l)).
Proof.
  unfold live_data_params. split.
  - destruct milestone_ids as [[|x l]|]; destruct data_types as [[|y l']|];
      cbn -[join String.eqb];
      change (String.eqb "milestone_ids" "data_types") with false;
      cbn -[join String.eqb];
      try discriminate;
      repeat match goal with
      | |- context [String.eqb ?a k] =>
          destruct (String.eqb_spec a k) as [<-|?]; cbn -[join String.eqb]
      end;
      try discriminate;
      intros [= <-];
      first [ solve [exists (x :: l); split; [discriminate|];
                     split; [reflexivity|auto]]
            | solve [exists (y :: l'); split; [discriminate|];
                     split; [reflexivity|auto]] ].
  - intros (l0 & Hne & -> & [[-> E]|[-> E]]); subst;
      destruct l0 as [|z l0]; try congruence.
    + destruct data_types as [[|y l']|]; reflexivity.
    + destruct milestone_ids as [[|x l]|]; reflexivity.
Qed.

(** C8, as stated, does not hold for every filtered operation:
    [get_events] tests the truth value of [ticker], so an empty ticker,
    which the caller supplied and which is not [None], is left out of the
    request; [get_live_data_batch] sends the comma-joined string in place
    of the list it was given. *)
Lemma get_events_drops_empty_ticker :
  let P := mock_platform 0 (replies 200 (VDict [])) in
  let c := Call_get_events (VStr "") in
  let c' := Call_get_live_data_batch (Some ["m1"; "m2"]) None in
  (exists req,
     http_requests (emitted (filtered_call P mock_credentials c mock_state)) = [req] /\
     params req = [] /\
     ~ exactly_supplied c (params req)) /\
  (exists req,
     http_requests (emitted (filtered_call P mock_credentials c' mock_state)) = [req] /\
     params req = [("milestone_ids", VStr "m1,m2")] /\
     ~ exactly_supplied c' (params req)).
Proof.
  cbn zeta. split.
  - eexists. split; [vm_compute; reflexivity|].
    split; [reflexivity|].
    intros H.
    destruct (H "ticker" (VStr "")) as [_ H2].
    assert (dict_get [] "ticker" = Some (VStr "")) as E.
    { apply H2. split; [now left|discriminate]. }
    discriminate E.
  - eexists. split; [vm_compute; reflexivity|].
    split; [reflexivity|].
    intros H.
    destruct (H "milestone_ids" (VStr "m1,m2")) as [H1 _].
    destruct (H1 eq_refl) as [[Hin|[Hin|[]]] _]; discriminate Hin.
Qed.

(** C8, amended.  For a request sent by a filtered operation:
    - when the operation builds its parameters with the comprehension
      that drops [None] (all of them but [get_events] and
      [get_live_data_batch]), the mapping holds exactly the filters whose
      argument is not [None], each with the value supplied;
    - in every operation, an entry of the mapping belongs to a filter
      that was supplied and its value is not [None];
    - [get_events] sends [ticker] only when its truth value is true;
    - [get_live_data_batch] sends a list only when it is not empty, as
      the comma-joined string of its elements. *)
Theorem filtered_calls_send_supplied_filters
  (P : Platform) (C : Credentials) (c : FilteredCall) (s : State) (req : Request) :
  In req (http_requests (emitted (filtered_call P C c s))) ->
  (drops_None_only c = true -> exactly_supplied c (params req)) /\
  (forall k v, dict_get (params req) k = Some v ->
     v <> VNone /\ exists a, In (k, a) (filters c) /\ a <> VNone) /\
  (forall ticker, c = Call_get_events ticker ->
     params req = if truthy ticker then [("ticker", ticker)] else []) /\
  (forall milestone_ids data_types,
     c = Call_get_live_data_batch milestone_ids data_types ->
     forall k v,
       dict_get (params req) k = Some v <->
       exists l, l <> [] /\ v = VStr (join "," l) /\
                 ((k = "milestone_ids" /\ milestone_ids = Some l) \/
                  (k = "data_types" /\ data_types = Some l))).
Proof.
  intros Hin.
  destruct (filtered_call_get P C c) as [path E].
  rewrite E in Hin. apply get_sends in Hin as (_ & _ & Hps & _).
  rewrite Hps. clear Hps E.
  assert (forall k v,
            dict_get (drop_None (filters c)) k = Some v <->
            In (k, v) (filters c) /\ v <> VNone) as Hdrop
    by (intros k v; apply dict_get_drop_None, filters_distinct).
  split; [|split; [|split]].
  - intros Hd k v. destruct c; try discriminate Hd; apply Hdrop.
  - intros k v.
    destruct c;
      try (intros H; apply Hdrop in H as [H1 H2]; split; [exact H2|eauto]).
    + destruct (truthy ticker) eqn:Et; cbn [dict_get]; [|discriminate].
      destruct (String.eqb_spec "ticker" k) as [<-|Hne]; [|discriminate].
      intros [= <-].
      assert (ticker <> VNone) as Hv by (intros ->; discriminate Et).
      split; [exact Hv|]. exists ticker. split; [now left|exact Hv].
    + intros H. apply live_data_params_get in H
        as (l & Hne & -> & [[-> ->]|[-> ->]]).
      * split; [discriminate|]. eexists. split; [left; reflexivity|discriminate].
      * split; [discriminate|]. eexists.
        split; [right; left; reflexivity|discriminate].
  - intros ticker ->. reflexivity.
  - intros milestone_ids data_types -> k v. apply live_data_params_get.
Qed.

(** [get_markets] as the analysis script calls it: three of the seven
    filters are supplied and exactly those three are sent. *)
Lemma filtered_calls_send_supplied_filters_witness :
  let P := mock_platform 0 (replies 200 (VDict [])) in
  let c := Call_get_markets VNone (VStr "KXNBAGAME") VNone VNone (VInt 500) VNone
             (VStr "settled") in
  exists req,
    http_requests (emitted (filtered_call P mock_credentials c mock_state)) = [req] /\
    params req = [("series_ticker", VStr "KXNBAGAME"); ("limit", VInt 500);
                  ("status", VStr "settled")] /\
    exactly_supplied c (params req).
Proof.
  cbn zeta. eexists. split; [vm_compute; reflexivity|].
  split; [reflexivity|].
  refine (proj1 (filtered_calls_send_supplied_filters
                   (mock_platform 0 (replies 200 (VDict []))) mock_credentials
                   (Call_get_markets VNone (VStr "KXNBAGAME") VNone VNone (VInt 500)
                      VNone (VStr "settled"))
                   mock_state _ _) eq_refl).
  vm_compute. left. reflexivity.
Defined.

(* ================================================================== *)
(** * Exposed positions *)
(* ================================================================== *)

Lemma exposed_filter (positions : list PyVal) :
  forallb is_dict positions = true ->
  exposed positions = Ok (filter has_exposure positions).
Proof.
  induction positions as [|p rest IH]; cbn [forallb exposed filter];
    [reflexivity|].
  intros H. apply andb_true_iff in H as [Hp Hrest].
  rewrite (IH Hrest).
  destruct p as [| | | | |d]; try discriminate Hp.
  cbn [py_get has_exposure].
  destruct (dict_get d "market_exposure") as [x|]; [reflexivity|].
  reflexivity.
Qed.

(** C10.  When [get_positions] returns a JSON object whose
    [market_positions], if present, is a list of objects, then
    [get_exposed_positions] returns the mapping whose [market_positions]
    is the list of those entries with a [market_exposure] different from
    zero (an absent field counting as zero), in their order, and whose
    [cursor] is the cursor of the response, or the empty string when the
    response has no [cursor] key.  It does nothing beyond the one call of
    [get_positions]. *)
Theorem get_exposed_positions_filters
  (P : Platform) (C : Credentials)
  (cursor limit count_filter settlement_status ticker event_ticker : PyVal)
  (s : State) (d : Dict) (entries : list PyVal) :
  let fetched :=
    get_positions P C cursor limit count_filter settlement_status ticker
      event_ticker s in
  let r :=
    get_exposed_positions P C cursor limit count_filter settlement_status ticker
      event_ticker s in
  outcome fetched = Ok (VDict d) ->
  match dict_get d "market_positions" with
  | Some v => v = VList entries
  | None => entries = []
  end ->
  forallb is_dict entries = true ->
  outcome r =
    Ok (VDict [ ("cursor", match dict_get d "cursor" with
                           | Some c => c
                           | None => VStr ""
                           end);
                ("market_positions", VList (filter has_exposure entries)) ]) /\
  emitted r = emitted fetched /\
  final r = final fetched.
Proof.
  cbn zeta. intros Hfetch Hmp Hdicts.
  unfold get_exposed_positions.
  rewrite bind_unfold, Hfetch.
  cbn [py_get].
  assert (match dict_get d "market_positions" with
          | Some v => v
          | None => VList []
          end = VList entries) as Eentries.
  { destruct (dict_get d "market_positions"); congruence. }
  rewrite Eentries.
  unfold lift, ret, bind. cbn [py_iter].
  rewrite (exposed_filter entries Hdicts).
  cbn. rewrite !app_nil_r. auto.
Qed.

(** Four positions, of which the second has no exposure and the third no
    [market_exposure] field; the response has no cursor. *)
Lemma get_exposed_positions_filters_witness :
  let doc :=
    [("market_positions",
      VList [ position "A" (Some (VInt 250)); position "B" (Some (VInt 0));
              position "C" None; position "D" (Some (VInt (-40))) ])] in
  let P := mock_platform 0 (replies 200 (VDict doc)) in
  outcome (get_exposed_positions P mock_credentials VNone VNone VNone VNone VNone
             VNone mock_state) =
  Ok (VDict [ ("cursor", VStr "");
              ("market_positions",
               VList [ position "A" (Some (VInt 250));
                       position "D" (Some (VInt (-40))) ]) ]).
Proof.
  cbn zeta.
  refine (proj1 (get_exposed_positions_filters
                   (mock_platform 0 (replies 200 (VDict _))) mock_credentials
                   VNone VNone VNone VNone VNone VNone mock_state
                   [("market_positions",
                     VList [ position "A" (Some (VInt 250));
                             position "B" (Some (VInt 0));
                             position "C" None;
                             position "D" (Some (VInt (-40))) ])]
                   [ position "A" (Some (VInt 250)); position "B" (Some (VInt 0));
                     position "C" None; position "D" (Some (VInt (-40))) ]
                   _ _ _)).
  - vm_compute. reflexivity.
  - reflexivity.
  - reflexivity.
Defined.

(* ================================================================== *)
(** * Order submission *)
(* ================================================================== *)

(** [create_order] goes to the network whatever the two prices are: with a
    key that signs, one POST is sent and its body holds the price fields
    that are not [None], be it none of them or both. *)
Lemma create_order_always_posts
  (P : Platform) (C : Credentials)
  (action client_order_id count side ticker type buy_max_cost expiration_ts
   no_price post_only sell_position_floor yes_price : PyVal) (s : State) :
  usable C ->
  exists req,
    http_requests
      (emitted (create_order P C action client_order_id count side ticker type
                  buy_max_cost expiration_ts no_price post_only
                  sell_position_floor yes_price s)) = [req] /\
    verb req = "POST" /\
    url req = host C +++ portfolio_url +++ "/orders".
Proof.
  intros Hkey. unfold create_order.
  set (body := VDict _).
  change (post P C (portfolio_url +++ "/orders") body) with
    (exchange P C "POST" (portfolio_url +++ "/orders")
       (fun hs => mkRequest "POST" (host C +++ portfolio_url +++ "/orders") hs []
                    (Some body))).
  pose proof (exchange_requests P C "POST" (portfolio_url +++ "/orders")
                (fun hs => mkRequest "POST" (host C +++ portfolio_url +++ "/orders")
                             hs [] (Some body)) s) as H.
  cbn zeta in H.
  destruct (request_headers_usable P C "POST" (portfolio_url +++ "/orders")
              (final (rate_limit P s)) Hkey) as (hs & Hhs).
  rewrite Hhs in H. eexists. split; [exact H|]. split; reflexivity.
Qed.

(** C1, at the failing input.  An order with neither [yes_price] nor
    [no_price] is not refused: the rate limiter runs, the request is
    signed and posted, with a body that has no price, and the answer of
    the exchange is returned.  The same holds with both prices.  The
    sibling [amend_order] refuses both inputs with a [ValueError] before
    any effect. *)
Theorem create_order_without_price_is_posted :
  let P := mock_platform 0 (replies 201 (VDict [("order", VDict [])])) in
  let neither :=
    create_order P mock_credentials (VStr "buy") (VStr "order-1") (VInt 1)
      (VStr "yes") (VStr "KXNBAGAME-25NOV01-BOS") (VStr "limit")
      VNone VNone VNone VNone VNone VNone mock_state in
  let both :=
    create_order P mock_credentials (VStr "buy") (VStr "order-1") (VInt 1)
      (VStr "yes") (VStr "KXNBAGAME-25NOV01-BOS") (VStr "limit")
      VNone VNone (VInt 45) VNone VNone (VInt 55) mock_state in
  let amended :=
    amend_order P mock_credentials "o-1" (VStr "buy") (VStr "order-1") (VInt 1)
      (VStr "yes") (VStr "KXNBAGAME-25NOV01-BOS") (VStr "order-2")
      VNone VNone mock_state in
  outcome neither = Ok (VDict [("order", VDict [])]) /\
  map json_body (http_requests (emitted neither)) =
    [Some (VDict [ ("action", VStr "buy"); ("client_order_id", VStr "order-1");
                   ("count", VInt 1); ("side", VStr "yes");
                   ("ticker", VStr "KXNBAGAME-25NOV01-BOS");
                   ("type", VStr "limit") ])] /\
  last_api_call (final neither) <> last_api_call mock_state /\
  outcome both = Ok (VDict [("order", VDict [])]) /\
  List.length (http_requests (emitted both)) = 1%nat /\
  outcome amended =
    Raise (ValueError "Exactly one of yes_price or no_price must be provided.") /\
  emitted amended = [] /\
  final amended = mock_state.
Proof.
  cbn zeta. repeat split; try (vm_compute; reflexivity).
  vm_compute. discriminate.
Qed.

(* ================================================================== *)
(** * The market fetch of the analysis script *)
(* ================================================================== *)

(** C2, as stated, does not hold: nothing in the repository follows a
    cursor.  On a source of three markets served two per page,
    [get_nba_game_markets] sends one request, receives the first page
    together with a cursor, and returns that page: the third market is
    missing. *)
Lemma get_nba_game_markets_stops_at_first_page :
  let items := [market "A"; market "B"; market "C"] in
  let P := mock_platform 0 (paged_source items 2) in
  let r := get_nba_game_markets P mock_credentials (VInt 500) mock_state in
  (forall req,
     dict_get (params req) "cursor" = None ->
     dict_get (params req) "limit" = Some (VInt 500) ->
     paged_source items 2 req =
     Ok (mkResponse 200 ""
           (Some (VDict [("markets", VList [market "A"; market "B"]);
                         ("cursor", VStr "2")])))) /\
  outcome r = Ok (VList [market "A"; market "B"]) /\
  outcome r <> Ok (VList items) /\
  List.length (http_requests (emitted r)) = 1%nat.
Proof.
  cbn zeta. split; [|split; [|split]].
  - intros req Hc Hl. unfold paged_source. rewrite Hc, Hl. reflexivity.
  - vm_compute. reflexivity.
  - vm_compute. discriminate.
  - vm_compute. reflexivity.
Qed.

Lemma markets_query (limit : PyVal) :
  let ps := drop_None
              [ ("event_ticker", VNone); ("series_ticker", VStr "KXNBAGAME");
                ("max_close_ts", VNone); ("min_close_ts", VNone);
                ("limit", limit); ("cursor", VNone); ("status", VStr "settled") ] in
  dict_get ps "cursor" = None /\
  dict_get ps "series_ticker" = Some (VStr "KXNBAGAME") /\
  dict_get ps "status" = Some (VStr "settled") /\
  (limit <> VNone -> dict_get ps "limit" = Some limit).
Proof.
  destruct limit; cbn; repeat split; try reflexivity; intros H; congruence.
Qed.

(** C2, amended.  [get_nba_game_markets] is a single-page fetch: it does
    what its one call of [get_markets] does and nothing more, so at most
    one HTTP request is sent; that request asks for the series KXNBAGAME
    with status settled and the caller's limit, and has no cursor.  When
    the answer is a JSON object, the result is its [markets] list as it
    is, whether or not the object holds a cursor, and the empty list when
    it has no [markets] key.  All the items of a source are returned only
    when its first page holds them all. *)
Theorem get_nba_game_markets_fetches_one_page
  (P : Platform) (C : Credentials) (limit : PyVal) (s : State) :
  let fetched :=
    get_markets P C VNone (VStr "KXNBAGAME") VNone VNone limit VNone
      (VStr "settled") s in
  let r := get_nba_game_markets P C limit s in
  emitted r = emitted fetched /\
  (List.length (http_requests (emitted r)) <= 1)%nat /\
  (forall req,
     In req (http_requests (emitted r)) ->
     dict_get (params req) "cursor" = None /\
     dict_get (params req) "series_ticker" = Some (VStr "KXNBAGAME") /\
     dict_get (params req) "status" = Some (VStr "settled") /\
     (limit <> VNone -> dict_get (params req) "limit" = Some limit)) /\
  (forall d page,
     outcome fetched = Ok (VDict d) ->
     dict_get d "markets" = Some (VList page) ->
     outcome r = Ok (VList page)) /\
  (forall d,
     outcome fetched = Ok (VDict d) ->
     dict_get d "markets" = None ->
     outcome r = Ok (VList [])).
Proof.
  cbn zeta.
  assert (emitted (get_nba_game_markets P C limit s) =
          emitted (get_markets P C VNone (VStr "KXNBAGAME") VNone VNone limit VNone
                     (VStr "settled") s)) as Hev.
  { unfold get_nba_game_markets. rewrite bind_unfold.
    destruct (outcome (get_markets P C _ _ _ _ _ _ _ s)) as [response|e];
      [|reflexivity].
    cbn [emitted].
    unfold lift, ret, raise, bind.
    destruct (py_contains "markets" response) as [[|]|e]; cbn;
      rewrite ?app_nil_r; try reflexivity.
    destruct (py_getitem response "markets") as [v|e]; cbn;
      rewrite ?app_nil_r; try reflexivity.
    destruct (py_len v); cbn; rewrite ?app_nil_r; reflexivity. }
  split; [exact Hev|].
  rewrite Hev.
  split; [|split; [|split]].
  - apply (rest_call_requests P C (CallGet markets_url _) s).
  - intros req Hin. unfold get_markets in Hin.
    apply get_sends in Hin as (_ & _ & -> & _).
    apply markets_query.
  - intros d page Hf Hm.
    unfold get_nba_game_markets. rewrite bind_unfold, Hf.
    cbn [py_contains]. rewrite Hm. cbn. rewrite Hm. reflexivity.
  - intros d Hf Hm.
    unfold get_nba_game_markets. rewrite bind_unfold, Hf.
    cbn [py_contains]. rewrite Hm. reflexivity.
Qed.

(** On a source whose first page holds everything, the fetch returns all
    the items; the request has no cursor. *)
Lemma get_nba_game_markets_fetches_one_page_witness :
  let items := [market "A"; market "B"; market "C"] in
  let P := mock_platform 0 (paged_source items 1000) in
  let r := get_nba_game_markets P mock_credentials (VInt 500) mock_state in
  outcome r = Ok (VList items) /\
  map (fun req => dict_get (params req) "cursor") (http_requests (emitted r)) = [None].
Proof.
  cbn zeta. split; [|vm_compute; reflexivity].
  refine (proj1 (proj2 (proj2 (proj2
            (get_nba_game_markets_fetches_one_page
               (mock_platform 0
                  (paged_source [market "A"; market "B"; market "C"] 1000))
               mock_credentials (VInt 500) mock_state))))
            [("markets", VList [market "A"; market "B"; market "C"])] _ _ _).
  - vm_compute. reflexivity.
  - reflexivity.
Defined.

(* ================================================================== *)
(** * Signing *)
(* ================================================================== *)

Lemma list_ind3 {A} (Q : list A -> Prop) :
  Q [] -> (forall a, Q [a]) -> (forall a b, Q [a; b]) ->
  (forall a b c l, Q l -> Q (a :: b :: c :: l)) ->
  forall l, Q l.
Proof.
  intros H0 H1 H2 H3 l.
  assert (Q l /\ (forall a, Q (a :: l)) /\ (forall a b, Q (a :: b :: l))) as H.
  { induction l as [|x l (IH0 & IH1 & IH2)]; [auto|].
    split; [apply IH1|]. split; [intros a; apply IH2|].
    intros a b. apply H3. exact IH0. }
  apply H.
Qed.

Lemma b64encode_N_length (l : list N) :
  String.length (b64encode_N l) = (4 * ((List.length l + 2) / 3))%nat.
Proof.
  induction l as [| a | a b | a b c l IH] using list_ind3; try reflexivity.
  cbn [b64encode_N String.length List.length]. rewrite IH.
  replace (S (S (S (List.length l))) + 2)%nat with (List.length l + 2 + 1 * 3)%nat by lia.
  rewrite Nat.div_add by discriminate. lia.
Qed.

Lemma octet_of_byte (b : byte) : In (Byte.to_N b) octets.
Proof.
  unfold octets. apply in_map_iff. exists (N.to_nat (Byte.to_N b)).
  split; [apply Nnat.N2Nat.id|].
  apply in_seq. pose proof (Byte.to_N_bounded b). lia.
Qed.

(** The sextets that depend on one octet *)
Lemma sextets_of_one (a : N) :
  In a octets ->
  b64_symbol (b64_digit (N.shiftr a 2)) = true /\
  b64_symbol (b64_digit (N.shiftl (N.land a 3) 4)) = true /\
  b64_symbol (b64_digit (N.shiftl (N.land a 15) 2)) = true /\
  b64_symbol (b64_digit (N.land a 63)) = true.
Proof.
  assert (forallb (fun a =>
            b64_symbol (b64_digit (N.shiftr a 2)) &&
            b64_symbol (b64_digit (N.shiftl (N.land a 3) 4)) &&
            b64_symbol (b64_digit (N.shiftl (N.land a 15) 2)) &&
            b64_symbol (b64_digit (N.land a 63))) octets = true) as S
    by (vm_compute; reflexivity).
  rewrite forallb_forall in S. intros Ha. specialize (S a Ha).
  apply andb_true_iff in S as [S H4].
  apply andb_true_iff in S as [S H3].
  apply andb_true_iff in S as [H1 H2]. auto.
Qed.

(** The sextets that straddle two octets *)
Lemma sextets_of_two (a b : N) :
  In a octets -> In b octets ->
  b64_symbol (b64_digit (N.lor (N.shiftl (N.land a 3) 4) (N.shiftr b 4))) = true /\
  b64_symbol (b64_digit (N.lor (N.shiftl (N.land a 15) 2) (N.shiftr b 6))) = true.
Proof.
  assert (forallb (fun a => forallb (fun b =>
            b64_symbol (b64_digit (N.lor (N.shiftl (N.land a 3) 4) (N.shiftr b 4))) &&
            b64_symbol (b64_digit (N.lor (N.shiftl (N.land a 15) 2) (N.shiftr b 6))))
            octets) octets = true) as S
    by (vm_compute; reflexivity).
  rewrite forallb_forall in S. intros Ha Hb. specialize (S a Ha).
  rewrite forallb_forall in S. specialize (S b Hb).
  now apply andb_true_iff in S.
Qed.

Lemma b64encode_N_symbols (l : list N) :
  (forall a, In a l -> In a octets) ->
  string_forall b64_symbol (b64encode_N l) = true.
Proof.
  induction l as [| a | a b | a b c l IH] using list_ind3; intros Hl.
  - reflexivity.
  - destruct (sextets_of_one a) as (H1 & H2 & _); [apply Hl; now left|].
    cbn [b64encode_N string_forall]. rewrite H1, H2. reflexivity.
  - assert (In a octets) as Ha by (apply Hl; now left).
    assert (In b octets) as Hb by (apply Hl; right; now left).
    destruct (sextets_of_one a Ha) as (H1 & _).
    destruct (sextets_of_one b Hb) as (_ & _ & H3 & _).
    destruct (sextets_of_two a b Ha Hb) as [H4 _].
    cbn [b64encode_N string_forall]. rewrite H1, H3, H4. reflexivity.
  - assert (In a octets) as Ha by (apply Hl; now left).
    assert (In b octets) as Hb by (apply Hl; right; now left).
    assert (In c octets) as Hc by (apply Hl; right; right; now left).
    destruct (sextets_of_one a Ha) as (H1 & _).
    destruct (sextets_of_one c Hc) as (_ & _ & _ & H6).
    destruct (sextets_of_two a b Ha Hb) as [H4 _].
    destruct (sextets_of_two b c Hb Hc) as [_ H5].
    cbn [b64encode_N string_forall]. rewrite H1, H4, H5, H6.
    cbn [andb]. apply IH. intros x Hx. apply Hl. do 3 right. exact Hx.
Qed.

Lemma b64encode_shape (bs : list byte) :
  String.length (b64encode bs) = (4 * ((List.length bs + 2) / 3))%nat /\
  string_forall b64_symbol (b64encode bs) = true.
Proof.
  unfold b64encode. split.
  - rewrite b64encode_N_length, length_map. reflexivity.
  - apply b64encode_N_symbols. intros a Ha.
    apply in_map_iff in Ha as (b & <- & _). apply octet_of_byte.
Qed.

(** The test vectors of RFC 4648 *)
Example b64encode_rfc4648 :
  map (fun s => b64encode (encode_utf8 s))
    [""; "f"; "fo"; "foo"; "foob"; "fooba"; "foobar"] =
  [""; "Zg=="; "Zm8="; "Zm9v"; "Zm9vYg=="; "Zm9vYmE="; "Zm9vYmFy"].
Proof. reflexivity. Qed.

Lemma exchange_signs_once (P : Platform) (C : Credentials)
  (method path : string) (build : Headers -> Request) (s : State) sign e :
  private_key C = RSAPrivateKey sign ->
  (forall salt message, sign salt message = Raise e) ->
  let r := exchange P C method path build s in
  outcome r = Raise (reported e) /\
  http_requests (emitted r) = [] /\
  List.length (signed_messages (emitted r)) = 1%nat.
Proof.
  intros Hk Hs. cbn zeta.
  rewrite exchange_anatomy. cbn zeta.
  destruct (rate_limit_run P s) as (t & n & evs & Hrl & Hh & Hsg & _).
  rewrite Hrl. cbn [final emitted].
  set (s1 := mkState t (message_id s) t n).
  rewrite request_headers_unfold. cbn zeta.
  set (text := str (stamp P s1) +++ method +++ strip_query path).
  pose proof (sign_pss_text_outcome P C text (after_stamp P s1)) as Ho.
  pose proof (sign_pss_text_signs P C text (after_stamp P s1)) as Hm.
  pose proof (sign_pss_text_run P C text (after_stamp P s1)) as (_ & _ & Hq & _).
  cbn zeta in Hq.
  rewrite Hk, Hs in Ho. rewrite Hk in Hm.
  assert (outcome (sign_pss_text P C text (after_stamp P s1)) = Raise (reported e))
    as Ho' by (rewrite Ho; destruct e; reflexivity).
  rewrite Ho'. cbn [outcome emitted].
  rewrite http_requests_app, signed_messages_app, Hh, Hsg, Hq, Hm.
  auto.
Qed.

(** C9, as stated, does not hold: only [InvalidSignature] is turned into
    the signing error.  A credential that is not a key object fails with
    the [AttributeError] of the attribute lookup, and an exception of
    another class raised by the primitive (here for a key of the wrong
    type) reaches the caller as it is. *)
Lemma unusable_key_error_is_not_classified :
  let P := mock_platform 0 (replies 200 (VDict [])) in
  let not_a_key := mkCredentials "key-id" NotAKey PROD in
  let wrong_type :=
    mkCredentials "key-id" (RSAPrivateKey (fun _ _ => Raise TypeError)) PROD in
  outcome (sign_pss_text P not_a_key "1730000000000GET/trade-api/v2/markets"
             mock_state) = Raise AttributeError /\
  outcome (sign_pss_text P wrong_type "1730000000000GET/trade-api/v2/markets"
             mock_state) = Raise TypeError /\
  Raise (A := string) AttributeError <> Raise (ValueError "RSA sign PSS failed") /\
  Raise (A := string) TypeError <> Raise (ValueError "RSA sign PSS failed").
Proof.
  cbn zeta. repeat split; try reflexivity; discriminate.
Qed.

(** C9, amended.  [sign_pss_text] calls the primitive at most once.  For a
    key that signs the message it returns the base64 encoding of the
    signature, four symbols of the base64 alphabet for every three
    octets.  When the primitive raises [InvalidSignature] it raises
    [ValueError] with the text "RSA sign PSS failed"; an exception of any
    other class that the primitive raises, and the [AttributeError] of a
    credential that is not a key, reach the caller unchanged.  In every
    failing case the REST call that asked for the signature fails with
    that error after one attempt and sends nothing. *)
Theorem sign_pss_text_outcomes (P : Platform) (C : Credentials) :
  (forall text s,
     let r := sign_pss_text P C text s in
     (List.length (signed_messages (emitted r)) <= 1)%nat /\
     (private_key C = NotAKey -> outcome r = Raise AttributeError) /\
     (forall sign, private_key C = RSAPrivateKey sign ->
        (forall signature,
           sign (ticks s) (encode_utf8 text) = Ok signature ->
           outcome r = Ok (b64encode signature)) /\
        (sign (ticks s) (encode_utf8 text) = Raise InvalidSignature ->
           outcome r = Raise (ValueError "RSA sign PSS failed")) /\
        (forall e,
           e <> InvalidSignature ->
           sign (ticks s) (encode_utf8 text) = Raise e ->
           outcome r = Raise e))) /\
  (forall c s sign e,
     private_key C = RSAPrivateKey sign ->
     (forall salt message, sign salt message = Raise e) ->
     let r := rest_call P C c s in
     outcome r = Raise (reported e) /\
     http_requests (emitted r) = [] /\
     List.length (signed_messages (emitted r)) = 1%nat) /\
  (forall signature,
     String.length (b64encode signature) =
       (4 * ((List.length signature + 2) / 3))%nat /\
     string_forall b64_symbol (b64encode signature) = true).
Proof.
  split; [|split].
  - intros text s. cbn zeta.
    pose proof (sign_pss_text_outcome P C text s) as Ho.
    pose proof (sign_pss_text_signs P C text s) as Hm.
    split; [|split].
    + rewrite Hm. destruct (private_key C); cbn; lia.
    + intros Hk. now rewrite Hk in Ho.
    + intros sign Hk. rewrite Hk in Ho. repeat split.
      * intros signature Hs. now rewrite Hs in Ho.
      * intros Hs. now rewrite Hs in Ho.
      * intros e Hne Hs. rewrite Hs in Ho. rewrite Ho.
        destruct e; try reflexivity. contradiction.
  - intros c s sign e Hk Hs.
    destruct (rest_call_exchange P C c) as (method & path & build & -> & _).
    now apply exchange_signs_once with (sign := sign).
  - apply b64encode_shape.
Qed.

(** A key that signs, and an order submission with a key the primitive
    rejects as too small. *)
Lemma sign_pss_text_outcomes_witness :
  let P := mock_platform 0 (replies 200 (VDict [])) in
  let too_small :=
    mkCredentials "key-id" (RSAPrivateKey (fun _ _ => Raise (ValueError "Digest too large for key size"))) PROD in
  outcome (sign_pss_text P mock_credentials "Man" mock_state) = Ok "TWFu" /\
  (let r := rest_call P too_small
              (CallPost "/trade-api/v2/portfolio/orders" (VDict [])) mock_state in
   outcome r = Raise (ValueError "Digest too large for key size") /\
   http_requests (emitted r) = [] /\
   List.length (signed_messages (emitted r)) = 1%nat).
Proof.
  cbn zeta. split.
  - refine (proj1 (proj2 (proj2
              (proj1 (sign_pss_text_outcomes
                        (mock_platform 0 (replies 200 (VDict []))) mock_credentials)
                 "Man" mock_state))
              (fun _ message => Ok message) eq_refl) _ eq_refl).
  - refine (proj1 (proj2 (sign_pss_text_outcomes
                            (mock_platform 0 (replies 200 (VDict [])))
                            (mkCredentials "key-id"
                               (RSAPrivateKey
                                  (fun _ _ => Raise (ValueError "Digest too large for key size")))
                               PROD)))
              _ mock_state _ (ValueError "Digest too large for key size")
              eq_refl _).
    intros salt message. reflexivity.
Defined.

(* ================================================================== *)
(** * Message ids of a streaming session *)
(* ================================================================== *)




Section StreamFacts.
Variable P : Platform.

(** An outbound operation either puts one frame on the wire, with the
    current [message_id], and moves the counter by one, or fails and
    leaves the counter alone. *)
Lemma ws_call_run (c : WsCall) (s : State) :
  let r := ws_call P c s in
  (exists frame,
     emitted r = [EvWsSend frame] /\ frame_id frame = Some (message_id s) /\
     message_id (final r) = message_id s + 1 /\ outcome r = Ok tt) \/
  (emitted r = [] /\ message_id (final r) = message_id s /\
   exists e, outcome r = Raise e).
Proof.
  destruct c; cbn [ws_call];
    unfold on_open, subscribe_to_tickers, subscribe_to_specific_tickers,
      subscribe_to_orderbook, subscribe_to_trades, unsubscribe_from_channel,
      send_custom_message, websocket_send, increment_message_id,
      set_message_id, elapse, emit, read, raise, ret, bind;
    cbn [outcome final emitted message_id];
    match goal with
    | |- context [ws_send P ?i ?f] =>
        destruct (ws_send P i f) as [[]|e] eqn:E;
        cbn [outcome final emitted message_id app];
        [left; exists f; repeat split; try reflexivity
        |right; repeat split; eauto]
    end.
  cbn [frame_id]. rewrite dict_get_set_same. reflexivity.
Qed.




End StreamFacts.



(* ================================================================== *)
(** * The rate limiter under two threads *)
(* ================================================================== *)

Module InterleavingFacts.
Import Interleaving.



(** The model of a thread agrees with [rate_limit]: a thread that runs
    alone, with the delays of the platform, ends with the clock and the
    record that [rate_limit] ends with. *)
Lemma solo_thread_is_rate_limit (P : Platform) (s : State) (idle : Pc) :
  time_flows P ->
  let r := rate_limit P s in
  exec (solo_schedule P s) (mkSys (now_us s) (last_api_call s) idle AtEntry) =
  Some (mkSys (now_us (final r)) (last_api_call (final r)) idle
          (Returned (last_api_call (final r)))).
Proof.
  intros Hflow. cbn zeta.
  pose proof (Hflow (ticks s)) as H0.
  pose proof (Hflow (S (ticks s))) as H1.
  pose proof (Hflow (S (S (ticks s)))) as H2.
  assert (forall d, 0 <= d -> (0 <=? d) = true) as Hle
    by (intros d Hd; now apply Z.leb_le).
  unfold solo_schedule, rate_limit, datetime_now, time_sleep, elapse, read,
    emit, set_last_api_call, ret, bind.
  change (1000 * THRESHOLD_IN_MILLISECONDS) with 100000.
  change (THRESHOLD_IN_MILLISECONDS * 1000) with 100000.
  cbn [outcome final emitted now_us last_api_call ticks message_id].
  destruct (now_us s + 0 + lag P (ticks s) - last_api_call s <? 100000) eqn:E;
    cbn [outcome final emitted now_us last_api_call ticks message_id app exec act];
    rewrite ?Hle by lia;
    unfold thread_step;
    cbn [pc_of with_pc store pc1 pc2 clock shared_last_api_call exec act];
    change threshold_in_microseconds with 100000;
    replace (now_us s + (0 + lag P (ticks s)))
      with (now_us s + 0 + lag P (ticks s)) by lia;
    rewrite E;
    cbn [pc_of with_pc store pc1 pc2 clock shared_last_api_call exec act];
    rewrite ?Hle by lia;
    cbn [pc_of with_pc store pc1 pc2 clock shared_last_api_call exec act].
  - replace (now_us s + 0 + lag P (ticks s) + 100000 <=?
             now_us s + 0 + lag P (ticks s) + (100000 + lag P (S (ticks s))))
      with true by (symmetry; apply Z.leb_le; lia).
    cbn [pc_of with_pc store pc1 pc2 clock shared_last_api_call exec act].
    rewrite ?Hle by lia.
    cbn [pc_of with_pc store pc1 pc2 clock shared_last_api_call exec act].
    unfold store. cbn [clock pc1 pc2]. f_equal. f_equal; try lia.
    f_equal. lia.
  - unfold store. cbn [clock pc1 pc2]. f_equal. f_equal; try lia.
    f_equal. lia.
Qed.

End InterleavingFacts.




(* ================================================================== *)
(** * Further properties: order amendment, decrease and submission *)
(* ================================================================== *)

(** Looking a key up after the comprehension that drops [None] *)
Lemma drop_None_lookup (d : Dict) (k : string) :
  NoDup (dict_keys d) ->
  dict_get (drop_None d) k =
  match dict_get d k with
  | Some v => if is_not_None v then Some v else None
  | None => None
  end.
Proof.
  induction d as [|[k' v'] d IH]; cbn [dict_get drop_None filter dict_keys map fst snd];
    [reflexivity|].
  intros Hnd. inversion Hnd as [|? ? Hnotin Hnd']; subst.
  fold (drop_None d). specialize (IH Hnd').
  destruct (String.eqb_spec k' k) as [->|Hne].
  - destruct (is_not_None v') eqn:Ev; cbn [dict_get].
    + now rewrite String.eqb_refl.
    + rewrite IH.
      destruct (dict_get d k) as [v|] eqn:Eg; [|reflexivity].
      exfalso. apply Hnotin. apply dict_get_In in Eg.
      unfold dict_keys. change k with (fst (k, v)). now apply in_map.
  - destruct (is_not_None v'); cbn [dict_get]; [|exact IH].
    destruct (String.eqb_spec k' k); [contradiction|exact IH].
Qed.

Section OrderFacts.
Variable P : Platform.
Variable C : Credentials.

Lemma post_sends (path : string) (body : PyVal) (s : State) (req : Request) :
  In req (http_requests (emitted (post P C path body s))) ->
  verb req = "POST" /\ url req = host C +++ path /\ params req = [] /\
  json_body req = Some body.
Proof.
  change (post P C path body) with
    (exchange P C "POST" path
       (fun hs => mkRequest "POST" (host C +++ path) hs [] (Some body))).
  intros Hin.
  pose proof (exchange_requests P C "POST" path
                (fun hs => mkRequest "POST" (host C +++ path) hs [] (Some body)) s)
    as H.
  cbn zeta in H.
  destruct (outcome (request_headers P C "POST" path _)).
  - rewrite H in Hin. destruct Hin as [<-|[]]. cbn. auto.
  - destruct H as [_ H]. rewrite H in Hin. contradiction.
Qed.

Lemma post_sends_one (path : string) (body : PyVal) (s : State) :
  usable C ->
  exists req, http_requests (emitted (post P C path body s)) = [req].
Proof.
  intros Hkey.
  change (post P C path body) with
    (exchange P C "POST" path
       (fun hs => mkRequest "POST" (host C +++ path) hs [] (Some body))).
  pose proof (exchange_requests P C "POST" path
                (fun hs => mkRequest "POST" (host C +++ path) hs [] (Some body)) s)
    as H.
  cbn zeta in H.
  destruct (request_headers_usable P C "POST" path (final (rate_limit P s)) Hkey)
    as (hs & Hhs).
  rewrite Hhs in H. eauto.
Qed.

End OrderFacts.

Lemma drop_None_values (d : Dict) k v :
  dict_get (drop_None d) k = Some v -> v <> VNone.
Proof.
  intros H. apply dict_get_In in H. apply In_drop_None in H. apply H.
Qed.

(** X1.  [amend_order] refuses, before any effect, an amendment with both
    prices or with none; with exactly one price it posts to the amend path
    of the order a body that holds that price, does not hold the other
    one, and has no [None] value. *)
Theorem amend_order_requires_one_price
  (P : Platform) (C : Credentials) (order_id : string)
  (action client_order_id count side ticker updated_client_order_id
   no_price yes_price : PyVal) (s : State) :
  let r := amend_order P C order_id action client_order_id count side ticker
             updated_client_order_id no_price yes_price s in
  (is_not_None yes_price = is_not_None no_price ->
     outcome r =
       Raise (ValueError "Exactly one of yes_price or no_price must be provided.") /\
     emitted r = [] /\ final r = s) /\
  (is_not_None yes_price <> is_not_None no_price ->
     (usable C -> exists req, http_requests (emitted r) = [req]) /\
     forall req, In req (http_requests (emitted r)) ->
       verb req = "POST" /\
       url req = host C +++ portfolio_url +++ "/orders/" +++ order_id +++ "/amend" /\
       exists body,
         json_body req = Some (VDict body) /\
         dict_get body "yes_price" =
           (if is_not_None yes_price then Some yes_price else None) /\
         dict_get body "no_price" =
           (if is_not_None no_price then Some no_price else None) /\
         forall k v, dict_get body k = Some v -> v <> VNone).
Proof.
  cbn zeta. unfold amend_order. split.
  - intros E.
    destruct (is_not_None yes_price), (is_not_None no_price);
      try discriminate E; cbn; auto.
  - intros E.
    assert ((negb (is_not_None yes_price) && negb (is_not_None no_price)
             || is_not_None yes_price && is_not_None no_price) = false) as G.
    { destruct (is_not_None yes_price), (is_not_None no_price);
        try reflexivity; contradiction E; reflexivity. }
    rewrite G. split.
    + intros Hkey. apply post_sends_one. exact Hkey.
    + intros req Hin. apply post_sends in Hin as (Hv & Hu & _ & Hb).
      split; [exact Hv|]. split; [exact Hu|].
      eexists. split; [exact Hb|].
      split; [|split].
      * rewrite drop_None_lookup by (apply distinct_NoDup; reflexivity).
        reflexivity.
      * rewrite drop_None_lookup by (apply distinct_NoDup; reflexivity).
        reflexivity.
      * apply drop_None_values.
Qed.

(** An amendment of the Yes price alone, on the mock platform. *)
Lemma amend_order_requires_one_price_witness :
  let P := mock_platform 0 (replies 200 (VDict [])) in
  let r := amend_order P mock_credentials "o-1" (VStr "buy") (VStr "c-1") (VInt 3)
             (VStr "yes") (VStr "T") (VStr "c-2") VNone (VInt 61) mock_state in
  exists req,
    http_requests (emitted r) = [req] /\
    url req = "https://api.elections.kalshi.com/trade-api/v2/portfolio/orders/o-1/amend".
Proof.
  cbn zeta.
  destruct (proj2 (amend_order_requires_one_price
                     (mock_platform 0 (replies 200 (VDict []))) mock_credentials
                     "o-1" (VStr "buy") (VStr "c-1") (VInt 3) (VStr "yes") (VStr "T")
                     (VStr "c-2") VNone (VInt 61) mock_state))
    as [Hone Hreq].
  - cbn. discriminate.
  - destruct (Hone mock_credentials_usable) as [req Hr].
    exists req. split; [exact Hr|].
    destruct (Hreq req) as (_ & Hu & _).
    + rewrite Hr. now left.
    + rewrite Hu. reflexivity.
Defined.

(** X2.  [decrease_order] refuses, before any effect, a call with both of
    [reduce_by] and [reduce_to] or with none; with exactly one it posts to
    the decrease path of the order a body that holds just that field. *)
Theorem decrease_order_requires_one_amount
  (P : Platform) (C : Credentials) (order_id : string)
  (reduce_by reduce_to : PyVal) (s : State) :
  let r := decrease_order P C order_id reduce_by reduce_to s in
  (is_not_None reduce_by = is_not_None reduce_to ->
     outcome r =
       Raise (ValueError "Exactly one of reduce_by or reduce_to must be provided.") /\
     emitted r = [] /\ final r = s) /\
  (is_not_None reduce_by <> is_not_None reduce_to ->
     (usable C -> exists req, http_requests (emitted r) = [req]) /\
     forall req, In req (http_requests (emitted r)) ->
       verb req = "POST" /\
       url req = host C +++ portfolio_url +++ "/orders/" +++ order_id +++ "/decrease" /\
       json_body req =
         Some (VDict (if is_not_None reduce_by
                      then [("reduce_by", reduce_by)]
                      else [("reduce_to", reduce_to)]))).
Proof.
  cbn zeta. unfold decrease_order. split.
  - intros E.
    destruct (is_not_None reduce_by), (is_not_None reduce_to);
      try discriminate E; cbn; auto.
  - intros E.
    assert ((negb (is_not_None reduce_by) && negb (is_not_None reduce_to)
             || is_not_None reduce_by && is_not_None reduce_to) = false) as G.
    { destruct (is_not_None reduce_by), (is_not_None reduce_to);
        try reflexivity; contradiction E; reflexivity. }
    rewrite G. split.
    + intros Hkey. apply post_sends_one. exact Hkey.
    + intros req Hin. apply post_sends in Hin as (Hv & Hu & _ & Hb).
      split; [exact Hv|]. split; [exact Hu|].
      rewrite Hb. unfold drop_None. cbn [filter snd].
      destruct (is_not_None reduce_by), (is_not_None reduce_to);
        try reflexivity; contradiction E; reflexivity.
Qed.

(** Reducing an order to two contracts. *)
Lemma decrease_order_requires_one_amount_witness :
  let P := mock_platform 0 (replies 200 (VDict [])) in
  let r := decrease_order P mock_credentials "o-1" VNone (VInt 2) mock_state in
  map json_body (http_requests (emitted r)) = [Some (VDict [("reduce_to", VInt 2)])].
Proof.
  cbn zeta.
  destruct (proj2 (decrease_order_requires_one_amount
                     (mock_platform 0 (replies 200 (VDict []))) mock_credentials
                     "o-1" VNone (VInt 2) mock_state))
    as [Hone Hreq].
  - cbn. discriminate.
  - destruct (Hone mock_credentials_usable) as [req Hr].
    destruct (Hreq req) as (_ & _ & Hb).
    + rewrite Hr. now left.
    + rewrite Hr. cbn [map]. rewrite Hb. reflexivity.
Defined.

(** X3.  The body that [create_order] posts holds exactly the arguments that
    are not [None], each under its own name: the six required fields as
    given, an optional field only when it was supplied, never a [None]. *)
Theorem create_order_body_holds_supplied_fields
  (P : Platform) (C : Credentials)
  (action client_order_id count side ticker type buy_max_cost expiration_ts
   no_price post_only sell_position_floor yes_price : PyVal) (s : State) (req : Request) :
  In req (http_requests
            (emitted (create_order P C action client_order_id count side ticker type
                        buy_max_cost expiration_ts no_price post_only
                        sell_position_floor yes_price s))) ->
  verb req = "POST" /\
  url req = host C +++ portfolio_url +++ "/orders" /\
  params req = [] /\
  exists body,
    json_body req = Some (VDict body) /\
    forall k v,
      dict_get body k = Some v <->
      (In (k, v)
         [ ("action", action); ("client_order_id", client_order_id);
           ("count", count); ("side", side); ("ticker", ticker); ("type", type);
           ("buy_max_cost", buy_max_cost); ("expiration_ts", expiration_ts);
           ("no_price", no_price); ("post_only", post_only);
           ("sell_position_floor", sell_position_floor); ("yes_price", yes_price) ] /\
       v <> VNone).
Proof.
  unfold create_order. intros Hin.
  apply post_sends in Hin as (Hv & Hu & Hp & Hb).
  split; [exact Hv|]. split; [exact Hu|]. split; [exact Hp|].
  eexists. split; [exact Hb|].
  intros k v. apply dict_get_drop_None. apply distinct_NoDup. reflexivity.
Qed.

(** A limit order with a Yes price and a time limit. *)
Lemma create_order_body_holds_supplied_fields_witness :
  let P := mock_platform 0 (replies 201 (VDict [])) in
  let r := create_order P mock_credentials (VStr "buy") (VStr "c-1") (VInt 3)
             (VStr "yes") (VStr "T") (VStr "limit") VNone (VInt 1730003600) VNone
             VNone VNone (VInt 61) mock_state in
  exists req body,
    http_requests (emitted r) = [req] /\
    json_body req = Some (VDict body) /\
    dict_keys body = ["action"; "client_order_id"; "count"; "side"; "ticker";
                      "type"; "expiration_ts"; "yes_price"].
Proof.
  cbn zeta.
  remember (http_requests (emitted (create_order
              (mock_platform 0 (replies 201 (VDict []))) mock_credentials
              (VStr "buy") (VStr "c-1") (VInt 3) (VStr "yes") (VStr "T")
              (VStr "limit") VNone (VInt 1730003600) VNone VNone VNone (VInt 61)
              mock_state))) as l eqn:El.
  assert (exists req, l = [req] /\
            json_body req =
              Some (VDict [ ("action", VStr "buy"); ("client_order_id", VStr "c-1");
                            ("count", VInt 3); ("side", VStr "yes");
                            ("ticker", VStr "T"); ("type", VStr "limit");
                            ("expiration_ts", VInt 1730003600);
                            ("yes_price", VInt 61) ]))
    as (req & Hl & Hbody)
    by (subst l; vm_compute; eexists; split; reflexivity).
  pose proof (create_order_body_holds_supplied_fields
                (mock_platform 0 (replies 201 (VDict []))) mock_credentials
                (VStr "buy") (VStr "c-1") (VInt 3) (VStr "yes") (VStr "T")
                (VStr "limit") VNone (VInt 1730003600) VNone VNone VNone (VInt 61)
                mock_state req) as H.
  rewrite <- El, Hl in H.
  destruct (H (or_introl eq_refl)) as (_ & _ & _ & body & Hb & _).
  exists req, body. split; [exact Hl|]. split; [exact Hb|].
  rewrite Hbody in Hb. injection Hb as <-. reflexivity.
Defined.

(* ================================================================== *)
(** * Further properties: pacing, transport failures *)
(* ================================================================== *)

(** X4.  [rate_limit] sleeps exactly when its clock reading is less than 100 ms
    after [last_api_call], and then for the whole 100 ms, whatever part of
    the interval has already passed; otherwise it does not wait.  Either
    way it emits nothing else and leaves [message_id] alone. *)
Theorem rate_limit_sleeps_only_when_early (P : Platform) (s : State) :
  let now := now_us s + lag P (ticks s) in
  let r := rate_limit P s in
  (now - last_api_call s < 100000 ->
     emitted r = [EvSleep 100000] /\
     last_api_call (final r) =
       now + 100000 + lag P (S (ticks s)) + lag P (S (S (ticks s)))) /\
  (100000 <= now - last_api_call s ->
     emitted r = [] /\
     last_api_call (final r) = now + lag P (S (ticks s))) /\
  message_id (final r) = message_id s.
Proof.
  cbn zeta.
  unfold rate_limit, datetime_now, time_sleep, elapse, read, emit,
    set_last_api_call, ret, bind.
  cbn [outcome final emitted last_api_call message_id now_us ticks].
  change (1000 * THRESHOLD_IN_MILLISECONDS) with 100000.
  change (THRESHOLD_IN_MILLISECONDS * 1000) with 100000.
  replace (now_us s + 0 + lag P (ticks s)) with (now_us s + lag P (ticks s)) by lia.
  destruct (now_us s + lag P (ticks s) - last_api_call s <? 100000) eqn:E;
    cbn [outcome final emitted last_api_call message_id now_us ticks app].
  - apply Z.ltb_lt in E. repeat split; try lia.
  - apply Z.ltb_ge in E. repeat split; try lia.
Qed.

(** A call 40 ms after the previous one waits 100 ms, not 60. *)
Lemma rate_limit_sleeps_only_when_early_witness :
  let P := mock_platform 0 (replies 200 (VDict [])) in
  let s := mkState an_instant 1 (an_instant + 40000) 0 in
  emitted (rate_limit P s) = [EvSleep 100000] /\
  last_api_call (final (rate_limit P s)) = an_instant + 140000.
Proof.
  cbn zeta.
  destruct (proj1 (rate_limit_sleeps_only_when_early
                     (mock_platform 0 (replies 200 (VDict [])))
                     (mkState an_instant 1 (an_instant + 40000) 0))) as [H1 H2].
  - cbn. lia.
  - split; [exact H1|]. rewrite H2. reflexivity.
Defined.

(** X5.  A failure of the transport (no connection, time-out) reaches the caller
    as it is, after the one request the call made: the client neither
    retries nor wraps it. *)
Theorem transport_failure_propagates
  (P : Platform) (C : Credentials) (c : RestCall) (s : State) (e : PyExn) :
  usable C ->
  (forall i req, transport P i req = Raise e) ->
  outcome (rest_call P C c s) = Raise e /\
  exists req, http_requests (emitted (rest_call P C c s)) = [req].
Proof.
  intros Hkey Hnet.
  destruct (rest_call_exchange P C c) as (method & path & build & -> & _).
  pose proof (exchange_requests P C method path build s) as Hreq.
  cbn zeta in Hreq.
  rewrite exchange_anatomy in *. cbn zeta in *.
  destruct (request_headers_usable P C method path (final (rate_limit P s)) Hkey)
    as (hs & Hhs).
  rewrite Hhs in *. cbn [outcome].
  split; [|eauto].
  pose proof (requests_send_run P (build hs)
                (final (request_headers P C method path (final (rate_limit P s)))))
    as (Ho & _).
  cbn zeta in Ho. rewrite Ho, Hnet. reflexivity.
Qed.

Lemma transport_failure_propagates_witness :
  let P := mock_platform 0 (fun _ => Raise ConnectionError) in
  outcome (rest_call P mock_credentials (CallDelete "/trade-api/v2/portfolio/orders/o-1" [])
             mock_state) = Raise ConnectionError.
Proof.
  cbn zeta.
  refine (proj1 (transport_failure_propagates
                   (mock_platform 0 (fun _ => Raise ConnectionError)) mock_credentials
                   _ mock_state ConnectionError mock_credentials_usable _)).
  intros i req. reflexivity.
Defined.

(* ================================================================== *)
(** * Further properties: splitting and joining *)
(* ================================================================== *)

Lemma occurs_app (c : ascii) (a b : string) :
  occurs c (a +++ b) = occurs c a || occurs c b.
Proof.
  induction a as [|x a IH]; cbn; [reflexivity|].
  rewrite IH. now rewrite orb_assoc.
Qed.

Lemma str_split_cons (c a : ascii) (rest : string) :
  str_split c (String a rest) =
  if Ascii.eqb a c then EmptyString :: str_split c rest
  else match str_split c rest with
       | [] => [String a EmptyString]
       | p :: ps => String a p :: ps
       end.
Proof. reflexivity. Qed.

Lemma str_split_join (c : ascii) (s : string) :
  join (String c EmptyString) (str_split c s) = s /\
  Forall (fun part => occurs c part = false) (str_split c s) /\
  (occurs c s = false -> str_split c s = [s]).
Proof.
  induction s as [|a rest (IH1 & IH2 & IH3)].
  - cbn. repeat split; auto.
  - rewrite str_split_cons. cbn [occurs].
    pose proof (str_split_nonempty c rest) as Hne.
    destruct (Ascii.eqb_spec a c) as [->|Hac].
    + split; [|split].
      * destruct (str_split c rest) as [|p ps]; [contradiction|].
        change (join (String c "") ("" :: p :: ps))
          with ("" +++ String c "" +++ join (String c "") (p :: ps)).
        rewrite IH1. reflexivity.
      * constructor; [reflexivity|exact IH2].
      * discriminate.
    + destruct (str_split c rest) as [|p ps] eqn:Es; [contradiction|].
      split; [|split].
      * destruct ps as [|q ps].
        -- cbn in *. now rewrite IH1.
        -- change (join (String c "") (String a p :: q :: ps))
             with (String a p +++ String c "" +++ join (String c "") (q :: ps)).
           change (join (String c "") (p :: q :: ps))
             with (p +++ String c "" +++ join (String c "") (q :: ps)) in IH1.
           rewrite <- IH1. reflexivity.
      * inversion IH2 as [|? ? Hp Hps]; subst.
        constructor; [|exact Hps]. cbn [occurs].
        destruct (Ascii.eqb_spec a c); [contradiction|exact Hp].
      * destruct (Ascii.eqb_spec a c); [contradiction|]. cbn [orb].
        intros Ho. specialize (IH3 Ho). now injection IH3 as -> ->.
Qed.

Lemma str_split_at_separator (c : ascii) (a b : string) :
  occurs c a = false ->
  str_split c (a +++ String c b) = a :: str_split c b.
Proof.
  induction a as [|x a IH]; cbn [append occurs]; intros Ho.
  - rewrite str_split_cons. now rewrite Ascii.eqb_refl.
  - rewrite str_split_cons.
    destruct (Ascii.eqb_spec x c) as [->|Hx]; [discriminate|].
    cbn [orb] in Ho. now rewrite (IH Ho).
Qed.

(** X7.  Splitting at a character and joining with it gives the string back,
    and no part contains the character; joining parts that do not contain
    the character and splitting gives the parts back, so a string has one
    list of parts only. *)
Theorem split_then_join (c : ascii) (s : string) :
  join (String c EmptyString) (str_split c s) = s /\
  Forall (fun part => occurs c part = false) (str_split c s) /\
  (forall parts, parts <> [] ->
     Forall (fun part => occurs c part = false) parts ->
     str_split c (join (String c EmptyString) parts) = parts).
Proof.
  destruct (str_split_join c s) as (Hjoin & Hparts & _).
  split; [exact Hjoin|]. split; [exact Hparts|].
  induction parts as [|x parts IH]; [congruence|]. intros _ Hall.
  inversion Hall as [|? ? Hx Hrest]; subst.
  destruct parts as [|y parts].
  - cbn [join]. exact (proj2 (proj2 (str_split_join c x)) Hx).
  - change (join (String c "") (x :: y :: parts))
      with (x +++ String c (join (String c "") (y :: parts))).
    rewrite (str_split_at_separator c x _ Hx).
    rewrite IH; [reflexivity|discriminate|exact Hrest].
Qed.

Lemma append_assoc (a b c : string) : (a +++ b) +++ c = a +++ b +++ c.
Proof. induction a as [|x a IH]; cbn; [reflexivity|now rewrite IH]. Qed.

Lemma join_removelast (sep : string) (l : list string) :
  (1 < List.length l)%nat ->
  join sep l = join sep (removelast l) +++ sep +++ last l EmptyString.
Proof.
  induction l as [|x l IH]; cbn [List.length]; [lia|].
  intros Hlen.
  destruct l as [|y l]; [cbn in Hlen; lia|].
  destruct l as [|z l].
  - reflexivity.
  - change (join sep (x :: y :: z :: l)) with (x +++ sep +++ join sep (y :: z :: l)).
    rewrite IH by (cbn; lia).
    change (removelast (x :: y :: z :: l)) with (x :: removelast (y :: z :: l)).
    change (last (x :: y :: z :: l) "") with (last (y :: z :: l) "").
    assert (removelast (y :: z :: l) <> []) as Hne.
    { change (removelast (y :: z :: l)) with (y :: removelast (z :: l)).
      discriminate. }
    destruct (removelast (y :: z :: l)) as [|u r]; [contradiction|].
    change (join sep (x :: u :: r)) with (x +++ sep +++ join sep (u :: r)).
    now rewrite !append_assoc.
Qed.

(** X8.  The series ticker that [plot_market_candlesticks] derives is the
    ticker itself when it has no dash; otherwise the ticker is the series
    ticker, a dash and a last part without dash. *)
Theorem series_ticker_drops_last_part (ticker : string) :
  (occurs "-"%char ticker = false -> series_ticker_of ticker = ticker) /\
  (occurs "-"%char ticker = true ->
     exists last_part,
       ticker = series_ticker_of ticker +++ "-" +++ last_part /\
       occurs "-"%char last_part = false).
Proof.
  unfold series_ticker_of. cbn zeta.
  destruct (str_split_join "-"%char ticker) as (Hjoin & Hparts & Hsingle).
  split.
  - intros Ho. rewrite (Hsingle Ho). reflexivity.
  - intros Ho.
    destruct (1 <? List.length (str_split "-"%char ticker))%nat eqn:El.
    + apply Nat.ltb_lt in El.
      exists (last (str_split "-"%char ticker) EmptyString). split.
      * rewrite <- join_removelast by exact El. now rewrite Hjoin.
      * rewrite Forall_forall in Hparts. apply Hparts.
        destruct (exists_last (str_split_nonempty "-"%char ticker))
          as (l' & x & Hx).
        rewrite Hx, last_last. apply in_or_app. right. now left.
    + apply Nat.ltb_ge in El. exfalso.
      pose proof (str_split_nonempty "-"%char ticker) as Hne.
      destruct (str_split "-"%char ticker) as [|p [|q ps]] eqn:Es;
        [contradiction| |cbn in El; lia].
      cbn in Hjoin. subst p.
      inversion Hparts as [|? ? Hp _]; subst. congruence.
Qed.

Lemma series_ticker_drops_last_part_witness :
  series_ticker_of "KXHIGHMIA-25JUL07-B85.5" = "KXHIGHMIA-25JUL07" /\
  exists last_part,
    "KXHIGHMIA-25JUL07-B85.5" =
      series_ticker_of "KXHIGHMIA-25JUL07-B85.5" +++ "-" +++ last_part /\
    occurs "-"%char last_part = false.
Proof.
  split; [reflexivity|].
  exact (proj2 (series_ticker_drops_last_part "KXHIGHMIA-25JUL07-B85.5") eq_refl).
Defined.

Lemma strip_query_app (a b : string) :
  occurs question_mark a = false ->
  strip_query (a +++ String question_mark b) = a.
Proof.
  unfold strip_query.
  induction a as [|x a IH]; cbn [occurs String.append]; intros Ho.
  - rewrite str_split_cons. rewrite Ascii.eqb_refl. reflexivity.
  - apply orb_false_iff in Ho as [Hx Ha].
    rewrite str_split_cons, Hx. specialize (IH Ha).
    pose proof (str_split_nonempty question_mark (a +++ String question_mark b)) as Hne.
    destruct (str_split question_mark (a +++ String question_mark b)) as [|p ps];
      [contradiction|].
    cbn in *. now rewrite IH.
Qed.

Lemma exchange_signed (P : Platform) (C : Credentials)
  (method path : string) (build : Headers -> Request) (s : State) :
  signed_messages (emitted (exchange P C method path build s)) =
  match private_key C with
  | RSAPrivateKey _ =>
      [encode_utf8 (str (stamp P (final (rate_limit P s))) +++ method +++
                    strip_query path)]
  | NotAKey => []
  end.
Proof.
  rewrite exchange_anatomy. cbn zeta.
  destruct (rate_limit_run P s) as (t1 & n & evs & Hrl & _ & Hsg & _).
  rewrite Hrl. cbn [final emitted].
  set (s1 := mkState t1 (message_id s) t1 n).
  rewrite request_headers_unfold. cbn zeta.
  pose proof (sign_pss_text_signs P C
                (str (stamp P s1) +++ method +++ strip_query path)
                (after_stamp P s1)) as Hm.
  destruct (outcome (sign_pss_text P C _ (after_stamp P s1))) as [sig|e];
    cbn [outcome final emitted].
  - pose proof (requests_send_run P
                  (build [("Content-Type", "application/json");
                          ("KALSHI-ACCESS-KEY", key_id C);
                          ("KALSHI-ACCESS-SIGNATURE", sig);
                          ("KALSHI-ACCESS-TIMESTAMP", str (stamp P s1))])
                  (final (sign_pss_text P C
                            (str (stamp P s1) +++ method +++ strip_query path)
                            (after_stamp P s1)))) as (_ & He & _).
    cbn zeta in He.
    rewrite !signed_messages_app, Hsg, Hm, He.
    destruct (private_key C); reflexivity.
  - rewrite signed_messages_app, Hsg, Hm. destruct (private_key C); reflexivity.
Qed.

(** X9.  [get_market_candlesticks] writes its three parameters into the URL
    instead of passing them as query parameters; the signature covers the
    path up to [/candlesticks] only, so the request is signed like any
    other GET.  This holds for tickers without a question mark. *)
Theorem get_market_candlesticks_signs_bare_path
  (P : Platform) (C : Credentials) (series_ticker ticker : string)
  (start_ts end_ts period_interval : Z) (s : State) :
  occurs question_mark series_ticker = false ->
  occurs question_mark ticker = false ->
  let bare := "/trade-api/v2/series/" +++ series_ticker +++ "/markets/" +++ ticker
              +++ "/candlesticks" in
  let r := get_market_candlesticks P C series_ticker ticker start_ts end_ts
             period_interval s in
  (forall req, In req (http_requests (emitted r)) ->
     params req = [] /\
     url req = host C +++ bare +++ "?start_ts=" +++ str start_ts +++ "&end_ts=" +++
               str end_ts +++ "&period_interval=" +++ str period_interval) /\
  (forall message, In message (signed_messages (emitted r)) ->
     message = encode_utf8 (str (stamp P (final (rate_limit P s))) +++ "GET" +++ bare)).
Proof.
  intros Hs Ht. cbn zeta. unfold get_market_candlesticks.
  set (query := "start_ts=" +++ str start_ts +++ "&end_ts=" +++ str end_ts
                +++ "&period_interval=" +++ str period_interval).
  set (bare := "/trade-api/v2/series/" +++ series_ticker +++ "/markets/" +++ ticker
               +++ "/candlesticks").
  assert ("/trade-api/v2/series/" +++ series_ticker +++ "/markets/" +++ ticker
          +++ "/candlesticks?start_ts=" +++ str start_ts +++ "&end_ts=" +++
          str end_ts +++ "&period_interval=" +++ str period_interval
          = bare +++ String question_mark query) as Epath.
  { unfold bare, query.
    change ("/candlesticks?start_ts=" +++ str start_ts +++ "&end_ts=" +++
            str end_ts +++ "&period_interval=" +++ str period_interval)
      with ("/candlesticks" +++ String question_mark
              ("start_ts=" +++ str start_ts +++ "&end_ts=" +++ str end_ts +++
               "&period_interval=" +++ str period_interval)).
    now rewrite !append_assoc. }
  rewrite Epath.
  assert (occurs question_mark bare = false) as Hbare.
  { unfold bare. rewrite !occurs_app, Hs, Ht. reflexivity. }
  split.
  - intros req Hin. apply get_sends in Hin as (_ & Hu & Hp & _).
    split; [exact Hp|]. rewrite Hu.
    unfold query.
    change (String question_mark
              ("start_ts=" +++ str start_ts +++ "&end_ts=" +++ str end_ts +++
               "&period_interval=" +++ str period_interval))
      with ("?start_ts=" +++ str start_ts +++ "&end_ts=" +++ str end_ts +++
            "&period_interval=" +++ str period_interval).
    reflexivity.
  - intros message Hin.
    change (get P C (bare +++ String question_mark query) [])
      with (exchange P C "GET" (bare +++ String question_mark query)
              (fun hs => mkRequest "GET" (host C +++ bare +++ String question_mark query)
                           hs [] None)) in Hin.
    rewrite exchange_signed in Hin.
    rewrite (strip_query_app bare query Hbare) in Hin.
    destruct (private_key C); [|contradiction].
    destruct Hin as [<-|[]]. reflexivity.
Qed.

Lemma get_market_candlesticks_signs_bare_path_witness :
  let P := mock_platform 0 (replies 200 (VDict [])) in
  let r := get_market_candlesticks P mock_credentials "KXNBAGAME" "KXNBAGAME-25NOV01-BOS"
             1729827200 1729989200 1 mock_state in
  signed_messages (emitted r) =
  [encode_utf8 "1730000000100GET/trade-api/v2/series/KXNBAGAME/markets/KXNBAGAME-25NOV01-BOS/candlesticks"].
Proof.
  cbn zeta.
  remember (signed_messages (emitted (get_market_candlesticks
              (mock_platform 0 (replies 200 (VDict []))) mock_credentials
              "KXNBAGAME" "KXNBAGAME-25NOV01-BOS" 1729827200 1729989200 1 mock_state)))
    as l eqn:El.
  assert (exists m, l = [m]) as [m Hm] by (subst l; vm_compute; eexists; reflexivity).
  rewrite Hm. f_equal.
  rewrite (proj2 (get_market_candlesticks_signs_bare_path
                    (mock_platform 0 (replies 200 (VDict []))) mock_credentials
                    "KXNBAGAME" "KXNBAGAME-25NOV01-BOS" 1729827200 1729989200 1
                    mock_state eq_refl eq_refl) m).
  - vm_compute. reflexivity.
  - rewrite <- El, Hm. now left.
Defined.

(* ================================================================== *)
(** * Further properties: total exposure *)
(* ================================================================== *)

Lemma sum_abs_exposure_exposed (positions : list PyVal) (acc total : Z) :
  sum_abs_exposure acc positions = Ok total ->
  acc <= total /\
  exists kept,
    exposed positions = Ok kept /\
    sum_abs_exposure acc kept = Ok total /\
    (total = acc <-> kept = []).
Proof.
  revert acc. induction positions as [|p rest IH]; intros acc; cbn [sum_abs_exposure exposed].
  - intros [= <-]. split; [lia|]. exists []. repeat split; auto.
  - destruct (py_get p "market_exposure" (VInt 0)) as [x|e] eqn:Eg; [|discriminate].
    destruct (py_abs x) as [a|e] eqn:Ea; [|discriminate].
    intros H. destruct (IH _ H) as (Hle & kept & Hk & Hs & Hz).
    rewrite Hk.
    assert (0 <= a /\ (py_ne_zero x = false -> a = 0) /\
            (py_ne_zero x = true -> 0 < a)) as (Ha0 & Hazero & Hapos).
    { destruct x; try discriminate Ea; cbn in Ea; injection Ea as <-; cbn.
      - destruct b; repeat split; try lia; discriminate.
      - destruct (Z.eqb_spec z 0); cbn; repeat split; try lia; discriminate. }
    split; [lia|].
    destruct (py_ne_zero x) eqn:En.
    + exists (p :: kept). split; [reflexivity|]. split.
      * cbn [sum_abs_exposure]. rewrite Eg, Ea. exact Hs.
      * specialize (Hapos eq_refl). split; [lia|discriminate].
    + exists kept. split; [reflexivity|].
      rewrite (Hazero eq_refl) in *. rewrite Z.add_0_r in *. auto.
Qed.

(** X10.  When [get_total_market_exposure] returns, the total is not negative,
    and it is the total over the positions that [get_exposed_positions]
    keeps for the same response: the positions it drops add nothing, and
    the total is zero exactly when no position is kept. *)
Theorem total_exposure_is_borne_by_exposed_positions
  (P : Platform) (C : Credentials) (s : State) (total : Z) :
  outcome (get_total_market_exposure P C s) = Ok total ->
  0 <= total /\
  exists cursor kept,
    outcome (get_exposed_positions P C VNone VNone VNone VNone VNone VNone s) =
      Ok (VDict [("cursor", cursor); ("market_positions", VList kept)]) /\
    sum_abs_exposure 0 kept = Ok total /\
    (total = 0 <-> kept = []).
Proof.
  unfold get_total_market_exposure, get_exposed_positions.
  rewrite !bind_unfold.
  destruct (outcome (get_positions P C VNone VNone VNone VNone VNone VNone s))
    as [data|e]; [|discriminate].
  cbn [outcome final emitted].
  rewrite !bind_unfold.
  destruct (py_get data "market_positions" (VList [])) as [mp|e] eqn:Emp;
    [|discriminate].
  cbn [lift ret outcome final emitted].
  rewrite !bind_unfold.
  destruct (py_iter mp) as [positions|e]; [|discriminate].
  cbn [lift ret outcome final emitted].
  destruct (sum_abs_exposure 0 positions) as [t|e] eqn:Es; [|discriminate].
  cbn [lift ret outcome]. intros [= ->].
  destruct (sum_abs_exposure_exposed positions 0 total Es) as (Hle & kept & Hk & Hs & Hz).
  split; [exact Hle|].
  rewrite bind_unfold, Hk. cbn [lift ret outcome final emitted].
  rewrite bind_unfold.
  destruct data as [| | | | |d]; try discriminate Emp.
  cbn [py_get lift ret outcome].
  do 2 eexists. split; [reflexivity|]. split; [exact Hs|exact Hz].
Qed.

(** Three positions of which one is flat: the total is the sum of the two
    absolute exposures. *)
Lemma total_exposure_is_borne_by_exposed_positions_witness :
  let doc :=
    [("market_positions",
      VList [ position "A" (Some (VInt 250)); position "B" (Some (VInt 0));
              position "D" (Some (VInt (-40))) ])] in
  let P := mock_platform 0 (replies 200 (VDict doc)) in
  outcome (get_total_market_exposure P mock_credentials mock_state) = Ok 290 /\
  0 <= 290.
Proof.
  cbn zeta.
  assert (outcome (get_total_market_exposure
                     (mock_platform 0 (replies 200 (VDict
                        [("market_positions",
                          VList [ position "A" (Some (VInt 250));
                                  position "B" (Some (VInt 0));
                                  position "D" (Some (VInt (-40))) ])])))
                     mock_credentials mock_state) = Ok 290) as E
    by (vm_compute; reflexivity).
  split; [exact E|].
  exact (proj1 (total_exposure_is_borne_by_exposed_positions _ _ _ _ E)).
Defined.

(* ================================================================== *)
(** * Further properties: filter_markets *)
(* ================================================================== *)

Lemma py_eqb_refl (a : PyVal) : hashable a = true -> py_eqb a a = true.
Proof.
  destruct a as [|x|z|t|l|d]; cbn; try discriminate; intros _.
  - reflexivity.
  - now destruct x.
  - apply Z.eqb_refl.
  - apply String.eqb_refl.
Qed.

Lemma py_eqb_sym (a b : PyVal) :
  hashable a = true -> hashable b = true -> py_eqb a b = py_eqb b a.
Proof.
  destruct a as [|x|z|t|l|d], b as [|x'|z'|t'|l'|d']; cbn;
    try discriminate; intros _ _; try reflexivity.
  - now destruct x, x'.
  - destruct x; apply Z.eqb_sym.
  - destruct x'; apply Z.eqb_sym.
  - apply Z.eqb_sym.
  - apply String.eqb_sym.
Qed.

Lemma py_eqb_trans (a b c : PyVal) :
  hashable a = true -> hashable b = true -> hashable c = true ->
  py_eqb a b = true -> py_eqb b c = true -> py_eqb a c = true.
Proof.
  destruct a as [|x|z|t|l|d], b as [|x'|z'|t'|l'|d'], c as [|x''|z''|t''|l''|d''];
    cbn [hashable py_eqb]; try discriminate; intros _ _ _; auto;
    repeat match goal with
    | x : bool |- _ => destruct x
    end; cbn [Bool.eqb];
    rewrite ?Z.eqb_eq, ?String.eqb_eq; try discriminate; try congruence; try lia.
Qed.

(** Equal keys find the same entry. *)
Lemma keyed_get_equal_keys (d : KeyedDict) (k k' : PyVal) :
  forallb hashable (map fst d) = true ->
  hashable k = true -> hashable k' = true ->
  py_eqb k k' = true -> keyed_get d k = keyed_get d k'.
Proof.
  intros Hd Hk Hk' E.
  induction d as [|[k0 v0] d IH]; cbn [keyed_get]; [reflexivity|].
  cbn in Hd. apply andb_true_iff in Hd as [H0 Hd].
  destruct (py_eqb k0 k) eqn:E0.
  - now rewrite (py_eqb_trans k0 k k' H0 Hk Hk' E0 E).
  - destruct (py_eqb k0 k') eqn:E0'; [|auto].
    rewrite (py_eqb_sym k k' Hk Hk') in E.
    now rewrite (py_eqb_trans k0 k' k H0 Hk' Hk E0' E) in E0.
Qed.

(** Reading after writing. *)
Lemma keyed_get_set (d : KeyedDict) (k v k' : PyVal) :
  forallb hashable (map fst d) = true ->
  hashable k = true -> hashable k' = true ->
  keyed_get (keyed_set d k v) k' =
  if py_eqb k k' then Some v else keyed_get d k'.
Proof.
  intros Hd Hk Hk'.
  induction d as [|[k0 v0] d IH]; cbn [keyed_get keyed_set]; [reflexivity|].
  cbn in Hd. apply andb_true_iff in Hd as [H0 Hd]. specialize (IH Hd).
  destruct (py_eqb k0 k) eqn:E0; cbn [keyed_get].
  - destruct (py_eqb k0 k') eqn:E0'.
    + rewrite (py_eqb_sym k0 k H0 Hk) in E0.
      now rewrite (py_eqb_trans k k0 k' Hk H0 Hk' E0 E0').
    + destruct (py_eqb k k') eqn:E; [|reflexivity].
      now rewrite (py_eqb_trans k0 k k' H0 Hk Hk' E0 E) in E0'.
  - destruct (py_eqb k0 k') eqn:E0'; [|exact IH].
    destruct (py_eqb k k') eqn:E; [|reflexivity].
    rewrite (py_eqb_sym k k' Hk Hk') in E.
    now rewrite (py_eqb_trans k0 k' k H0 Hk' Hk E0' E) in E0.
Qed.

Lemma keyed_set_keys (d : KeyedDict) (k v : PyVal) :
  forallb hashable (map fst d) = true -> hashable k = true ->
  forallb hashable (map fst (keyed_set d k v)) = true.
Proof.
  intros Hd Hk.
  induction d as [|[k0 v0] d IH]; cbn; [now rewrite Hk|].
  cbn in Hd. apply andb_true_iff in Hd as [H0 Hd].
  destruct (py_eqb k0 k); cbn; rewrite H0; cbn; auto.
Qed.

Lemma py_get_field (key : string) (m : PyVal) :
  is_dict m = true -> py_get m key VNone = Ok (field_of key m).
Proof. destruct m; try discriminate. reflexivity. Qed.

Lemma matching_with_field (key : string) (value : PyVal) (markets : list PyVal) :
  forallb is_dict markets = true ->
  matching key value markets = Ok (with_field key value markets).
Proof.
  unfold with_field.
  induction markets as [|m rest IH]; cbn [forallb matching filter]; [reflexivity|].
  intros H. apply andb_true_iff in H as [Hm Hrest].
  rewrite (py_get_field key m Hm), (IH Hrest). reflexivity.
Qed.

Lemma filter_markets_unfold (d : Dict) (ms : list PyVal) (key : string) (value : PyVal) :
  markets_of d = VList ms ->
  filter_markets (VDict d) key value =
  if is_not_None value
  then match matching key value ms with
       | Raise e => Raise e
       | Ok filtered =>
           Ok [ (VStr "markets", VList filtered);
                (VStr "count", VInt (Z.of_nat (List.length filtered))) ]
       end
  else group_markets key ms [].
Proof.
  unfold filter_markets, markets_of, py_get. intros ->. reflexivity.
Qed.

(** X11.  With a value to look for, [filter_markets] keeps exactly the markets
    whose field equals the value, in the order of the document, and
    [count] is their number; a document without [markets] gives an empty
    selection. *)
Theorem filter_markets_keeps_matching
  (d : Dict) (ms : list PyVal) (key : string) (value : PyVal) :
  markets_of d = VList ms ->
  forallb is_dict ms = true ->
  value <> VNone ->
  exists kept,
    filter_markets (VDict d) key value =
      Ok [ (VStr "markets", VList kept);
           (VStr "count", VInt (Z.of_nat (List.length kept))) ] /\
    (forall m, In m kept <-> In m ms /\ py_eqb (field_of key m) value = true) /\
    kept = with_field key value ms /\
    (dict_get d "markets" = None -> kept = []).
Proof.
  intros Hd Hms Hv. exists (with_field key value ms).
  rewrite (filter_markets_unfold d ms key value Hd).
  assert (is_not_None value = true) as -> by (destruct value; cbn; congruence).
  rewrite (matching_with_field key value ms Hms).
  repeat split.
  - apply (proj1 (filter_In _ _ _) H).
  - apply (proj1 (filter_In _ _ _) H).
  - intros [H1 H2]. apply filter_In. now split.
  - intros Hnone. unfold markets_of in Hd. rewrite Hnone in Hd.
    assert (ms = []) as -> by congruence. reflexivity.
Qed.

Lemma filter_markets_keeps_matching_witness :
  exists kept,
    filter_markets
      (VDict [("markets",
               VList [VDict [("ticker", VStr "A"); ("status", VStr "open")];
                      VDict [("ticker", VStr "B"); ("status", VStr "closed")];
                      VDict [("ticker", VStr "C"); ("status", VStr "open")]])])
      "status" (VStr "open") =
      Ok [ (VStr "markets", VList kept);
           (VStr "count", VInt (Z.of_nat (List.length kept))) ] /\
    kept = [VDict [("ticker", VStr "A"); ("status", VStr "open")];
            VDict [("ticker", VStr "C"); ("status", VStr "open")]].
Proof.
  destruct (filter_markets_keeps_matching
              [("markets",
                VList [VDict [("ticker", VStr "A"); ("status", VStr "open")];
                       VDict [("ticker", VStr "B"); ("status", VStr "closed")];
                       VDict [("ticker", VStr "C"); ("status", VStr "open")]])]
              [VDict [("ticker", VStr "A"); ("status", VStr "open")];
               VDict [("ticker", VStr "B"); ("status", VStr "closed")];
               VDict [("ticker", VStr "C"); ("status", VStr "open")]]
              "status" (VStr "open") eq_refl eq_refl)
    as (kept & H & _ & K & _).
  - discriminate.
  - exists kept. split; [exact H|]. rewrite K. reflexivity.
Defined.

(** ** Grouping *)

Lemma grouped_set_new (g : KeyedDict) (k : PyVal) (l : list PyVal) :
  keyed_get g k = None ->
  grouped (keyed_set g k (VList l)) = (grouped g + List.length l)%nat.
Proof.
  induction g as [|[k0 v0] g IH]; cbn [keyed_get keyed_set grouped]; [lia|].
  destruct (py_eqb k0 k); [discriminate|]. intros H.
  cbn [grouped]. rewrite (IH H). destruct v0; lia.
Qed.

Lemma grouped_set_old (g : KeyedDict) (k : PyVal) (old l : list PyVal) :
  keyed_get g k = Some (VList old) ->
  (grouped (keyed_set g k (VList l)) + List.length old =
   grouped g + List.length l)%nat.
Proof.
  induction g as [|[k0 v0] g IH]; cbn [keyed_get keyed_set grouped]; [discriminate|].
  destruct (py_eqb k0 k).
  - intros H. assert (v0 = VList old) as -> by congruence. cbn [grouped]. lia.
  - intros H. cbn [grouped]. specialize (IH H). destruct v0; lia.
Qed.

Lemma with_field_cons (key : string) (k m : PyVal) (rest : list PyVal) :
  with_field key k (m :: rest) =
  if py_eqb (field_of key m) k then m :: with_field key k rest
  else with_field key k rest.
Proof. reflexivity. Qed.

Lemma group_markets_groups (key : string) (ms : list PyVal) :
  String.eqb key "ticker" = false ->
  forallb is_dict ms = true ->
  forallb (fun m => hashable (field_of key m)) ms = true ->
  forall acc : KeyedDict,
  forallb hashable (map fst acc) = true ->
  (forall k v, hashable k = true -> keyed_get acc k = Some v -> exists l, v = VList l) ->
  exists g,
    group_markets key ms acc = Ok g /\
    grouped g = (grouped acc + List.length ms)%nat /\
    forall k, hashable k = true ->
      keyed_get g k =
      match keyed_get acc k with
      | Some (VList group) => Some (VList (group ++ with_field key k ms))
      | Some v => Some v
      | None =>
          match with_field key k ms with
          | [] => None
          | group => Some (VList group)
          end
      end.
Proof.
  intros Hkey.
  induction ms as [|m rest IH]; intros Hms Hf acc Hacc Hlists.
  - exists acc. cbn [group_markets List.length with_field filter].
    split; [reflexivity|]. split; [lia|].
    intros k Hk. destruct (keyed_get acc k) as [v|] eqn:E; [|reflexivity].
    destruct (Hlists k v Hk E) as [l ->]. now rewrite app_nil_r.
  - cbn [forallb] in Hms, Hf.
    apply andb_true_iff in Hms as [Hm Hms].
    apply andb_true_iff in Hf as [Hfm Hf].
    cbn [group_markets]. rewrite (py_get_field key m Hm).
    set (f := field_of key m) in *. rewrite Hfm, Hkey. cbn [negb].
    assert (exists group0 acc',
              (match keyed_get
                       match keyed_get acc f with
                       | Some _ => acc
                       | None => keyed_set acc f (VList [])
                       end f with
               | Some (VList group) =>
                   group_markets key rest
                     (keyed_set
                        match keyed_get acc f with
                        | Some _ => acc
                        | None => keyed_set acc f (VList [])
                        end f (VList (group ++ [m])))
               | _ => Raise AttributeError
               end = group_markets key rest acc') /\
              forallb hashable (map fst acc') = true /\
              grouped acc' = S (grouped acc) /\
              keyed_get acc f =
                match group0 with [] => keyed_get acc f | _ => Some (VList group0) end /\
              (keyed_get acc f = None -> group0 = []) /\
              (forall group, keyed_get acc f = Some (VList group) -> group0 = group) /\
              forall k, hashable k = true ->
                keyed_get acc' k =
                if py_eqb f k then Some (VList (group0 ++ [m])) else keyed_get acc k)
      as (group0 & acc' & -> & Hacc' & Hsize & _ & Hnew & Hold & Hget).
    { destruct (keyed_get acc f) as [v|] eqn:E.
      - destruct (Hlists f v Hfm E) as [group ->].
        rewrite E.
        exists group, (keyed_set acc f (VList (group ++ [m]))).
        split; [reflexivity|].
        split; [now apply keyed_set_keys|].
        split.
        { pose proof (grouped_set_old acc f group (group ++ [m]) E) as G.
          rewrite length_app in G. cbn [List.length] in G. lia. }
        split; [now destruct group|].
        split; [discriminate|].
        split; [congruence|].
        intros k Hk. now apply keyed_get_set.
      - rewrite (keyed_get_set acc f (VList []) f Hacc Hfm Hfm).
        rewrite (py_eqb_refl f Hfm).
        exists [], (keyed_set (keyed_set acc f (VList [])) f (VList ([] ++ [m]))).
        split; [reflexivity|].
        split; [apply keyed_set_keys; [now apply keyed_set_keys|assumption]|].
        split.
        { assert (keyed_get (keyed_set acc f (VList [])) f = Some (VList [])) as E'.
          { rewrite (keyed_get_set acc f (VList []) f Hacc Hfm Hfm).
            now rewrite (py_eqb_refl f Hfm). }
          pose proof (grouped_set_old _ f [] ([] ++ [m]) E') as G.
          rewrite (grouped_set_new acc f [] E) in G.
          cbn [List.length app] in G |- *. lia. }
        split; [reflexivity|].
        split; [reflexivity|].
        split; [discriminate|].
        intros k Hk.
        rewrite (keyed_get_set _ f _ k
                   (keyed_set_keys acc f (VList []) Hacc Hfm) Hfm Hk).
        destruct (py_eqb f k) eqn:Efk; [reflexivity|].
        rewrite (keyed_get_set acc f (VList []) k Hacc Hfm Hk).
        now rewrite Efk. }
    destruct (IH Hms Hf acc' Hacc') as (g & Hg & Hgsize & Hglook).
    { intros k v Hk. rewrite (Hget k Hk).
      destruct (py_eqb f k); [intros H; eexists; symmetry; injection H as H; exact H|].
      apply Hlists, Hk. }
    exists g. split; [exact Hg|].
    split; [rewrite Hgsize, Hsize; cbn [List.length]; lia|].
    intros k Hk. rewrite (Hglook k Hk), (Hget k Hk), with_field_cons.
    fold f. destruct (py_eqb f k) eqn:Efk.
    + rewrite <- (keyed_get_equal_keys acc f k Hacc Hfm Hk Efk).
      destruct (keyed_get acc f) as [v|] eqn:E.
      * destruct (Hlists f v Hfm E) as [group ->].
        rewrite (Hold group eq_refl), <- app_assoc. reflexivity.
      * rewrite (Hnew eq_refl). reflexivity.
    + reflexivity.
Qed.

(** X12.  Without a value, and for a key other than [ticker], [filter_markets]
    groups the markets: the group found under a value is exactly the
    selection [filter_markets] makes for that value, a value that no
    market has is absent, and the groups hold every market once. *)
Theorem filter_markets_groups_by_value
  (d : Dict) (ms : list PyVal) (key : string) :
  markets_of d = VList ms ->
  key <> "ticker" ->
  forallb is_dict ms = true ->
  forallb (fun m => hashable (field_of key m)) ms = true ->
  exists g,
    filter_markets (VDict d) key VNone = Ok g /\
    grouped g = List.length ms /\
    forall value, hashable value = true ->
      keyed_get g value =
      match with_field key value ms with
      | [] => None
      | group => Some (VList group)
      end.
Proof.
  intros Hd Hkey Hms Hf.
  rewrite (filter_markets_unfold d ms key VNone Hd). cbn [is_not_None].
  apply String.eqb_neq in Hkey.
  destruct (group_markets_groups key ms Hkey Hms Hf [] eq_refl)
    as (g & Hg & Hsize & Hlook).
  { intros k v _ H. discriminate H. }
  exists g. split; [exact Hg|]. split; [exact Hsize|].
  intros value Hv. exact (Hlook value Hv).
Qed.

Lemma filter_markets_groups_by_value_witness :
  exists g,
    filter_markets
      (VDict [("markets",
               VList [VDict [("ticker", VStr "A"); ("status", VStr "open")];
                      VDict [("ticker", VStr "B"); ("status", VStr "closed")];
                      VDict [("ticker", VStr "C"); ("status", VStr "open")]])])
      "status" VNone = Ok g /\
    keyed_get g (VStr "open") =
      Some (VList [VDict [("ticker", VStr "A"); ("status", VStr "open")];
                   VDict [("ticker", VStr "C"); ("status", VStr "open")]]) /\
    keyed_get g (VStr "settled") = None.
Proof.
  destruct (filter_markets_groups_by_value
              [("markets",
                VList [VDict [("ticker", VStr "A"); ("status", VStr "open")];
                       VDict [("ticker", VStr "B"); ("status", VStr "closed")];
                       VDict [("ticker", VStr "C"); ("status", VStr "open")]])]
              [VDict [("ticker", VStr "A"); ("status", VStr "open")];
               VDict [("ticker", VStr "B"); ("status", VStr "closed")];
               VDict [("ticker", VStr "C"); ("status", VStr "open")]]
              "status" eq_refl)
    as (g & Hg & _ & Hlook).
  - discriminate.
  - reflexivity.
  - reflexivity.
  - exists g. split; [exact Hg|]. split.
    + rewrite (Hlook (VStr "open") eq_refl). reflexivity.
    + rewrite (Hlook (VStr "settled") eq_refl). reflexivity.
Defined.

(** ** The ticker map *)

Lemma find_app_last {A : Type} (p : A -> bool) (l : list A) (x : A) :
  find p (l ++ [x]) =
  match find p l with
  | Some y => Some y
  | None => if p x then Some x else None
  end.
Proof.
  induction l as [|a l IH]; cbn [app find]; [reflexivity|].
  destruct (p a); [reflexivity|exact IH].
Qed.

Lemma group_markets_ticker (ms : list PyVal) :
  forallb is_dict ms = true ->
  forallb (fun m => hashable (field_of "ticker" m)) ms = true ->
  forall acc : KeyedDict,
  forallb hashable (map fst acc) = true ->
  exists g,
    group_markets "ticker" ms acc = Ok g /\
    forall k, hashable k = true ->
      keyed_get g k =
      match last_with_field "ticker" k ms with
      | Some m => Some m
      | None => keyed_get acc k
      end.
Proof.
  unfold last_with_field.
  induction ms as [|m rest IH]; intros Hms Hf acc Hacc.
  - exists acc. split; reflexivity.
  - cbn [forallb] in Hms, Hf.
    apply andb_true_iff in Hms as [Hm Hms].
    apply andb_true_iff in Hf as [Hfm Hf].
    cbn [group_markets]. rewrite (py_get_field "ticker" m Hm), Hfm.
    cbn [negb]. rewrite String.eqb_refl.
    destruct (IH Hms Hf (keyed_set acc (field_of "ticker" m) m)
                (keyed_set_keys acc _ m Hacc Hfm)) as (g & Hg & Hlook).
    exists g. split; [exact Hg|].
    intros k Hk. rewrite (Hlook k Hk). cbn [rev]. rewrite find_app_last.
    destruct (find _ (rev rest)); [reflexivity|].
    rewrite (keyed_get_set acc _ m k Hacc Hfm Hk).
    now destruct (py_eqb (field_of "ticker" m) k).
Qed.

Lemma ticker_map_lookup (d : Dict) (ms : list PyVal) :
  markets_of d = VList ms ->
  forallb is_dict ms = true ->
  forallb (fun m => hashable (field_of "ticker" m)) ms = true ->
  exists g,
    filter_markets (VDict d) "ticker" VNone = Ok g /\
    forall ticker, hashable ticker = true ->
      keyed_get g ticker = last_with_field "ticker" ticker ms.
Proof.
  intros Hd Hms Hf.
  rewrite (filter_markets_unfold d ms "ticker" VNone Hd). cbn [is_not_None].
  destruct (group_markets_ticker ms Hms Hf [] eq_refl) as (g & Hg & Hlook).
  exists g. split; [exact Hg|].
  intros ticker Ht. rewrite (Hlook ticker Ht).
  now destruct (last_with_field "ticker" ticker ms).
Qed.

(** X13.  For the key [ticker], [filter_markets] maps each ticker to one market:
    the last market of the document that has this ticker, so an earlier
    market of the same ticker is lost; a ticker of no market is absent. *)
Theorem filter_markets_ticker_keeps_last (d : Dict) (ms : list PyVal) :
  markets_of d = VList ms ->
  forallb is_dict ms = true ->
  forallb (fun m => hashable (field_of "ticker" m)) ms = true ->
  exists g,
    filter_markets (VDict d) "ticker" VNone = Ok g /\
    (forall ticker, hashable ticker = true ->
       keyed_get g ticker = last_with_field "ticker" ticker ms) /\
    (forall before m after,
       ms = before ++ m :: after ->
       with_field "ticker" (field_of "ticker" m) after = [] ->
       keyed_get g (field_of "ticker" m) = Some m) /\
    (forall ticker, hashable ticker = true ->
       with_field "ticker" ticker ms = [] -> keyed_get g ticker = None).
Proof.
  intros Hd Hms Hf.
  destruct (ticker_map_lookup d ms Hd Hms Hf) as (g & Hg & Hlast).
  exists g. split; [exact Hg|]. split; [exact Hlast|].
  assert (forall k l, with_field "ticker" k l = [] ->
            forall tail, find (fun x => py_eqb (field_of "ticker" x) k)
                           (rev l ++ tail) =
                         find (fun x => py_eqb (field_of "ticker" x) k) tail) as Hskip.
  { unfold with_field. intros k. induction l as [|x l IHl]; intros Hl tail;
      [reflexivity|].
    cbn [filter] in Hl.
    destruct (py_eqb (field_of "ticker" x) k) eqn:E; [discriminate|].
    cbn [rev]. rewrite <- app_assoc. rewrite (IHl Hl). cbn [app find].
    now rewrite E. }
  split.
  - intros before m after -> Hafter.
    assert (hashable (field_of "ticker" m) = true) as Hm.
    { rewrite forallb_app in Hf. apply andb_true_iff in Hf as [_ Hf].
      cbn [forallb] in Hf. now apply andb_true_iff in Hf as [Hf _]. }
    rewrite (Hlast _ Hm). unfold last_with_field.
    rewrite rev_app_distr. cbn [rev]. rewrite <- app_assoc. cbn [app].
    rewrite (Hskip _ after Hafter). cbn [find].
    now rewrite (py_eqb_refl _ Hm).
  - intros ticker Ht Hnone. rewrite (Hlast ticker Ht). unfold last_with_field.
    rewrite <- (app_nil_r (rev ms)). now rewrite (Hskip ticker ms Hnone).
Qed.

Lemma filter_markets_ticker_keeps_last_witness :
  exists g,
    filter_markets
      (VDict [("markets",
               VList [VDict [("ticker", VStr "A"); ("status", VStr "open")];
                      VDict [("ticker", VStr "B"); ("status", VStr "closed")];
                      VDict [("ticker", VStr "A"); ("status", VStr "settled")]])])
      "ticker" VNone = Ok g /\
    keyed_get g (VStr "A") =
      Some (VDict [("ticker", VStr "A"); ("status", VStr "settled")]).
Proof.
  destruct (filter_markets_ticker_keeps_last
              [("markets",
                VList [VDict [("ticker", VStr "A"); ("status", VStr "open")];
                       VDict [("ticker", VStr "B"); ("status", VStr "closed")];
                       VDict [("ticker", VStr "A"); ("status", VStr "settled")]])]
              [VDict [("ticker", VStr "A"); ("status", VStr "open")];
               VDict [("ticker", VStr "B"); ("status", VStr "closed")];
               VDict [("ticker", VStr "A"); ("status", VStr "settled")]]
              eq_refl eq_refl eq_refl)
    as (g & Hg & Hlook & _ & _).
  exists g. split; [exact Hg|].
  rewrite (Hlook (VStr "A") eq_refl). reflexivity.
Defined.

(** ** Malformed entries *)

Lemma matching_outcome (key : string) (value : PyVal) (ms : list PyVal) :
  (exists kept, matching key value ms = Ok kept) \/
  matching key value ms = Raise AttributeError.
Proof.
  induction ms as [|m rest IH]; cbn [matching]; [left; eexists; reflexivity|].
  destruct m; cbn [py_get]; auto.
  destruct IH as [[kept ->]| ->]; [left; eexists; reflexivity|now right].
Qed.

Lemma matching_raises (key : string) (value m : PyVal) (ms : list PyVal) :
  In m ms -> is_dict m = false ->
  matching key value ms = Raise AttributeError.
Proof.
  intros Hin Hm.
  induction ms as [|m0 rest IH]; [contradiction|].
  cbn [matching]. destruct Hin as [->|Hin].
  - destruct m; cbn [py_get]; try reflexivity. discriminate.
  - rewrite (IH Hin). destruct m0; reflexivity.
Qed.

Lemma group_markets_raises (key : string) (m : PyVal) (ms : list PyVal) :
  In m ms ->
  is_dict m = false \/ hashable (field_of key m) = false ->
  forall acc, exists e,
    group_markets key ms acc = Raise e /\ (e = AttributeError \/ e = TypeError).
Proof.
  intros Hin Hm.
  induction ms as [|m0 rest IH]; [contradiction|]. intros acc.
  cbn [group_markets].
  destruct (is_dict m0) eqn:Hd0.
  - rewrite (py_get_field key m0 Hd0).
    destruct (hashable (field_of key m0)) eqn:Hh0; cbn [negb];
      [|exists TypeError; auto].
    assert (In m rest) as Hrest.
    { destruct Hin as [->|Hin]; [|exact Hin].
      destruct Hm as [Hm|Hm]; congruence. }
    destruct (String.eqb key "ticker"); [apply (IH Hrest)|].
    destruct (keyed_get _ (field_of key m0)) as [[| | | |group|]|];
      try (exists AttributeError; split; [reflexivity|auto]; fail).
    apply (IH Hrest).
  - destruct m0; try discriminate; cbn [py_get]; exists AttributeError; auto.
Qed.

(** X14.  A market that is not an object makes [filter_markets] raise in either
    mode, [AttributeError] when a value is looked for; a market whose
    field is a list or an object makes the grouping raise, while the
    selection by value accepts it. *)
Theorem filter_markets_rejects_malformed_markets
  (d : Dict) (ms : list PyVal) (key : string) (m : PyVal) :
  markets_of d = VList ms ->
  In m ms ->
  (is_dict m = false ->
     (forall value, value <> VNone ->
        filter_markets (VDict d) key value = Raise AttributeError) /\
     exists e, filter_markets (VDict d) key VNone = Raise e) /\
  (hashable (field_of key m) = false ->
     (exists e, filter_markets (VDict d) key VNone = Raise e) /\
     (forallb is_dict ms = true ->
        forall value, value <> VNone ->
        exists kept, filter_markets (VDict d) key value = Ok kept)).
Proof.
  intros Hd Hin. split; intros Hm; split.
  - intros value Hv. rewrite (filter_markets_unfold d ms key value Hd).
    assert (is_not_None value = true) as -> by (destruct value; cbn; congruence).
    now rewrite (matching_raises key value m ms Hin Hm).
  - rewrite (filter_markets_unfold d ms key VNone Hd). cbn [is_not_None].
    destruct (group_markets_raises key m ms Hin (or_introl Hm) []) as (e & -> & _).
    now exists e.
  - rewrite (filter_markets_unfold d ms key VNone Hd). cbn [is_not_None].
    destruct (group_markets_raises key m ms Hin (or_intror Hm) []) as (e & -> & _).
    now exists e.
  - intros Hms value Hv. rewrite (filter_markets_unfold d ms key value Hd).
    assert (is_not_None value = true) as -> by (destruct value; cbn; congruence).
    rewrite (matching_with_field key value ms Hms). eexists; reflexivity.
Qed.

Lemma filter_markets_rejects_malformed_markets_witness :
  filter_markets (VDict [("markets", VList [VStr "KXA"])]) "status" (VStr "open")
    = Raise AttributeError /\
  (exists e,
     filter_markets
       (VDict [("markets", VList [VDict [("tags", VList [VStr "nba"])]])])
       "tags" VNone = Raise e) /\
  (exists kept,
     filter_markets
       (VDict [("markets", VList [VDict [("tags", VList [VStr "nba"])]])])
       "tags" (VList [VStr "nba"]) = Ok kept).
Proof.
  split; [|split].
  - refine (proj1 (proj1 (filter_markets_rejects_malformed_markets
                            [("markets", VList [VStr "KXA"])] [VStr "KXA"]
                            "status" (VStr "KXA") eq_refl (or_introl eq_refl))
                     eq_refl) (VStr "open") _).
    discriminate.
  - exact (proj1 (proj2 (filter_markets_rejects_malformed_markets
                           [("markets", VList [VDict [("tags", VList [VStr "nba"])]])]
                           [VDict [("tags", VList [VStr "nba"])]]
                           "tags" (VDict [("tags", VList [VStr "nba"])])
                           eq_refl (or_introl eq_refl))
                    eq_refl)).
  - refine (proj2 (proj2 (filter_markets_rejects_malformed_markets
                            [("markets", VList [VDict [("tags", VList [VStr "nba"])]])]
                            [VDict [("tags", VList [VStr "nba"])]]
                            "tags" (VDict [("tags", VList [VStr "nba"])])
                            eq_refl (or_introl eq_refl))
                     eq_refl) eq_refl (VList [VStr "nba"]) _).
    discriminate.
Defined.

(* ================================================================== *)
(** * Further properties: get_markets_by_field, get_ticker_map *)
(* ================================================================== *)

Section MarketHelperFacts.
Variable P : Platform.
Variable C : Credentials.

(** Both helpers are their one call of [get_markets] followed by
    [filter_markets] on its answer. *)
Lemma get_markets_by_field_run (field : string) (value : PyVal)
  (series_ticker event_ticker : PyVal) (kwargs : Dict) (s : State) :
  forallb markets_keyword (dict_keys kwargs) = true ->
  let fetched :=
    get_markets P C event_ticker series_ticker (keyword kwargs "max_close_ts")
      (keyword kwargs "min_close_ts") (keyword kwargs "limit")
      (keyword kwargs "cursor") (keyword kwargs "status") s in
  get_markets_by_field P C field value series_ticker event_ticker kwargs s =
  mkRun (match outcome fetched with
         | Ok markets_data => filter_markets markets_data field value
         | Raise e => Raise e
         end) (final fetched) (emitted fetched).
Proof.
  intros Hk. cbn zeta. unfold get_markets_by_field, get_markets_with.
  rewrite Hk, bind_unfold.
  destruct (outcome (get_markets _ _ _ _ _ _ _ _ _ s)) as [data|e]; [|reflexivity].
  destruct (filter_markets data field value); cbn; now rewrite app_nil_r.
Qed.

Lemma get_markets_requests
  (event_ticker series_ticker max_close_ts min_close_ts limit cursor status : PyVal)
  (s : State) (data : PyVal) :
  let fetched :=
    get_markets P C event_ticker series_ticker max_close_ts min_close_ts limit
      cursor status s in
  outcome fetched = Ok data ->
  exists hs,
    http_requests (emitted fetched) =
    [ mkRequest "GET" (host C +++ markets_url) hs
        (drop_None
           [ ("event_ticker", event_ticker); ("series_ticker", series_ticker);
             ("max_close_ts", max_close_ts); ("min_close_ts", min_close_ts);
             ("limit", limit); ("cursor", cursor); ("status", status) ])
        None ].
Proof.
  cbn zeta. unfold get_markets.
  set (ps := drop_None _).
  change (get P C markets_url ps) with
    (exchange P C "GET" markets_url
       (fun hs => mkRequest "GET" (host C +++ markets_url) hs ps None)).
  intros Hok.
  pose proof (exchange_requests P C "GET" markets_url
                (fun hs => mkRequest "GET" (host C +++ markets_url) hs ps None) s) as H.
  cbn zeta in H.
  destruct (outcome (request_headers P C "GET" markets_url _)) as [hs|e].
  - exists hs. exact H.
  - destruct H as [H _]. congruence.
Qed.

End MarketHelperFacts.

(** X15.  A keyword that [get_markets] does not take makes [get_ticker_map] and
    [get_markets_by_field] raise [TypeError] at once: nothing is awaited,
    signed or sent, and the client is as it was. *)
Theorem market_helpers_reject_unknown_keywords
  (P : Platform) (C : Credentials) (field : string) (value : PyVal)
  (series_ticker event_ticker : PyVal) (kwargs : Dict) (name : string) (s : State) :
  In name (dict_keys kwargs) ->
  markets_keyword name = false ->
  get_ticker_map P C series_ticker event_ticker kwargs s =
    mkRun (Raise TypeError) s [] /\
  get_markets_by_field P C field value series_ticker event_ticker kwargs s =
    mkRun (Raise TypeError) s [].
Proof.
  intros Hin Hname.
  assert (forallb markets_keyword (dict_keys kwargs) = false) as Hk.
  { destruct (forallb markets_keyword (dict_keys kwargs)) eqn:E; [|reflexivity].
    rewrite forallb_forall in E. rewrite (E name Hin) in Hname. discriminate. }
  unfold get_ticker_map, get_markets_by_field, get_markets_with.
  rewrite Hk. split; reflexivity.
Qed.

Lemma market_helpers_reject_unknown_keywords_witness :
  get_ticker_map (mock_platform 0 (replies 200 (VDict []))) mock_credentials
    (VStr "KXNBAGAME") VNone [("tickers", VStr "KXNBAGAME-A")] mock_state =
    mkRun (Raise TypeError) mock_state [] /\
  get_markets_by_field (mock_platform 0 (replies 200 (VDict []))) mock_credentials
    "status" (VStr "open") (VStr "KXNBAGAME") VNone
    [("tickers", VStr "KXNBAGAME-A")] mock_state =
    mkRun (Raise TypeError) mock_state [].
Proof.
  apply (market_helpers_reject_unknown_keywords
           (mock_platform 0 (replies 200 (VDict []))) mock_credentials
           "status" (VStr "open") (VStr "KXNBAGAME") VNone
           [("tickers", VStr "KXNBAGAME-A")] "tickers" mock_state).
  - left. reflexivity.
  - reflexivity.
Defined.

(** X16.  When the one page that [get_markets] fetches is an object whose
    markets are objects with hashable tickers, [get_ticker_map] returns a
    map in which a ticker leads to the last market of that page with this
    ticker.  Exactly one request was sent, a GET of the markets with the
    given filters, whatever cursor the page holds: the markets of later
    pages are not in the map. *)
Theorem get_ticker_map_maps_one_page
  (P : Platform) (C : Credentials) (series_ticker event_ticker : PyVal)
  (kwargs : Dict) (s : State) (d : Dict) (ms : list PyVal) :
  let fetched :=
    get_markets P C event_ticker series_ticker (keyword kwargs "max_close_ts")
      (keyword kwargs "min_close_ts") (keyword kwargs "limit")
      (keyword kwargs "cursor") (keyword kwargs "status") s in
  let mapped := get_ticker_map P C series_ticker event_ticker kwargs s in
  forallb markets_keyword (dict_keys kwargs) = true ->
  outcome fetched = Ok (VDict d) ->
  markets_of d = VList ms ->
  forallb is_dict ms = true ->
  forallb (fun m => hashable (field_of "ticker" m)) ms = true ->
  exists g hs,
    outcome mapped = Ok g /\
    (forall ticker, hashable ticker = true ->
       keyed_get g ticker = last_with_field "ticker" ticker ms) /\
    http_requests (emitted mapped) =
      [ mkRequest "GET" (host C +++ markets_url) hs
          (drop_None
             [ ("event_ticker", event_ticker); ("series_ticker", series_ticker);
               ("max_close_ts", keyword kwargs "max_close_ts");
               ("min_close_ts", keyword kwargs "min_close_ts");
               ("limit", keyword kwargs "limit");
               ("cursor", keyword kwargs "cursor");
               ("status", keyword kwargs "status") ])
          None ] /\
    final mapped = final fetched.
Proof.
  cbn zeta. intros Hk Hok Hd Hms Hf.
  change (get_ticker_map P C series_ticker event_ticker kwargs)
    with (get_markets_by_field P C "ticker" VNone series_ticker event_ticker kwargs).
  rewrite (get_markets_by_field_run P C "ticker" VNone series_ticker event_ticker
             kwargs s Hk).
  cbn zeta. cbn [outcome final emitted]. rewrite Hok.
  destruct (ticker_map_lookup d ms Hd Hms Hf) as (g & Hg & Hlook).
  destruct (get_markets_requests P C _ _ _ _ _ _ _ s (VDict d) Hok) as (hs & Hreq).
  exists g, hs. repeat split; assumption.
Qed.

Lemma get_ticker_map_maps_one_page_witness :
  exists g,
    outcome
      (get_ticker_map
         (mock_platform 0
            (replies 200
               (VDict [("markets",
                        VList [VDict [("ticker", VStr "A"); ("status", VStr "open")];
                               VDict [("ticker", VStr "B"); ("status", VStr "closed")]]);
                       ("cursor", VStr "next-page")])))
         mock_credentials (VStr "KXNBAGAME") VNone [("limit", VInt 2)] mock_state)
      = Ok g /\
    keyed_get g (VStr "B") =
      Some (VDict [("ticker", VStr "B"); ("status", VStr "closed")]).
Proof.
  destruct (get_ticker_map_maps_one_page
              (mock_platform 0
                 (replies 200
                    (VDict [("markets",
                             VList [VDict [("ticker", VStr "A"); ("status", VStr "open")];
                                    VDict [("ticker", VStr "B"); ("status", VStr "closed")]]);
                            ("cursor", VStr "next-page")])))
              mock_credentials (VStr "KXNBAGAME") VNone [("limit", VInt 2)] mock_state
              [("markets",
                VList [VDict [("ticker", VStr "A"); ("status", VStr "open")];
                       VDict [("ticker", VStr "B"); ("status", VStr "closed")]]);
               ("cursor", VStr "next-page")]
              [VDict [("ticker", VStr "A"); ("status", VStr "open")];
               VDict [("ticker", VStr "B"); ("status", VStr "closed")]]
              eq_refl)
    as (g & hs & Hg & Hlook & _).
  - vm_compute. reflexivity.
  - reflexivity.
  - reflexivity.
  - reflexivity.
  - exists g. split; [exact Hg|].
    rewrite (Hlook (VStr "B") eq_refl). reflexivity.
Defined.

(** X17.  When the one page that [get_markets] fetches is an object whose
    markets are objects, [get_markets_by_field] with a value returns the
    markets of that page whose field equals the value, with their number;
    with the value [None] it does not select but answers with the grouping
    of [filter_markets].  One request was sent in either case. *)
Theorem get_markets_by_field_selects_from_one_page
  (P : Platform) (C : Credentials) (field : string) (value : PyVal)
  (series_ticker event_ticker : PyVal)
  (kwargs : Dict) (s : State) (d : Dict) (ms : list PyVal) :
  let fetched :=
    get_markets P C event_ticker series_ticker (keyword kwargs "max_close_ts")
      (keyword kwargs "min_close_ts") (keyword kwargs "limit")
      (keyword kwargs "cursor") (keyword kwargs "status") s in
  let selected :=
    get_markets_by_field P C field value series_ticker event_ticker kwargs s in
  forallb markets_keyword (dict_keys kwargs) = true ->
  outcome fetched = Ok (VDict d) ->
  markets_of d = VList ms ->
  forallb is_dict ms = true ->
  (value <> VNone ->
     outcome selected =
       Ok [ (VStr "markets", VList (with_field field value ms));
            (VStr "count",
             VInt (Z.of_nat (List.length (with_field field value ms)))) ]) /\
  (value = VNone -> outcome selected = group_markets field ms []) /\
  (exists req, http_requests (emitted selected) = [req] /\
               verb req = "GET" /\ url req = host C +++ markets_url) /\
  final selected = final fetched.
Proof.
  cbn zeta. intros Hk Hok Hd Hms.
  rewrite (get_markets_by_field_run P C field value series_ticker event_ticker
             kwargs s Hk).
  cbn zeta. cbn [outcome final emitted]. rewrite Hok.
  rewrite (filter_markets_unfold d ms field value Hd).
  destruct (get_markets_requests P C _ _ _ _ _ _ _ s (VDict d) Hok) as (hs & Hreq).
  repeat split.
  - intros Hv.
    assert (is_not_None value = true) as -> by (destruct value; cbn; congruence).
    now rewrite (matching_with_field field value ms Hms).
  - intros ->. reflexivity.
  - eexists. split; [exact Hreq|]. split; reflexivity.
Qed.

Lemma get_markets_by_field_selects_from_one_page_witness :
  outcome
    (get_markets_by_field
       (mock_platform 0
          (replies 200
             (VDict [("markets",
                      VList [VDict [("ticker", VStr "A"); ("status", VStr "open")];
                             VDict [("ticker", VStr "B"); ("status", VStr "closed")]])])))
       mock_credentials "status" (VStr "closed") (VStr "KXNBAGAME") VNone []
       mock_state)
    = Ok [ (VStr "markets",
            VList [VDict [("ticker", VStr "B"); ("status", VStr "closed")]]);
           (VStr "count", VInt 1) ].
Proof.
  refine (proj1 (get_markets_by_field_selects_from_one_page
                   (mock_platform 0
                      (replies 200
                         (VDict [("markets",
                                  VList [VDict [("ticker", VStr "A");
                                                ("status", VStr "open")];
                                         VDict [("ticker", VStr "B");
                                                ("status", VStr "closed")]])])))
                   mock_credentials "status" (VStr "closed") (VStr "KXNBAGAME") VNone
                   [] mock_state
                   [("markets",
                     VList [VDict [("ticker", VStr "A"); ("status", VStr "open")];
                            VDict [("ticker", VStr "B"); ("status", VStr "closed")]])]
                   [VDict [("ticker", VStr "A"); ("status", VStr "open")];
                    VDict [("ticker", VStr "B"); ("status", VStr "closed")]]
                   eq_refl _ eq_refl eq_refl) _).
  - vm_compute. reflexivity.
  - discriminate.
Defined.

(* ================================================================== *)
(** * Further properties: the streaming session *)
(* ================================================================== *)

Lemma dict_get_set_other (d : Dict) (k k' : string) (v : PyVal) :
  k' <> k -> dict_get (dict_set d k v) k' = dict_get d k'.
Proof.
  intros Hne.
  induction d as [|[k0 v0] d IH]; cbn [dict_set dict_get].
  - destruct (String.eqb_spec k k'); [congruence|reflexivity].
  - destruct (String.eqb_spec k0 k) as [->|Hk0]; cbn [dict_get].
    + destruct (String.eqb_spec k k'); [congruence|reflexivity].
    + destruct (String.eqb_spec k0 k'); [reflexivity|exact IH].
Qed.

(** X18.  [connect] signs the handshake, opens the socket, and subscribes to the
    ticker channel with the current message id, in this order.  It sends
    no HTTP request and does not pass the rate limiter.  When the headers
    cannot be made no connection is attempted; when the connection or the
    first frame is refused the message id stays as it was. *)
Theorem connect_subscribes_after_handshake
  (P : Platform) (C : Credentials) (s : State) :
  let r := connect P C s in
  let rh := request_headers P C "GET" url_suffix s in
  let host := WS_BASE_URL C +++ url_suffix in
  let frame := command (message_id s) "subscribe" ["ticker"] in
  http_requests (emitted r) = [] /\
  last_api_call (final r) = last_api_call s /\
  match outcome rh with
  | Raise e => outcome r = Raise e /\ emitted r = emitted rh
  | Ok hs =>
      match ws_connect P (ticks (final rh)) host hs with
      | Raise e =>
          outcome r = Raise e /\
          emitted r = emitted rh ++ [EvWsConnect host hs] /\
          message_id (final r) = message_id s
      | Ok _ =>
          match ws_send P (S (ticks (final rh))) frame with
          | Raise e =>
              outcome r = Raise e /\
              emitted r = emitted rh ++ [EvWsConnect host hs] /\
              message_id (final r) = message_id s
          | Ok _ =>
              outcome r = Ok tt /\
              emitted r = emitted rh ++ [EvWsConnect host hs; EvWsSend frame] /\
              message_id (final r) = message_id s + 1
          end
      end
  end.
Proof.
  cbn zeta.
  pose proof (request_headers_run P C "GET" url_suffix s) as (Hl & Hm & Hh & _ & _).
  cbn zeta in Hl, Hm, Hh.
  unfold connect. rewrite bind_unfold.
  destruct (request_headers P C "GET" url_suffix s) as [[hs|e] s1 evs1];
    cbn [outcome final emitted] in *.
  - unfold websockets_connect, on_open, handler, subscribe_to_tickers,
      websocket_send, increment_message_id, set_message_id, elapse, emit,
      read, lift, raise, ret, bind.
    cbn [outcome final emitted ticks message_id last_api_call now_us].
    destruct (ws_connect P (ticks s1) _ hs) as [[]|e];
      cbn [outcome final emitted ticks message_id last_api_call now_us].
    + rewrite Hm.
      destruct (ws_send P (S (ticks s1)) _) as [[]|e];
        cbn [outcome final emitted ticks message_id last_api_call now_us app];
        rewrite !http_requests_app, Hh; cbn; auto.
    + rewrite !http_requests_app, Hh; cbn; auto.
  - auto.
Qed.

(** X19.  [send_custom_message] puts the current message id into the message:
    the frame sent has this id whatever id the caller wrote, and every
    other entry of the message as given. *)
Theorem send_custom_message_overwrites_id
  (P : Platform) (message : Dict) (s : State) (frame : PyVal) :
  In frame (ws_frames (emitted (send_custom_message P message s))) ->
  exists d,
    frame = VDict d /\
    dict_get d "id" = Some (VInt (message_id s)) /\
    (forall k, k <> "id" -> dict_get d k = dict_get message k) /\
    emitted (send_custom_message P message s) = [EvWsSend frame] /\
    message_id (final (send_custom_message P message s)) = message_id s + 1.
Proof.
  unfold send_custom_message, websocket_send, increment_message_id,
    set_message_id, elapse, emit, read, raise, ret, bind.
  cbn [outcome final emitted ticks message_id].
  destruct (ws_send P (ticks s) _) as [[]|e];
    cbn [outcome final emitted ticks message_id app ws_frames flat_map];
    [|contradiction].
  intros [<-|[]].
  exists (dict_set message "id" (VInt (message_id s))).
  split; [reflexivity|]. split; [apply dict_get_set_same|].
  split; [intros k Hk; now apply dict_get_set_other|].
  split; reflexivity.
Qed.

Lemma send_custom_message_overwrites_id_witness :
  exists d,
    VDict [("id", VInt 1); ("cmd", VStr "update_subscription")] = VDict d /\
    dict_get d "id" = Some (VInt 1) /\
    dict_get d "cmd" = Some (VStr "update_subscription").
Proof.
  destruct (send_custom_message_overwrites_id
              (mock_platform 0 (replies 200 (VDict [])))
              [("id", VInt 99); ("cmd", VStr "update_subscription")] mock_state
              (VDict [("id", VInt 1); ("cmd", VStr "update_subscription")]))
    as (d & Hd & Hid & Hother & _).
  - left. reflexivity.
  - exists d. split; [exact Hd|]. split; [exact Hid|].
    rewrite (Hother "cmd"); [reflexivity|discriminate].
Defined.

(** X20.  A frame that the socket refuses does not use up a message id: the
    operation raises the socket's exception, nothing is on the wire, and
    the counter is as before, so the next frame carries the same id. *)
Theorem refused_frame_keeps_message_id
  (P : Platform) (c : WsCall) (s : State) (e : PyExn) :
  (forall frame, ws_send P (ticks s) frame = Raise e) ->
  let r := ws_call P c s in
  outcome r = Raise e /\ emitted r = [] /\
  message_id (final r) = message_id s /\
  forall c' frame,
    In frame (ws_frames (emitted (ws_call P c' (final r)))) ->
    frame_id frame = Some (message_id s).
Proof.
  intros Hno. cbn zeta.
  assert (outcome (ws_call P c s) = Raise e /\ emitted (ws_call P c s) = [] /\
          message_id (final (ws_call P c s)) = message_id s) as (Ho & He & Hm).
  { destruct c; cbn [ws_call];
      unfold on_open, subscribe_to_tickers, subscribe_to_specific_tickers,
        subscribe_to_orderbook, subscribe_to_trades, unsubscribe_from_channel,
        send_custom_message, websocket_send, increment_message_id,
        set_message_id, elapse, emit, read, raise, ret, bind;
      cbn [outcome final emitted ticks message_id];
      rewrite Hno; cbn; auto. }
  repeat split; try assumption.
  intros c' frame Hin.
  destruct (ws_call_run P c' (final (ws_call P c s))) as [(f & Hf & Hid & _)|(Hf & _)];
    rewrite Hf in Hin; cbn in Hin; [|contradiction].
  destruct Hin as [<-|[]]. now rewrite Hid, Hm.
Qed.

Lemma refused_frame_keeps_message_id_witness :
  let P := mkPlatform (fun _ => 0) (fun _ => replies 200 (VDict []))
             (fun _ _ _ => Ok tt)
             (fun i _ => if (i =? 0)%nat then Raise (ConnectionClosed 1006 "")
                         else Ok tt) in
  let r := ws_call P (CallSubscribeToOrderbook "KXA") mock_state in
  outcome r = Raise (ConnectionClosed 1006 "") /\
  map frame_id (ws_frames (emitted (ws_call P CallSubscribeToTickers (final r))))
    = [Some 1].
Proof.
  cbn zeta.
  destruct (refused_frame_keeps_message_id
              (mkPlatform (fun _ => 0) (fun _ => replies 200 (VDict []))
                 (fun _ _ _ => Ok tt)
                 (fun i _ => if (i =? 0)%nat then Raise (ConnectionClosed 1006 "")
                             else Ok tt))
              (CallSubscribeToOrderbook "KXA") mock_state
              (ConnectionClosed 1006 "") (fun _ => eq_refl))
    as (Ho & _ & _ & Hnext).
  split; [exact Ho|].
  vm_compute. reflexivity.
Defined.

(* ================================================================== *)
(** * Further properties: analyze_event_scalp_potential *)
(* ================================================================== *)

Lemma as_number_object (v : PyVal) (n : Number) :
  as_number v = Ok n -> v = number_object n.
Proof. destruct v; cbn; intros H; try discriminate; now injection H as <-. Qed.

Lemma as_number_of_object (n : Number) : as_number (number_object n) = Ok n.
Proof. now destruct n. Qed.

Lemma raise_to_bounds (bid : PyVal) (m0 m : Number) :
  raise_to bid m0 = Ok m ->
  number_value m0 <= number_value m /\
  (forall n, truthy bid = true -> as_number bid = Ok n ->
             number_value n <= number_value m) /\
  (m = m0 \/ (bid = number_object m /\ truthy bid = true)).
Proof.
  unfold raise_to. destruct (truthy bid) eqn:Ht.
  - destruct (as_number bid) as [n|e] eqn:En; [|discriminate].
    intros H. injection H as <-.
    destruct (Z.ltb_spec (number_value m0) (number_value n)).
    + repeat split; try lia.
      * intros n' _ Hn'. injection Hn' as <-. lia.
      * right. split; [now apply as_number_object|reflexivity].
    + repeat split; try lia; auto.
      intros n' _ Hn'. injection Hn' as <-. lia.
  - intros H. injection H as <-. repeat split; try lia; auto; discriminate.
Qed.

Lemma lower_to_bounds (ask : PyVal) (a0 a : Number) :
  lower_to ask a0 = Ok a ->
  number_value a <= number_value a0 /\
  (forall n, truthy ask = true -> as_number ask = Ok n ->
             number_value a <= number_value n) /\
  (a = a0 \/ (ask = number_object a /\ truthy ask = true)).
Proof.
  unfold lower_to. destruct (truthy ask) eqn:Ht.
  - destruct (as_number ask) as [n|e] eqn:En; [|discriminate].
    intros H. injection H as <-.
    destruct (Z.ltb_spec (number_value n) (number_value a0)).
    + repeat split; try lia.
      * intros n' _ Hn'. injection Hn' as <-. lia.
      * right. split; [now apply as_number_object|reflexivity].
    + repeat split; try lia; auto.
      intros n' _ Hn'. injection Hn' as <-. lia.
  - intros H. injection H as <-. repeat split; try lia; auto; discriminate.
Qed.

(** The loop keeps the largest true bid and the smallest true ask it has
    met, starting from the values it is given. *)
Lemma scan_candles_bounds (later : list PyVal) :
  forall m0 a0 m a,
  scan_candles later m0 a0 = Ok (m, a) ->
  number_value m0 <= number_value m /\
  number_value a <= number_value a0 /\
  (forall candle bid n,
     In candle later -> quote candle "yes_bid" "high" = Ok bid ->
     truthy bid = true -> as_number bid = Ok n ->
     number_value n <= number_value m) /\
  (forall candle ask n,
     In candle later -> quote candle "yes_ask" "low" = Ok ask ->
     truthy ask = true -> as_number ask = Ok n ->
     number_value a <= number_value n) /\
  (m = m0 \/
   exists candle, In candle later /\
     quote candle "yes_bid" "high" = Ok (number_object m)) /\
  (a = a0 \/
   exists candle, In candle later /\
     quote candle "yes_ask" "low" = Ok (number_object a)).
Proof.
  induction later as [|candle rest IH]; intros m0 a0 m a; cbn [scan_candles].
  - intros H. injection H as <- <-.
    repeat split; try lia; auto; intros ? ? ? [].
  - destruct (quote candle "yes_bid" "high") as [bid|e] eqn:Eb; [|discriminate].
    destruct (quote candle "yes_ask" "low") as [ask|e] eqn:Ea; [|discriminate].
    destruct (raise_to bid m0) as [m1|e] eqn:Em; [|discriminate].
    destruct (lower_to ask a0) as [a1|e] eqn:El; [|discriminate].
    intros H. destruct (IH m1 a1 m a H) as (H1 & H2 & H3 & H4 & H5 & H6).
    destruct (raise_to_bounds bid m0 m1 Em) as (B1 & B2 & B3).
    destruct (lower_to_bounds ask a0 a1 El) as (L1 & L2 & L3).
    split; [lia|]. split; [lia|].
    split.
    { intros c b n [<-|Hin] Hq Ht Hn.
      - assert (b = bid) as -> by congruence.
        specialize (B2 n Ht Hn). lia.
      - exact (H3 c b n Hin Hq Ht Hn). }
    split.
    { intros c k n [<-|Hin] Hq Ht Hn.
      - assert (k = ask) as -> by congruence.
        specialize (L2 n Ht Hn). lia.
      - exact (H4 c k n Hin Hq Ht Hn). }
    split.
    { destruct H5 as [->|(c & Hin & Hq)].
      - destruct B3 as [->|[-> _]]; [now left|].
        right. exists candle. split; [now left|exact Eb].
      - right. exists c. split; [now right|exact Hq]. }
    { destruct H6 as [->|(c & Hin & Hq)].
      - destruct L3 as [->|[-> _]]; [now left|].
        right. exists candle. split; [now left|exact Ea].
      - right. exists c. split; [now right|exact Hq]. }
Qed.

Lemma scalp_entry_coherent (ticker title result : PyVal) (o m : Number) :
  0 <= number_value m ->
  coherent (scalp_entry ticker title (number_object o) (number_object m)
              (number_value o) (number_value m - number_value o) result) = true.
Proof.
  intros Hm. unfold coherent, entry_number, entry_field, scalp_entry.
  cbn [dict_get String.eqb Ascii.eqb Bool.eqb andb].
  rewrite !as_number_of_object.
  rewrite Z.eqb_refl, !Bool.eqb_reflx.
  apply Z.leb_le in Hm. now rewrite Hm.
Qed.

(** What a returned analysis is made of. *)
Lemma analyze_candles_returns
  (market_a ticker_a : PyVal) (more_markets : list PyVal) (candles_resp : PyVal)
  (results : list PyVal) :
  analyze_candles market_a ticker_a more_markets candles_resp = Ok results ->
  results = [] \/
  exists first_candle later open_a yes_bid_a max_a min_a title_a result_a,
    py_get candles_resp "candlesticks" (VList []) = Ok (VList (first_candle :: later)) /\
    quote first_candle "yes_ask" "close" = Ok (number_object open_a) /\
    quote first_candle "yes_bid" "close" = Ok yes_bid_a /\
    scan_candles later (NInt 0) (NInt 100) = Ok (max_a, min_a) /\
    py_getitem market_a "title" = Ok title_a /\
    let entry_a :=
      scalp_entry ticker_a title_a (number_object open_a) (number_object max_a)
        (number_value open_a) (number_value max_a - number_value open_a) result_a in
    (results = [entry_a] /\ (more_markets = [] \/ yes_bid_a = VNone)) \/
    exists market_b rest bid_a ticker_b title_b result_b,
      more_markets = market_b :: rest /\
      yes_bid_a = number_object bid_a /\
      py_getitem market_b "ticker" = Ok ticker_b /\
      py_getitem market_b "title" = Ok title_b /\
      let open_price_b := 100 - number_value bid_a in
      let max_price_b :=
        if number_value min_a =? 100 then 0 else 100 - number_value min_a in
      results =
        [ entry_a;
          scalp_entry ticker_b title_b (VInt open_price_b) (VInt max_price_b)
            open_price_b (max_price_b - open_price_b) result_b ].
Proof.
  unfold analyze_candles.
  destruct (py_get candles_resp "candlesticks" (VList [])) as [candles|e];
    [|discriminate].
  destruct (truthy candles) eqn:Ht; cbn [negb];
    [|intros H; injection H as <-; now left].
  destruct candles as [| | | |[|first_candle later]|]; try discriminate.
  destruct (quote first_candle "yes_ask" "close") as [yes_ask_a|e] eqn:Eask;
    [|discriminate].
  destruct (quote first_candle "yes_bid" "close") as [yes_bid_a|e] eqn:Ebid;
    [|discriminate].
  destruct (is_not_None yes_ask_a) eqn:Hask; cbn [negb];
    [|intros H; injection H as <-; now left].
  destruct (scan_candles later (NInt 0) (NInt 100)) as [[max_a min_a]|e] eqn:Escan;
    [|discriminate].
  destruct (as_number yes_ask_a) as [open_a|e] eqn:Eopen; [|discriminate].
  apply as_number_object in Eopen. subst yes_ask_a.
  destruct (py_getitem market_a "title") as [title_a|e] eqn:Etitle; [|discriminate].
  destruct (py_get market_a "result" VNone) as [result_a|e]; [|discriminate].
  intros H. right.
  exists first_candle, later, open_a, yes_bid_a, max_a, min_a, title_a, result_a.
  do 5 (split; [first [assumption|reflexivity]|]). cbn zeta.
  destruct more_markets as [|market_b rest].
  { injection H as <-. left. auto. }
  destruct (is_not_None yes_bid_a) eqn:Hbid.
  - destruct (as_number yes_bid_a) as [bid_a|e] eqn:Enum; [|discriminate].
    apply as_number_object in Enum.
    destruct (py_getitem market_b "ticker") as [ticker_b|e] eqn:Etb; [|discriminate].
    destruct (py_getitem market_b "title") as [title_b|e] eqn:Etib; [|discriminate].
    destruct (py_get market_b "result" VNone) as [result_b|e]; [|discriminate].
    injection H as <-. right.
    exists market_b, rest, bid_a, ticker_b, title_b, result_b.
    repeat split; auto.
  - injection H as <-. left. split; [reflexivity|]. right.
    destruct yes_bid_a; try discriminate. reflexivity.
Qed.

(** The exceptions of the part after the fetch are those of reading the
    documents. *)
Lemma scan_candles_raises (later : list PyVal) :
  forall m0 a0 e, scan_candles later m0 a0 = Raise e ->
                  e = TypeError \/ e = AttributeError.
Proof.
  assert (forall candle side field e,
            quote candle side field = Raise e -> e = AttributeError) as Hquote.
  { intros candle side field e. unfold quote.
    destruct candle; cbn; try congruence.
    destruct (match dict_get d side with Some v => v | None => VDict [] end);
      cbn; congruence. }
  assert (forall v e, as_number v = Raise e -> e = TypeError) as Hnum.
  { intros v e. destruct v; cbn; congruence. }
  induction later as [|candle rest IH]; intros m0 a0 e; cbn [scan_candles];
    [discriminate|].
  destruct (quote candle "yes_bid" "high") as [bid|e1] eqn:Eb;
    [|intros H; injection H as <-; right; eapply Hquote; eassumption].
  destruct (quote candle "yes_ask" "low") as [ask|e1] eqn:Ea;
    [|intros H; injection H as <-; right; eapply Hquote; eassumption].
  unfold raise_to, lower_to.
  destruct (truthy bid).
  - destruct (as_number bid) as [n|e1] eqn:En;
      [|intros H; injection H as <-; left; eapply Hnum; eassumption].
    destruct (truthy ask).
    + destruct (as_number ask) as [k|e1] eqn:Ek;
        [|intros H; injection H as <-; left; eapply Hnum; eassumption].
      apply IH.
    + apply IH.
  - destruct (truthy ask).
    + destruct (as_number ask) as [k|e1] eqn:Ek;
        [|intros H; injection H as <-; left; eapply Hnum; eassumption].
      apply IH.
    + apply IH.
Qed.

Lemma analyze_candles_raises
  (market_a ticker_a : PyVal) (more_markets : list PyVal) (candles_resp : PyVal)
  (e : PyExn) :
  analyze_candles market_a ticker_a more_markets candles_resp = Raise e ->
  data_error e.
Proof.
  assert (forall v k d e, py_get v k d = Raise e -> data_error e) as Hget.
  { intros v k d e'. destruct v; cbn; intros H; try discriminate;
      injection H as <-; right; now left. }
  assert (forall v k e, py_getitem v k = Raise e -> data_error e) as Hitem.
  { intros v k e'. destruct v; cbn; intros H; try (injection H as <-; now left).
    destruct (dict_get d k); [discriminate|].
    injection H as <-. right. right. now exists k. }
  assert (forall candle side field e,
            quote candle side field = Raise e -> data_error e) as Hquote.
  { intros candle side field e'. unfold quote.
    destruct (py_get candle side (VDict [])) eqn:E1.
    - apply Hget.
    - intros H. injection H as <-. eapply Hget; eassumption. }
  assert (forall v e, as_number v = Raise e -> data_error e) as Hnum.
  { intros v e'. destruct v; cbn; intros H; try discriminate;
      injection H as <-; now left. }
  unfold analyze_candles.
  destruct (py_get candles_resp "candlesticks" (VList [])) as [candles|e1] eqn:E0;
    [|intros H; injection H as <-; eapply Hget; eassumption].
  destruct (truthy candles); cbn [negb]; [|discriminate].
  destruct candles as [| | | |[|first_candle later]|];
    try (intros H; injection H as <-; unfold data_error; eauto; fail).
  destruct (quote first_candle "yes_ask" "close") as [yes_ask_a|e1] eqn:Eask;
    [|intros H; injection H as <-; eapply Hquote; eassumption].
  destruct (quote first_candle "yes_bid" "close") as [yes_bid_a|e1] eqn:Ebid;
    [|intros H; injection H as <-; eapply Hquote; eassumption].
  destruct (is_not_None yes_ask_a); cbn [negb]; [|discriminate].
  destruct (scan_candles later (NInt 0) (NInt 100)) as [[max_a min_a]|e1] eqn:Escan.
  2:{ intros H. injection H as <-.
      destruct (scan_candles_raises later _ _ _ Escan) as [->| ->];
        unfold data_error; auto. }
  destruct (as_number yes_ask_a) as [open_a|e1] eqn:Eopen;
    [|intros H; injection H as <-; eapply Hnum; eassumption].
  destruct (py_getitem market_a "title") as [title_a|e1] eqn:Etitle;
    [|intros H; injection H as <-; eapply Hitem; eassumption].
  destruct (py_get market_a "result" VNone) as [result_a|e1] eqn:Eres;
    [|intros H; injection H as <-; eapply Hget; eassumption].
  destruct more_markets as [|market_b rest]; [discriminate|].
  destruct (is_not_None yes_bid_a); [|discriminate].
  destruct (as_number yes_bid_a) as [bid_a|e1] eqn:Enum;
    [|intros H; injection H as <-; eapply Hnum; eassumption].
  destruct (py_getitem market_b "ticker") as [ticker_b|e1] eqn:Etb;
    [|intros H; injection H as <-; eapply Hitem; eassumption].
  destruct (py_getitem market_b "title") as [title_b|e1] eqn:Etib;
    [|intros H; injection H as <-; eapply Hitem; eassumption].
  destruct (py_get market_b "result" VNone) as [result_b|e1] eqn:Erb;
    [|intros H; injection H as <-; eapply Hget; eassumption].
  discriminate.
Qed.

Section ScalpFacts.
Variable P : Platform.
Variable C : Credentials.
Variable dateutil_timestamp : string -> option Z.
Variable container_str : PyVal -> string.

(** The analysis is its one fetch, whose failure it turns into an empty
    result, followed by the reading of the answer. *)
Lemma analyze_event_scalp_potential_run
  (event_ticker market_a : PyVal) (more_markets : list PyVal)
  (candle_interval : Z) (s : State) :
  analyze_event_scalp_potential P C dateutil_timestamp container_str
    event_ticker market_a more_markets candle_interval s =
  match market_a with
  | VDict fields =>
      match dict_get fields "ticker" with
      | None => mkRun (Raise (KeyError "ticker")) s []
      | Some ticker_a =>
          match end_time dateutil_timestamp fields end_time_keys with
          | None => mkRun (Ok []) s []
          | Some end_ts =>
              let fetched :=
                get P C (window_path (py_format container_str ticker_a) end_ts
                           candle_interval) [] s in
              mkRun
                match outcome fetched with
                | Ok candles_resp =>
                    analyze_candles market_a ticker_a more_markets candles_resp
                | Raise _ => Ok []
                end (final fetched) (emitted fetched)
          end
      end
  | _ => mkRun (Raise TypeError) s []
  end.
Proof.
  unfold analyze_event_scalp_potential. rewrite bind_unfold.
  destruct market_a as [| | | | |fields]; try reflexivity.
  cbn [py_getitem].
  destruct (dict_get fields "ticker") as [ticker_a|]; [|reflexivity].
  cbn [lift ret outcome final emitted app].
  destruct (end_time dateutil_timestamp fields end_time_keys) as [end_ts|];
    [|reflexivity].
  cbn zeta. rewrite bind_unfold.
  unfold fetch_candles, try_except. rewrite bind_unfold.
  change (get_market_candlesticks P C "KXNBAGAME" (py_format container_str ticker_a)
            (end_ts - 60 * 60 * 48) (end_ts - 60 * 60 * 3) candle_interval)
    with (get P C (window_path (py_format container_str ticker_a) end_ts
                     candle_interval) []).
  destruct (get P C _ [] s) as [[candles_resp|e] s1 evs1];
    cbn [outcome final emitted ret lift raise app].
  - destruct (analyze_candles _ ticker_a more_markets candles_resp);
      cbn; now rewrite ?app_nil_r.
  - cbn. now rewrite ?app_nil_r.
Qed.

End ScalpFacts.

Lemma scalp_entry_fields (ticker title result : PyVal) (o m : Number) (profit : Z) :
  let entry := scalp_entry ticker title (number_object o) (number_object m)
                 (number_value o) profit result in
  entry_field entry "ticker" = Some ticker /\
  entry_number entry "open_price" = Some (number_value o) /\
  entry_number entry "max_exit_price" = Some (number_value m).
Proof.
  cbn zeta. unfold entry_number, entry_field, scalp_entry.
  cbn [dict_get String.eqb Ascii.eqb Bool.eqb andb].
  rewrite !as_number_of_object. auto.
Qed.

Lemma scalp_entry_wins (ticker title open_price max_exit_price result : PyVal)
  (open_value profit : Z) :
  let entry := scalp_entry ticker title open_price max_exit_price open_value
                 profit result in
  entry_field entry "win_10c" = Some (VBool true) ->
  entry_field entry "win_5c" = Some (VBool true).
Proof.
  cbn zeta. unfold entry_field, scalp_entry.
  cbn [dict_get String.eqb Ascii.eqb Bool.eqb andb]. intros H.
  assert ((10 <=? profit) = true) as E by congruence.
  apply Z.leb_le in E.
  assert ((5 <=? profit) = true) as -> by (apply Z.leb_le; lia).
  reflexivity.
Qed.

(** X21.  For a first market that is an object with a ticker and an end
    time: whatever the fetch raises, a refused signature, a lost
    connection, an error status or a body that is not JSON, the analysis
    returns an empty list instead, after the one request the fetch made.
    An exception of the analysis therefore comes only after a fetch that
    returned, from reading the answer and the markets: it is a
    [TypeError], an [AttributeError] or a [KeyError]. *)
Theorem analysis_swallows_fetch_failures
  (P : Platform) (C : Credentials) (dateutil_timestamp : string -> option Z)
  (container_str : PyVal -> string)
  (event_ticker : PyVal) (fields : Dict) (ticker_a : PyVal) (end_ts : Z)
  (more_markets : list PyVal) (candle_interval : Z) (s : State) :
  let r := analyze_event_scalp_potential P C dateutil_timestamp container_str
             event_ticker (VDict fields) more_markets candle_interval s in
  let fetched := get_market_candlesticks P C "KXNBAGAME"
                   (py_format container_str ticker_a)
                   (end_ts - 172800) (end_ts - 10800) candle_interval s in
  dict_get fields "ticker" = Some ticker_a ->
  end_time dateutil_timestamp fields end_time_keys = Some end_ts ->
  (forall e, outcome fetched = Raise e ->
             r = mkRun (Ok []) (final fetched) (emitted fetched)) /\
  (forall e, outcome r = Raise e ->
             data_error e /\ exists candles_resp, outcome fetched = Ok candles_resp).
Proof.
  cbn zeta. intros Hticker Hend.
  rewrite analyze_event_scalp_potential_run, Hticker, Hend. cbn zeta.
  change (get_market_candlesticks P C "KXNBAGAME" (py_format container_str ticker_a)
            (end_ts - 172800) (end_ts - 10800) candle_interval)
    with (get P C (window_path (py_format container_str ticker_a) end_ts
                     candle_interval) []).
  split.
  - intros e ->. reflexivity.
  - intros e. cbn [outcome].
    destruct (outcome (get P C _ [] s)) as [candles_resp|e']; [|discriminate].
    intros H. split; [exact (analyze_candles_raises _ _ _ _ _ H)|].
    now exists candles_resp.
Qed.

(** X22.  The analysis asks once, for the candlesticks of the first market in
    the series KXNBAGAME over the window from 48 hours to 3 hours before
    the end time of that market, and sends nothing else; without an end
    time it returns an empty list and sends nothing. *)
Theorem analysis_fetches_one_window
  (P : Platform) (C : Credentials) (dateutil_timestamp : string -> option Z)
  (container_str : PyVal -> string)
  (event_ticker : PyVal) (fields : Dict) (ticker_a : PyVal)
  (more_markets : list PyVal) (candle_interval : Z) (s : State) :
  let r := analyze_event_scalp_potential P C dateutil_timestamp container_str
             event_ticker (VDict fields) more_markets candle_interval s in
  dict_get fields "ticker" = Some ticker_a ->
  match end_time dateutil_timestamp fields end_time_keys with
  | None => r = mkRun (Ok []) s []
  | Some end_ts =>
      (List.length (http_requests (emitted r)) <= 1)%nat /\
      (usable C -> List.length (http_requests (emitted r)) = 1%nat) /\
      forall req, In req (http_requests (emitted r)) ->
        verb req = "GET" /\
        url req = host C +++ window_path (py_format container_str ticker_a)
                               end_ts candle_interval /\
        params req = [] /\ json_body req = None
  end.
Proof.
  cbn zeta. intros Hticker.
  rewrite analyze_event_scalp_potential_run, Hticker.
  destruct (end_time dateutil_timestamp fields end_time_keys) as [end_ts|];
    [|reflexivity].
  cbn zeta. cbn [emitted].
  set (path := window_path (py_format container_str ticker_a) end_ts candle_interval).
  pose proof (exchange_requests P C "GET" path
                (fun hs => mkRequest "GET" (host C +++ path) hs [] None) s) as H.
  cbn zeta in H.
  change (exchange P C "GET" path
            (fun hs => mkRequest "GET" (host C +++ path) hs [] None))
    with (get P C path []) in H.
  split; [|split].
  - destruct (outcome (request_headers P C "GET" path _)).
    + rewrite H. cbn. lia.
    + destruct H as [_ ->]. cbn. lia.
  - intros Hu.
    destruct (request_headers_usable P C "GET" path (final (rate_limit P s)) Hu)
      as [hs Hhs].
    rewrite Hhs in H. now rewrite H.
  - intros req Hin. apply get_sends in Hin. tauto.
Qed.

Lemma analysis_fetches_one_window_witness :
  let r := analyze_event_scalp_potential
             (mock_platform 0 (replies 200 (VDict []))) mock_credentials
             (fun _ => None) (fun _ => "") (VStr "KXNBAGAME-24OCT27LALBOS")
             (VDict [("ticker", VStr "KXNBAGAME-24OCT27LALBOS-LAL");
                     ("close_ts", VInt 1730000000)]) [] 1 mock_state in
  map url (http_requests (emitted r)) =
  [ "https://api.elections.kalshi.com/trade-api/v2/series/KXNBAGAME/markets/KXNBAGAME-24OCT27LALBOS-LAL/candlesticks?start_ts=1729827200&end_ts=1729989200&period_interval=1" ].
Proof.
  cbn zeta.
  pose proof (analysis_fetches_one_window
                (mock_platform 0 (replies 200 (VDict []))) mock_credentials
                (fun _ => None) (fun _ => "") (VStr "KXNBAGAME-24OCT27LALBOS")
                [("ticker", VStr "KXNBAGAME-24OCT27LALBOS-LAL");
                 ("close_ts", VInt 1730000000)]
                (VStr "KXNBAGAME-24OCT27LALBOS-LAL") [] 1 mock_state eq_refl) as H.
  cbn zeta in H.
  change (end_time (fun _ => None)
            [("ticker", VStr "KXNBAGAME-24OCT27LALBOS-LAL");
             ("close_ts", VInt 1730000000)] end_time_keys)
    with (Some 1730000000) in H.
  destruct H as (_ & Hone & Hreq).
  specialize (Hone mock_credentials_usable).
  remember (http_requests (emitted _)) as l eqn:El.
  destruct l as [|req [|req' l]]; try discriminate Hone.
  destruct (Hreq req (or_introl eq_refl)) as (_ & Hurl & _).
  cbn [map]. rewrite Hurl. vm_compute. reflexivity.
Defined.

Lemma analysis_swallows_fetch_failures_witness :
  outcome
    (analyze_event_scalp_potential
       (mock_platform 0 (replies 500 (VDict []))) mock_credentials
       (fun _ => None) (fun _ => "") (VStr "EV")
       (VDict [("ticker", VStr "KXNBAGAME-A"); ("close_ts", VInt 1730000000)])
       [] 1 mock_state) = Ok [] /\
  List.length
    (http_requests
       (emitted
          (analyze_event_scalp_potential
             (mock_platform 0 (replies 500 (VDict []))) mock_credentials
             (fun _ => None) (fun _ => "") (VStr "EV")
             (VDict [("ticker", VStr "KXNBAGAME-A"); ("close_ts", VInt 1730000000)])
             [] 1 mock_state))) = 1%nat.
Proof.
  rewrite (proj1 (analysis_swallows_fetch_failures
                    (mock_platform 0 (replies 500 (VDict []))) mock_credentials
                    (fun _ => None) (fun _ => "") (VStr "EV")
                    [("ticker", VStr "KXNBAGAME-A"); ("close_ts", VInt 1730000000)]
                    (VStr "KXNBAGAME-A") 1730000000 [] 1 mock_state
                    eq_refl eq_refl)
             (HTTPError 500 "raw body")).
  - split; [reflexivity|]. vm_compute. reflexivity.
  - vm_compute. reflexivity.
Defined.

(** X23.  A returned analysis has at most two entries, one for the first market
    and one for the second, and none beyond; with a single market it has
    at most one.  Every entry agrees with itself: its profit is its exit
    price less its entry price, it is a favourite exactly above 50, it
    wins 5 or 10 cents exactly when the profit reaches them, and its exit
    price is not negative.  The first entry bears the ticker of the first
    market. *)
Theorem analysis_entries_are_coherent
  (P : Platform) (C : Credentials) (dateutil_timestamp : string -> option Z)
  (container_str : PyVal -> string)
  (event_ticker market_a : PyVal) (more_markets : list PyVal)
  (candle_interval : Z) (s : State) (results : list PyVal) :
  outcome (analyze_event_scalp_potential P C dateutil_timestamp container_str
             event_ticker market_a more_markets candle_interval s) = Ok results ->
  (List.length results <= 2)%nat /\
  (more_markets = [] -> (List.length results <= 1)%nat) /\
  forallb coherent results = true /\
  (forall entry rest, results = entry :: rest ->
     exists ticker_a,
       py_getitem market_a "ticker" = Ok ticker_a /\
       entry_field entry "ticker" = Some ticker_a) /\
  (forall entry, In entry results ->
     entry_field entry "win_10c" = Some (VBool true) ->
     entry_field entry "win_5c" = Some (VBool true)).
Proof.
  rewrite analyze_event_scalp_potential_run.
  assert (forall ticker_a candles_resp,
            analyze_candles market_a ticker_a more_markets candles_resp = Ok results ->
            (List.length results <= 2)%nat /\
            (more_markets = [] -> (List.length results <= 1)%nat) /\
            forallb coherent results = true /\
            (forall entry rest, results = entry :: rest ->
               entry_field entry "ticker" = Some ticker_a) /\
            (forall entry, In entry results ->
               entry_field entry "win_10c" = Some (VBool true) ->
               entry_field entry "win_5c" = Some (VBool true))) as Hpure.
  { intros ticker_a candles_resp H.
    apply analyze_candles_returns in H
      as [->|(first_candle & later & open_a & yes_bid_a & max_a & min_a & title_a
              & result_a & _ & _ & _ & Hscan & _ & H)].
    { cbn. repeat split; try lia; try discriminate; try (now intros ? []). }
    destruct (scan_candles_bounds later _ _ _ _ Hscan) as (Hmax & Hmin & _).
    cbn [number_value] in Hmax, Hmin.
    cbn zeta in H.
    destruct H as [[-> _]|(market_b & rest & bid_a & ticker_b & title_b & result_b
                           & -> & _ & _ & _ & ->)].
    - cbn [List.length forallb]. rewrite (scalp_entry_coherent _ _ _ _ _ Hmax).
      repeat split; try lia.
      + intros entry rest' H. injection H as <- _. reflexivity.
      + intros entry [<-|[]]. apply scalp_entry_wins.
    - cbn [List.length forallb]. rewrite (scalp_entry_coherent _ _ _ _ _ Hmax).
      assert (0 <= (if number_value min_a =? 100 then 0
                    else 100 - number_value min_a)) as Hb
        by (destruct (Z.eqb_spec (number_value min_a) 100); lia).
      apply (scalp_entry_coherent ticker_b title_b result_b
               (NInt (100 - number_value bid_a)) (NInt _)) in Hb.
      cbn [number_value number_object] in Hb. rewrite Hb.
      repeat split; try lia; try discriminate.
      + intros entry rest' H. injection H as <- _. reflexivity.
      + intros entry [<-|[<-|[]]]; apply scalp_entry_wins. }
  destruct market_a as [| | | | |fields]; cbn [outcome]; try discriminate.
  cbn [py_getitem].
  destruct (dict_get fields "ticker") as [ticker_a|]; cbn [outcome];
    [|discriminate].
  destruct (end_time dateutil_timestamp fields end_time_keys) as [end_ts|];
    cbn [outcome].
  - cbn zeta. cbn [outcome].
    destruct (outcome (get P C _ [] s)) as [candles_resp|e].
    + intros H. destruct (Hpure ticker_a candles_resp H) as (H1 & H2 & H3 & H4 & H5).
      repeat split; auto. intros entry rest' Hr. exists ticker_a.
      split; [reflexivity|exact (H4 entry rest' Hr)].
    + intros H. injection H as <-. cbn.
      repeat split; try lia; try discriminate; try (now intros ? []).
  - intros H. injection H as <-. cbn.
    repeat split; try lia; try discriminate; try (now intros ? []).
Qed.

Lemma analysis_entries_are_coherent_witness :
  let candles :=
    VDict [("candlesticks",
            VList [VDict [("yes_bid", VDict [("close", VInt 40); ("high", VInt 99)]);
                          ("yes_ask", VDict [("close", VInt 42); ("low", VInt 41)])];
                   VDict [("yes_bid", VDict [("close", VInt 47); ("high", VInt 48)]);
                          ("yes_ask", VDict [("close", VInt 49); ("low", VInt 44)])]])] in
  let results :=
    [ scalp_entry (VStr "KXNBAGAME-A") (VStr "Lakers") (VInt 42) (VInt 48) 42 6
        (VStr "yes");
      scalp_entry (VStr "KXNBAGAME-B") (VStr "Celtics") (VInt 60) (VInt 56) 60 (-4)
        VNone ] in
  outcome
    (analyze_event_scalp_potential (mock_platform 0 (replies 200 candles))
       mock_credentials (fun _ => None) (fun _ => "") (VStr "EV")
       (VDict [("ticker", VStr "KXNBAGAME-A"); ("title", VStr "Lakers");
               ("result", VStr "yes"); ("close_ts", VInt 1730000000)])
       [VDict [("ticker", VStr "KXNBAGAME-B"); ("title", VStr "Celtics")]]
       1 mock_state) = Ok results /\
  forallb coherent results = true.
Proof.
  cbn zeta.
  assert (outcome
            (analyze_event_scalp_potential
               (mock_platform 0
                  (replies 200
                     (VDict [("candlesticks",
                              VList [VDict [("yes_bid", VDict [("close", VInt 40); ("high", VInt 99)]);
                                            ("yes_ask", VDict [("close", VInt 42); ("low", VInt 41)])];
                                     VDict [("yes_bid", VDict [("close", VInt 47); ("high", VInt 48)]);
                                            ("yes_ask", VDict [("close", VInt 49); ("low", VInt 44)])]])])))
               mock_credentials (fun _ => None) (fun _ => "") (VStr "EV")
               (VDict [("ticker", VStr "KXNBAGAME-A"); ("title", VStr "Lakers");
                       ("result", VStr "yes"); ("close_ts", VInt 1730000000)])
               [VDict [("ticker", VStr "KXNBAGAME-B"); ("title", VStr "Celtics")]]
               1 mock_state)
          = Ok [ scalp_entry (VStr "KXNBAGAME-A") (VStr "Lakers") (VInt 42) (VInt 48)
                   42 6 (VStr "yes");
                 scalp_entry (VStr "KXNBAGAME-B") (VStr "Celtics") (VInt 60) (VInt 56)
                   60 (-4) VNone ]) as H
    by (vm_compute; reflexivity).
  split; [exact H|].
  exact (proj1 (proj2 (proj2 (analysis_entries_are_coherent _ _ _ _ _ _ _ _ _ _ H)))).
Defined.

(** X24.  The exit price of the first market is the highest of the bids of the
    candles after the first, or 0 when none of them is above 0: the bids
    of the first candle are not looked at, so an analysis of a single
    candle has the exit price 0.  The entry price is the closing ask of
    the first candle. *)
Theorem exit_price_is_highest_later_bid
  (market_a ticker_a : PyVal) (more_markets : list PyVal) (candles_resp : PyVal)
  (entry_a : PyVal) (others : list PyVal) :
  analyze_candles market_a ticker_a more_markets candles_resp
    = Ok (entry_a :: others) ->
  exists first_candle later open_price max_exit_price,
    py_get candles_resp "candlesticks" (VList []) = Ok (VList (first_candle :: later)) /\
    quote first_candle "yes_ask" "close" = Ok open_price /\
    entry_field entry_a "open_price" = Some open_price /\
    entry_number entry_a "max_exit_price" = Some max_exit_price /\
    (forall candle bid n,
       In candle later -> quote candle "yes_bid" "high" = Ok bid ->
       truthy bid = true -> as_number bid = Ok n ->
       number_value n <= max_exit_price) /\
    (max_exit_price = 0 \/
     exists candle n,
       In candle later /\ quote candle "yes_bid" "high" = Ok (number_object n) /\
       number_value n = max_exit_price) /\
    (later = [] -> max_exit_price = 0).
Proof.
  intros H. apply analyze_candles_returns in H as [H|H]; [discriminate|].
  destruct H as (first_candle & later & open_a & yes_bid_a & max_a & min_a & title_a
                 & result_a & Hc & Hask & _ & Hscan & _ & H).
  cbn zeta in H.
  assert (entry_a =
          scalp_entry ticker_a title_a (number_object open_a) (number_object max_a)
            (number_value open_a) (number_value max_a - number_value open_a)
            result_a) as ->.
  { destruct H as [[H _]|(? & ? & ? & ? & ? & ? & _ & _ & _ & _ & H)]; congruence. }
  destruct (scalp_entry_fields ticker_a title_a result_a open_a max_a
              (number_value max_a - number_value open_a)) as (_ & _ & Hexit).
  cbn zeta in Hexit.
  destruct (scan_candles_bounds later _ _ _ _ Hscan) as (_ & _ & Hall & _ & Hsome & _).
  exists first_candle, later, (number_object open_a), (number_value max_a).
  split; [exact Hc|]. split; [exact Hask|]. split; [reflexivity|].
  split; [exact Hexit|]. split; [exact Hall|]. split.
  - destruct Hsome as [->|(candle & Hin & Hq)]; [now left|].
    right. exists candle, max_a. auto.
  - intros ->. cbn [scan_candles] in Hscan. now injection Hscan as <- _.
Qed.

Lemma exit_price_is_highest_later_bid_witness :
  exists max_exit_price,
    entry_number
      (scalp_entry (VStr "KXNBAGAME-A") (VStr "Lakers") (VInt 42) (VInt 48) 42 6 VNone)
      "max_exit_price" = Some max_exit_price /\
    48 <= max_exit_price.
Proof.
  destruct (exit_price_is_highest_later_bid
              (VDict [("ticker", VStr "KXNBAGAME-A"); ("title", VStr "Lakers")])
              (VStr "KXNBAGAME-A") []
              (VDict [("candlesticks",
                       VList [VDict [("yes_bid", VDict [("high", VInt 99)]);
                                     ("yes_ask", VDict [("close", VInt 42)])];
                              VDict [("yes_bid", VDict [("high", VInt 48)])];
                              VDict [("yes_bid", VDict [("high", VInt 45)])]])])
              (scalp_entry (VStr "KXNBAGAME-A") (VStr "Lakers") (VInt 42) (VInt 48)
                 42 6 VNone)
              [] eq_refl)
    as (first_candle & later & open_price & max_exit_price & Hc & _ & _ & Hexit
        & Hall & _).
  cbn [py_get dict_get String.eqb Ascii.eqb Bool.eqb andb] in Hc.
  assert (later = [VDict [("yes_bid", VDict [("high", VInt 48)])];
                   VDict [("yes_bid", VDict [("high", VInt 45)])]]) as ->
    by congruence.
  exists max_exit_price. split; [exact Hexit|].
  exact (Hall (VDict [("yes_bid", VDict [("high", VInt 48)])]) (VInt 48) (NInt 48)
           (or_introl eq_refl) eq_refl eq_refl eq_refl).
Defined.

(** X25.  The entry of the second market is inferred from the candles of the
    first: its entry price is 100 less the closing bid of the first
    candle, and its exit price is 100 less the lowest ask of the later
    candles, capped at 100; the branch for a lowest ask of 100 gives the
    same value.  Its profit is therefore that closing bid less that
    lowest ask. *)
Theorem second_market_is_inferred_from_first
  (market_a ticker_a : PyVal) (more_markets : list PyVal) (candles_resp : PyVal)
  (entry_a entry_b : PyVal) :
  analyze_candles market_a ticker_a more_markets candles_resp
    = Ok [entry_a; entry_b] ->
  exists first_candle later market_b rest bid_a lowest_ask,
    py_get candles_resp "candlesticks" (VList []) = Ok (VList (first_candle :: later)) /\
    more_markets = market_b :: rest /\
    (exists ticker_b,
       py_getitem market_b "ticker" = Ok ticker_b /\
       entry_field entry_b "ticker" = Some ticker_b) /\
    quote first_candle "yes_bid" "close" = Ok (number_object bid_a) /\
    lowest_ask <= 100 /\
    (forall candle ask n,
       In candle later -> quote candle "yes_ask" "low" = Ok ask ->
       truthy ask = true -> as_number ask = Ok n ->
       lowest_ask <= number_value n) /\
    (lowest_ask = 100 \/
     exists candle n,
       In candle later /\ quote candle "yes_ask" "low" = Ok (number_object n) /\
       number_value n = lowest_ask) /\
    entry_number entry_b "open_price" = Some (100 - number_value bid_a) /\
    entry_number entry_b "max_exit_price" = Some (100 - lowest_ask) /\
    entry_field entry_b "profit_potential" =
      Some (VInt (number_value bid_a - lowest_ask)).
Proof.
  intros H. apply analyze_candles_returns in H as [H|H]; [discriminate|].
  destruct H as (first_candle & later & open_a & yes_bid_a & max_a & min_a & title_a
                 & result_a & Hc & _ & Hbid & Hscan & _ & H).
  cbn zeta in H.
  destruct H as [[H _]|(market_b & rest & bid_a & ticker_b & title_b & result_b
                        & -> & -> & Htb & _ & H)]; [discriminate|].
  assert (entry_b =
          scalp_entry ticker_b title_b (VInt (100 - number_value bid_a))
            (VInt (if number_value min_a =? 100 then 0 else 100 - number_value min_a))
            (100 - number_value bid_a)
            ((if number_value min_a =? 100 then 0 else 100 - number_value min_a)
             - (100 - number_value bid_a)) result_b) as -> by congruence.
  destruct (scan_candles_bounds later _ _ _ _ Hscan) as (_ & Hle & _ & Hall & _ & Hsome).
  cbn [number_value] in Hle.
  assert ((if number_value min_a =? 100 then 0 else 100 - number_value min_a)
          = 100 - number_value min_a) as ->
    by (destruct (Z.eqb_spec (number_value min_a) 100); lia).
  exists first_candle, later, market_b, rest, bid_a, (number_value min_a).
  split; [exact Hc|]. split; [reflexivity|].
  split; [exists ticker_b; split; [exact Htb|reflexivity]|].
  split; [exact Hbid|]. split; [exact Hle|].
  split; [exact Hall|]. split.
  { destruct Hsome as [->|(candle & Hin & Hq)]; [now left|].
    right. exists candle, min_a. auto. }
  unfold entry_number, entry_field, scalp_entry.
  cbn [dict_get String.eqb Ascii.eqb Bool.eqb andb as_number number_value].
  repeat split. do 2 f_equal. lia.
Qed.

Lemma second_market_is_inferred_from_first_witness :
  exists bid_a lowest_ask,
    bid_a = NInt 40 /\ lowest_ask <= 44 /\
    entry_field
      (scalp_entry (VStr "KXNBAGAME-B") (VStr "Celtics") (VInt 60) (VInt 56) 60 (-4)
         VNone) "profit_potential" = Some (VInt (number_value bid_a - lowest_ask)).
Proof.
  destruct (second_market_is_inferred_from_first
              (VDict [("ticker", VStr "KXNBAGAME-A"); ("title", VStr "Lakers")])
              (VStr "KXNBAGAME-A")
              [VDict [("ticker", VStr "KXNBAGAME-B"); ("title", VStr "Celtics")]]
              (VDict [("candlesticks",
                       VList [VDict [("yes_bid", VDict [("close", VInt 40)]);
                                     ("yes_ask", VDict [("close", VInt 42)])];
                              VDict [("yes_ask", VDict [("low", VInt 44)])]])])
              (scalp_entry (VStr "KXNBAGAME-A") (VStr "Lakers") (VInt 42) (VInt 0)
                 42 (-42) VNone)
              (scalp_entry (VStr "KXNBAGAME-B") (VStr "Celtics") (VInt 60) (VInt 56)
                 60 (-4) VNone)
              eq_refl)
    as (first_candle & later & market_b & rest & bid_a & lowest_ask & Hc & _ & _
        & Hbid & _ & Hall & _ & _ & _ & Hprofit).
  cbn [py_get dict_get String.eqb Ascii.eqb Bool.eqb andb] in Hc.
  assert (first_candle = VDict [("yes_bid", VDict [("close", VInt 40)]);
                                ("yes_ask", VDict [("close", VInt 42)])] /\
          later = [VDict [("yes_ask", VDict [("low", VInt 44)])]]) as [-> ->]
    by (split; congruence).
  assert (bid_a = NInt 40) as ->
    by (destruct bid_a; cbn in Hbid; congruence).
  exists (NInt 40), lowest_ask. split; [reflexivity|]. split.
  - exact (Hall (VDict [("yes_ask", VDict [("low", VInt 44)])]) (VInt 44) (NInt 44)
             (or_introl eq_refl) eq_refl eq_refl eq_refl).
  - exact Hprofit.
Defined.
